(** * Mask / gender / age classification scripts: label packing, joint age
      loss, checkpoint selection, validation metrics and script-level defects.

    The development embeds the arithmetic and the control flow of
    [train_models.py], [train_age.py], [train_5fold.py] and [final/test.py].
    Tensor entries are exact rationals ([Qc]) extended with the IEEE special
    values; rounding is not modelled. *)

From Stdlib Require Import ZArith QArith Qcanon Lia Ascii String.
From stdpp Require Import base numbers option list strings pretty gmap.

Local Open Scope Z_scope.

(** ** Exceptions and the result type shared by all scripts *)

Inductive exn : Type :=
  | NameError (name : string)
  | UnboundLocalError (name : string)
  | ZeroDivisionError
  | IndexError
  | RuntimeError
  | AssertionError.

Inductive result (A : Type) : Type :=
  | Ok (a : A)
  | Raise (e : exn).
Arguments Ok {A} a.
Arguments Raise {A} e.

#[global] Instance exn_eq_dec : EqDecision exn.
Proof. solve_decision. Defined.

#[global] Instance result_eq_dec `{EqDecision A} : EqDecision (result A).
Proof. solve_decision. Defined.

#[global] Instance result_ret : MRet result := λ A a, Ok a.
#[global] Instance result_fmap : FMap result := λ A B f m,
  match m with
  | Ok a => Ok (f a)
  | Raise e => Raise e
  end.
#[global] Instance result_bind : MBind result := λ A B k m,
  match m with
  | Ok a => k a
  | Raise e => Raise e
  end.

(** ** Tensor entries and Python numbers *)

Module Tensor.

(** A float: an exact rational or one of the IEEE special values. *)
Inductive fval : Type :=
  | Fin (q : Qc)
  | PInf
  | NInf
  | NaN.

#[global] Instance fval_eq_dec : EqDecision fval.
Proof. solve_decision. Defined.

Definition fadd (x y : fval) : fval :=
  match x, y with
  | NaN, _ | _, NaN => NaN
  | Fin a, Fin b => Fin (a + b)
  | PInf, NInf | NInf, PInf => NaN
  | PInf, _ | _, PInf => PInf
  | NInf, _ | _, NInf => NInf
  end.

Definition fneg (x : fval) : fval :=
  match x with
  | Fin a => Fin (- a)
  | PInf => NInf
  | NInf => PInf
  | NaN => NaN
  end.

(** Sign of a rational as an infinity, [NaN] at zero: the value of
    [q * inf] and of [q / 0]. *)
Definition signed_inf (q : Qc) : fval :=
  if decide (q = 0%Qc) then NaN
  else if decide (0 < q)%Qc then PInf else NInf.

Definition fmul (x y : fval) : fval :=
  match x, y with
  | NaN, _ | _, NaN => NaN
  | Fin a, Fin b => Fin (a * b)
  | Fin a, PInf | PInf, Fin a => signed_inf a
  | Fin a, NInf | NInf, Fin a => fneg (signed_inf a)
  | PInf, PInf | NInf, NInf => PInf
  | PInf, NInf | NInf, PInf => NInf
  end.

(** IEEE division (tensor division never raises). *)
Definition fdiv (x y : fval) : fval :=
  match x, y with
  | NaN, _ | _, NaN => NaN
  | Fin a, Fin b => if decide (b = 0%Qc) then signed_inf a else Fin (a / b)
  | Fin _, (PInf | NInf) => Fin 0
  | (PInf | NInf), (PInf | NInf) => NaN
  | PInf, Fin b => if decide (b < 0)%Qc then NInf else PInf
  | NInf, Fin b => if decide (b < 0)%Qc then PInf else NInf
  end.

(** [torch.sum] of a slice, and the [+=] accumulation of a Python float. *)
Definition fsum (l : list fval) : fval := foldl fadd (Fin 0) l.


Definition of_Z (n : Z) : fval := Fin (Qc_of_Z n).

(** Python [x / n] for a float [x] and an int [n]. *)
Definition py_truediv (x : fval) (n : Z) : result fval :=
  if decide (n = 0) then Raise ZeroDivisionError else Ok (fdiv x (of_Z n)).

(** Python [a % b] on ints (floored, as [Z.modulo]). *)
Definition py_mod (a b : Z) : result Z :=
  if decide (b = 0) then Raise ZeroDivisionError else Ok (a mod b).

Definition qmin (a b : Qc) : Qc := if decide (a ≤ b)%Qc then a else b.
Definition qmax (a b : Qc) : Qc := if decide (a ≤ b)%Qc then b else a.

(** [torch.min(t)] and [torch.max(t)] without a [dim]: over all entries. *)
Definition torch_min (t : list (list Qc)) : result Qc :=
  match concat t with
  | [] => Raise RuntimeError
  | x :: xs => Ok (foldl qmin x xs)
  end.

Definition torch_max (t : list (list Qc)) : result Qc :=
  match concat t with
  | [] => Raise RuntimeError
  | x :: xs => Ok (foldl qmax x xs)
  end.

(** [torch.argmax(row)] / [torch.max(t, 1)[1]] on one row: the index of the
    first maximal entry. *)
Fixpoint argmax_from (best : Qc) (besti : nat) (i : nat) (row : list Qc) : nat :=
  match row with
  | [] => besti
  | x :: xs =>
      if decide (best < x)%Qc
      then argmax_from x i (S i) xs
      else argmax_from best besti (S i) xs
  end.

Definition argmax (row : list Qc) : nat :=
  match row with
  | [] => 0%nat
  | x :: xs => argmax_from x 0%nat 1%nat xs
  end.

(** [(a == b).sum().item()] on two label tensors of one batch. *)
Fixpoint count_eq (xs ys : list Z) : Z :=
  match xs, ys with
  | x :: xr, y :: yr => (if decide (x = y) then 1 else 0) + count_eq xr yr
  | _, _ => 0
  end.

(** [DataLoader(ds, batch_size, shuffle=False, drop_last=True)]: consecutive
    full batches; an incomplete last batch is dropped.  ([fuel] bounds the
    number of batches; [length ds] is enough.) *)
Fixpoint full_batches {A} (fuel batch_size : nat) (ds : list A) : list (list A) :=
  match fuel with
  | O => []
  | S fuel' =>
      if decide (batch_size ≤ length ds)%nat
      then take batch_size ds :: full_batches fuel' batch_size (drop batch_size ds)
      else []
  end.

Definition DataLoader_drop_last {A} (batch_size : nat) (ds : list A) : list (list A) :=
  match batch_size with
  | O => []
  | S _ => full_batches (length ds) batch_size ds
  end.

End Tensor.
Export Tensor.

(** ** Label packing ([train_models.py], lines 86-92) *)

Module Labels.

(** Index tensors are [int64]; arithmetic on them wraps around. *)
Definition wrap_int64 (z : Z) : Z := (z + 2 ^ 63) mod 2 ^ 64 - 2 ^ 63.

(** Line 91, per sample:
    [pred = argmax(age_pred) + 3*argmax(gender_pred) + 6*argmax(mask_pred)]. *)
Definition pred_class (age gender mask : Z) : Z :=
  wrap_int64 (wrap_int64 (age + wrap_int64 (3 * gender)) + wrap_int64 (6 * mask)).

(** Line 91 on the three heads' logits of one sample. *)
Definition pred_of_logits (age_pred gender_pred mask_pred : list Qc) : Z :=
  pred_class (Z.of_nat (argmax age_pred))
             (Z.of_nat (argmax gender_pred))
             (Z.of_nat (argmax mask_pred)).

(** Line 91 on a batch (the tensors are combined element-wise). *)
Fixpoint pred_batch (age_pred gender_pred mask_pred : list (list Qc)) : list Z :=
  match age_pred, gender_pred, mask_pred with
  | a :: ar, g :: gr, m :: mr => pred_of_logits a g m :: pred_batch ar gr mr
  | _, _, _ => []
  end.

(** Line 92: [acc = torch.sum(pred == label) / len(label)]. *)
Definition acc (pred label : list Z) : fval :=
  fdiv (of_Z (count_eq pred label)) (of_Z (Z.of_nat (length label))).

(** Modelled from the spec: [MaskBaseDataset.decode_multi_class], a method of
    the [dataset] module that the scripts import.  The spec gives a
    fixed-radix, mask-major decomposition by integer division and modulo
    (age has 3 buckets, gender 2, mask 3). *)
Definition decode_multi_class (multi_class_label : Z) : Z * Z * Z :=
  ((multi_class_label / 6) mod 3,
   (multi_class_label / 3) mod 2,
   multi_class_label mod 3).

(** The spec's [compose], in the spec's argument order. *)
Definition compose (mask gender age : Z) : Z := pred_class age gender mask.

End Labels.

(** ** The deep-learning framework, as the scripts see it

    Networks, losses built from [exp]/[log], optimizers and metrics are
    library code.  The scripts only compose them, so they are the operations
    of an interface. *)

Class Framework : Type := {
  (** model weights together with optimizer and scheduler state *)
  params : Type;
  image : Type;
  (** [model_module(num_classes=...)], seeded, for a given fold *)
  init_params : nat → params;
  (** [model(inputs)]: one row of logits per image *)
  forward : params → list image → list (list Qc);
  (** [create_criterion(args.criterion)] *)
  criterion : list (list Qc) → list Z → fval;
  (** [nn.CrossEntropyLoss(weight=w)(scores, target)] *)
  CrossEntropyLoss : list Qc → list (list fval) → list Z → fval;
  (** [optimizer.zero_grad(); loss.backward(); optimizer.step()] on a batch *)
  optimizer_step : params → list image → list (list Z) → params;
  (** [scheduler.step()] *)
  scheduler_step : params → params;
  (** [f1_score(y_true, y_pred, average='macro')] *)
  f1_score : list Z → list Z → Qc;
  (** [AgeBaseDataset.encode_original_age], per predicted class *)
  encode_original_age : Z → Z;
  (** [str.format] of a float *)
  format_float : fval → string;
}.

(** ** Checkpoint files *)

Module Checkpoint.
Section WithFramework.
Context `{Framework}.

(** What [torch.save] pickles: a state dict or a whole model. *)
Inductive pickled : Type :=
  | StateDict (p : params)
  | WholeModel (p : params).

Record trackers : Type := {
  best_val_acc : Qc;
  best_val_f1 : Qc;
  best_val_loss : fval;
}.

(** [best_val_acc = 0; best_val_f1 = 0; best_val_loss = np.inf] *)
Definition init_trackers : trackers :=
  {| best_val_acc := 0%Qc; best_val_f1 := 0%Qc; best_val_loss := PInf |}.

(** Python [min(a, b)]: [b] when [b < a], else [a]. *)
Definition flt (x y : fval) : bool :=
  match x, y with
  | Fin a, Fin b => bool_decide (a < b)%Qc
  | NInf, (Fin _ | PInf) => true
  | Fin _, PInf => true
  | _, _ => false
  end.
Definition py_min (a b : fval) : fval := if flt b a then b else a.

Definition best_path (save_dir : string) : string := save_dir +:+ "/best.pth".
Definition last_path (save_dir : string) : string := save_dir +:+ "/last.pth".

(** [train_age.py] lines 293-299 and [train_5fold.py] lines 274-281 (without
    the per-epoch [torch.save(model, ...)] of the latter):
    update the trackers, write [best.pth] on a strictly larger F1, write
    [last.pth].  Returns the new trackers, the files and whether
    [best.pth] was written. *)
Definition save_checkpoints (save_dir : string) (p : params)
    (score val_acc : Qc) (val_loss : fval)
    (tr : trackers) (fs : gmap string pickled)
  : trackers * gmap string pickled * bool :=
  let best_val_loss' := py_min (best_val_loss tr) val_loss in
  let best_val_acc' := qmax val_acc (best_val_acc tr) in
  let '(fs1, best_val_f1', wrote) :=
    if decide (best_val_f1 tr < score)%Qc
    then (<[best_path save_dir := StateDict p]> fs, score, true)
    else (fs, best_val_f1 tr, false) in
  let fs2 := <[last_path save_dir := StateDict p]> fs1 in
  ({| best_val_acc := best_val_acc';
      best_val_f1 := best_val_f1';
      best_val_loss := best_val_loss' |}, fs2, wrote).

(** What one epoch did to the checkpoint files. *)
Record ckpt_event : Type := {
  ce_score : Qc;
  ce_params : params;
  ce_wrote : bool;
  ce_files : gmap string pickled;
}.

(** A sequence of epochs starting from the files [fs] and the tracker
    value [best]: each epoch writes [best.pth] exactly on a score above
    the tracker, always writes [last.pth], and hands its files and the
    updated tracker to the next one. *)
Fixpoint ckpt_chain (save_dir : string) (fs : gmap string pickled)
    (best : Qc) (evs : list ckpt_event) : Prop :=
  match evs with
  | [] => True
  | e :: evs' =>
      ce_wrote e = bool_decide (best < ce_score e)%Qc
      ∧ ce_files e !! last_path save_dir = Some (StateDict (ce_params e))
      ∧ ce_files e !! best_path save_dir =
          (if ce_wrote e then Some (StateDict (ce_params e))
           else fs !! best_path save_dir)
      ∧ ckpt_chain save_dir (ce_files e)
          (if ce_wrote e then ce_score e else best) evs'
  end.

(** The files after the last of the epochs. *)
Definition final_files (fs : gmap string pickled) (evs : list ckpt_event)
  : gmap string pickled :=
  from_option ce_files fs (last evs).

(** The files before epoch [k]. *)
Definition files_before (fs : gmap string pickled) (evs : list ckpt_event)
    (k : nat) : gmap string pickled :=
  match k with
  | O => fs
  | S j => from_option ce_files fs (evs !! j)
  end.

(** The last epoch that wrote [best.pth]. *)
Definition last_writer (evs : list ckpt_event) : option ckpt_event :=
  last (filter (λ e, ce_wrote e = true) evs).

End WithFramework.
End Checkpoint.
Export Checkpoint.

(** ** [train_age.py] *)

Module Age.
Section WithFramework.
Context `{Framework}.

(** One item of [AgeBaseDataset]: image, 3-class label, 11-class label. *)
Record sample : Type := {
  s_image : image;
  s_org_label : Z;
  s_label : Z;
}.

Record args : Type := {
  epochs : nat;
  batch_size : nat;
  valid_batch_size : nat;
  log_interval : Z;
}.

(** [preds = torch.argmax(outs, dim=-1)] *)
Definition preds_of (outs : list (list Qc)) : list Z :=
  (λ row, Z.of_nat (argmax row)) <$> outs.

(** Line 189:
    [(outs - torch.min(outs)) / (torch.max(outs) - torch.min(outs))] *)
Definition normalise (mn mx x : Qc) : fval :=
  fdiv (Fin (x - mn)) (Fin (mx - mn)).

Definition outs_normal (outs : list (list Qc)) : result (list (list fval)) :=
  mn ← torch_min outs;
  mx ← torch_max outs;
  mret (fmap (M:=list) (normalise mn mx) <$> outs).

(** Line 190 on one row: [sum(row[:5])], [sum(row[5:11])], [row[-1]]. *)
Definition final_outs_row (row : list fval) : result (list fval) :=
  match last row with
  | None => Raise IndexError
  | Some l => Ok [fsum (take 5 row); fsum (take (11 - 5) (drop 5 row)); l]
  end.

Definition final_outs (normal : list (list fval)) : result (list (list fval)) :=
  mapM final_outs_row normal.

(** Line 193 *)
Definition weights : list Qc := [Q2Qc (3 # 2); Q2Qc (3 # 2); Q2Qc 7].

Record losses : Type := {
  age_loss : fval;
  original_loss : fval;
  loss : fval;
}.

(** Lines 187-197 *)
Definition joint_loss (outs : list (list Qc)) (org_labels labels : list Z)
  : result losses :=
  let age_loss := criterion outs labels in
  normal ← outs_normal outs;
  final ← final_outs normal;
  let original_loss := CrossEntropyLoss weights final org_labels in
  mret {| age_loss := age_loss;
          original_loss := original_loss;
          loss := fadd (fmul (Fin (Q2Qc (1 # 2))) age_loss) original_loss |}.

(** The bucketing in the spec's words: indices 0-4, indices 5-10 without
    the last, the last index alone. *)
Definition partition_row (row : list fval) : result (list fval) :=
  match last row with
  | None => Raise IndexError
  | Some l => Ok [fsum (take 5 row); fsum (take (10 - 5) (drop 5 row)); l]
  end.

(** [v] is [0.5 * fine_loss + coarse_loss] for the batch [b] under the
    weights [p]: the criterion on the 11 logits and the fine labels, the
    cross-entropy weighted [1.5, 1.5, 7.0] on the three bucket scores and
    the coarse labels. *)
Definition is_joint_loss (p : params) (b : list sample) (v : fval) : Prop :=
  let outs := forward p (s_image <$> b) in
  ∃ normal final,
    outs_normal outs = Ok normal ∧ final_outs normal = Ok final
    ∧ v = fadd (fmul (Fin (Q2Qc (1 # 2))) (criterion outs (s_label <$> b)))
               (CrossEntropyLoss [Q2Qc (3 # 2); Q2Qc (3 # 2); Q2Qc 7] final
                  (s_org_label <$> b)).

(** The values [vs] are the joint losses of the batches, each under the
    weights left by the optimizer steps on the batches before it. *)
Fixpoint joint_trace (p : params) (batches : list (list sample))
    (vs : list fval) : Prop :=
  match batches, vs with
  | [], [] => True
  | b :: bs, v :: vs' =>
      is_joint_loss p b v
      ∧ joint_trace
          (optimizer_step p (s_image <$> b) [s_org_label <$> b; s_label <$> b])
          bs vs'
  | _, _ => False
  end.

(** The model answers every image with eleven logits. *)
Definition eleven_classes : Prop :=
  ∀ p imgs, length (forward p imgs) = length imgs
            ∧ Forall (λ row, length row = 11%nat) (forward p imgs).

(** Mean of the losses of a window, and half of it. *)
Definition mean (w : list fval) : fval :=
  fdiv (fsum w) (of_Z (Z.of_nat (length w))).
Definition half_of_mean (w : list fval) : fval :=
  fmul (Fin (Q2Qc (1 # 2))) (mean w).

(** The [train_loss] values logged over a sequence of batch losses, from a
    running sum [acc] at batch index [idx] (lines 202, 208-209, 232). *)
Fixpoint logged_losses (interval : Z) (acc : fval) (idx : nat)
    (vs : list fval) : list fval :=
  match vs with
  | [] => []
  | v :: vs' =>
      let acc' := fadd acc (fdiv v (of_Z 2)) in
      if decide ((Z.of_nat idx + 1) mod interval = 0)
      then fdiv acc' (of_Z interval) :: logged_losses interval (Fin 0) (S idx) vs'
      else logged_losses interval acc' (S idx) vs'
  end.

(** The running sums of one logging window. *)
Record accum : Type := {
  loss_value : fval;
  matches : Z;
  original_matches : Z;
  f1 : Qc;
  final_f1 : Qc;
}.

Definition accum0 : accum :=
  {| loss_value := Fin 0; matches := 0; original_matches := 0;
     f1 := 0%Qc; final_f1 := 0%Qc |}.

Record train_log : Type := {
  log_idx : nat;
  train_loss : fval;
  train_acc : fval;
  final_acc : fval;
  log_f1 : Qc;
  log_final_f1 : Qc;
}.

Record train_state : Type := {
  ts_params : params;
  (** the local variable [inputs], unbound until a loop body has run *)
  ts_inputs : option (list image);
  ts_accum : accum;
  (** the value of [loss] at each [loss.backward()], oldest first *)
  ts_backward : list fval;
  (** what was printed and logged, oldest first *)
  ts_logs : list train_log;
}.

(** Lines 178-236: one iteration of the batch loop. *)
Definition train_step (a : args) (st : train_state) (idx : nat)
    (train_batch : list sample) : result train_state :=
  let inputs := s_image <$> train_batch in
  let org_labels := s_org_label <$> train_batch in
  let labels := s_label <$> train_batch in
  let outs := forward (ts_params st) inputs in
  let preds := preds_of outs in
  l ← joint_loss outs org_labels labels;
  let final_preds := encode_original_age <$> preds in
  let p' := optimizer_step (ts_params st) inputs [org_labels; labels] in
  let acc := ts_accum st in
  let acc' :=
    {| loss_value := fadd (loss_value acc) (fdiv (loss l) (of_Z 2));
       matches := matches acc + count_eq preds labels;
       original_matches := original_matches acc + count_eq final_preds org_labels;
       f1 := (f1 acc + f1_score labels preds)%Qc;
       final_f1 := (final_f1 acc + f1_score org_labels final_preds)%Qc |} in
  r ← py_mod (Z.of_nat idx + 1) (log_interval a);
  if decide (r = 0) then
    train_loss ← py_truediv (loss_value acc') (log_interval a);
    ma ← py_truediv (of_Z (matches acc')) (Z.of_nat (batch_size a));
    train_acc ← py_truediv ma (log_interval a);
    oa ← py_truediv (of_Z (original_matches acc')) (Z.of_nat (batch_size a));
    final_acc ← py_truediv oa (log_interval a);
    let entry :=
      {| log_idx := idx; train_loss := train_loss; train_acc := train_acc;
         final_acc := final_acc;
         log_f1 := (f1 acc' / Qc_of_Z (log_interval a))%Qc;
         log_final_f1 := (final_f1 acc' / Qc_of_Z (log_interval a))%Qc |} in
    mret {| ts_params := p'; ts_inputs := Some inputs; ts_accum := accum0;
            ts_backward := ts_backward st ++ [loss l];
            ts_logs := ts_logs st ++ [entry] |}
  else
    mret {| ts_params := p'; ts_inputs := Some inputs; ts_accum := acc';
            ts_backward := ts_backward st ++ [loss l];
            ts_logs := ts_logs st |}.

(** [for idx, train_batch in enumerate(train_loader)] *)
Fixpoint train_loop (a : args) (st : train_state) (idx : nat)
    (train_loader : list (list sample)) : result train_state :=
  match train_loader with
  | [] => Ok st
  | train_batch :: rest =>
      st' ← train_step a st idx train_batch;
      train_loop a st' (S idx) rest
  end.

(** [grid_image(np_images, gts, preds, n)]: [assert n <= batch_size]. *)
Definition grid_image (n rows : nat) : result unit :=
  if decide (n ≤ rows)%nat then Ok () else Raise AssertionError.

(** Lines 169-248: the training half of one epoch.  After the loop the
    script plots the current value of [inputs], a name bound only inside
    the two batch loops. *)
Definition train_epoch (a : args) (p : params) (inputs : option (list image))
    (train_loader : list (list sample)) : result train_state :=
  st ← train_loop a {| ts_params := p; ts_inputs := inputs; ts_accum := accum0;
                       ts_backward := []; ts_logs := [] |} 0 train_loader;
  match ts_inputs st with
  | None => Raise (UnboundLocalError "inputs")
  | Some imgs =>
      _ ← grid_image 11 (length imgs);
      mret {| ts_params := scheduler_step (ts_params st);
              ts_inputs := ts_inputs st;
              ts_accum := ts_accum st;
              ts_backward := ts_backward st;
              ts_logs := ts_logs st |}
  end.

(** What the validation loop collects. *)
Record val_sums : Type := {
  val_loss_items : list fval;
  val_acc_items : list Z;
  val_final_acc_items : list Z;
  score_sum : Qc;
  final_score_sum : Qc;
  (** the samples that went through the model, in order *)
  scored : list sample;
  vs_inputs : option (list image);
}.

(** Lines 261-285: one iteration of the validation loop. *)
Definition val_step (p : params) (first : bool) (vs : val_sums)
    (val_batch : list sample) : result val_sums :=
  let inputs := s_image <$> val_batch in
  let org_labels := s_org_label <$> val_batch in
  let labels := s_label <$> val_batch in
  let outs := forward p inputs in
  let preds := preds_of outs in
  let final_preds := encode_original_age <$> preds in
  let loss_item := criterion outs labels in
  let acc_item := count_eq labels preds in
  let final_acc_item := count_eq org_labels final_preds in
  _ ← (if first then grid_image 16 (length val_batch) else Ok ());
  mret {| val_loss_items := val_loss_items vs ++ [loss_item];
          val_acc_items := val_acc_items vs ++ [acc_item];
          val_final_acc_items := val_final_acc_items vs ++ [final_acc_item];
          score_sum := (score_sum vs + f1_score labels preds)%Qc;
          final_score_sum := (final_score_sum vs + f1_score org_labels final_preds)%Qc;
          scored := scored vs ++ val_batch;
          vs_inputs := Some inputs |}.

Fixpoint val_loop (p : params) (first : bool) (vs : val_sums)
    (val_loader : list (list sample)) : result val_sums :=
  match val_loader with
  | [] => Ok vs
  | val_batch :: rest =>
      vs' ← val_step p first vs val_batch;
      val_loop p false vs' rest
  end.

Record val_report : Type := {
  score : Qc;
  final_score : Qc;
  val_loss : fval;
  val_acc : Qc;
  val_final_acc : Qc;
  val_scored : list sample;
  val_inputs : option (list image);
}.

(** Python [x / n] for a finite float or int [x] and an int [n]. *)
Definition q_truediv (x : Qc) (n : nat) : result Qc :=
  if decide (n = 0%nat) then Raise ZeroDivisionError
  else Ok (x / Qc_of_Z (Z.of_nat n))%Qc.

Definition zsum (l : list Z) : Z := foldl Z.add 0 l.

(** Lines 129-136 and 251-292: the validation half of one epoch. *)
Definition validate (a : args) (p : params) (inputs : option (list image))
    (val_set : list sample) : result val_report :=
  let val_loader := DataLoader_drop_last (valid_batch_size a) val_set in
  vs ← val_loop p true
         {| val_loss_items := []; val_acc_items := [];
            val_final_acc_items := [];
            score_sum := 0%Qc; final_score_sum := 0%Qc; scored := [];
            vs_inputs := inputs |}
         val_loader;
  score ← q_truediv (score_sum vs) (length val_loader);
  final_score ← q_truediv (final_score_sum vs) (length val_loader);
  let val_loss := fdiv (fsum (val_loss_items vs)) (of_Z (Z.of_nat (length val_loader))) in
  val_acc ← q_truediv (Qc_of_Z (zsum (val_acc_items vs))) (length val_set);
  val_final_acc ← q_truediv (Qc_of_Z (zsum (val_final_acc_items vs))) (length val_set);
  mret {| score := score; final_score := final_score; val_loss := val_loss;
          val_acc := val_acc; val_final_acc := val_final_acc;
          val_scored := scored vs; val_inputs := vs_inputs vs |}.

(** What one completed epoch leaves behind. *)
Record epoch_report : Type := {
  er_epoch : nat;
  er_backward : list fval;
  er_logs : list train_log;
  er_val : val_report;
  (** the weights saved as [last.pth] in this epoch *)
  er_params : params;
  er_wrote_best : bool;
  er_files : gmap string pickled;
}.

Definition to_event (r : epoch_report) : ckpt_event :=
  {| ce_score := score (er_val r); ce_params := er_params r;
     ce_wrote := er_wrote_best r; ce_files := er_files r |}.

Record run_state : Type := {
  rs_params : params;
  rs_inputs : option (list image);
  rs_trackers : trackers;
  rs_files : gmap string pickled;
  rs_reports : list epoch_report;
}.

(** Lines 168-313: the body of [for epoch in range(args.epochs)].
    [train_loader epoch] is the shuffled batch sequence of that epoch. *)
Definition epoch_step (a : args) (save_dir : string)
    (train_loader : nat → list (list sample)) (val_set : list sample)
    (rs : run_state) (epoch : nat) : result run_state :=
  ts ← train_epoch a (rs_params rs) (rs_inputs rs) (train_loader epoch);
  let p := ts_params ts in
  v ← validate a p (ts_inputs ts) val_set;
  let '(tr, fs, wrote) :=
    save_checkpoints save_dir p (score v) (val_acc v) (val_loss v)
      (rs_trackers rs) (rs_files rs) in
  mret {| rs_params := p; rs_inputs := val_inputs v;
          rs_trackers := tr; rs_files := fs;
          rs_reports := rs_reports rs ++
            [{| er_epoch := epoch; er_backward := ts_backward ts;
                er_logs := ts_logs ts; er_val := v; er_params := p;
                er_wrote_best := wrote; er_files := fs |}] |}.

Fixpoint epoch_loop (a : args) (save_dir : string)
    (train_loader : nat → list (list sample)) (val_set : list sample)
    (rs : run_state) (epoch n : nat) : result run_state :=
  match n with
  | O => Ok rs
  | S n' =>
      rs' ← epoch_step a save_dir train_loader val_set rs epoch;
      epoch_loop a save_dir train_loader val_set rs' (S epoch) n'
  end.

(** Lines 164-167: [train], from the initialisation of the trackers on. *)
Definition train (a : args) (save_dir : string)
    (train_loader : nat → list (list sample)) (val_set : list sample)
    (fs : gmap string pickled) : result run_state :=
  epoch_loop a save_dir train_loader val_set
    {| rs_params := init_params 0; rs_inputs := None;
       rs_trackers := init_trackers;
       rs_files := fs; rs_reports := [] |} 0 (epochs a).

End WithFramework.
End Age.

(** ** [train_5fold.py] *)

Module Fold5.
Section WithFramework.
Context `{Framework}.

(** [--task], [choices=['all', 'mask', 'gender', 'age']] *)
Inductive task : Type := TaskAll | TaskMask | TaskGender | TaskAge.

(** One item of the dataset: image and combined label. *)
Record sample : Type := {
  s_image : image;
  s_labels : Z;
}.

Record args : Type := {
  epochs : nat;
  batch_size : nat;
  valid_batch_size : nat;
  log_interval : Z;
  arg_task : task;
}.

(** Lines 89-98 *)
Definition get_labels (t : task) (labels : list Z) : list Z :=
  match t with
  | TaskAll => labels
  | TaskMask => (λ l, (Labels.decode_multi_class l).1.1) <$> labels
  | TaskGender => (λ l, (Labels.decode_multi_class l).1.2) <$> labels
  | TaskAge => (λ l, (Labels.decode_multi_class l).2) <$> labels
  end.

(** Lines 100-106 *)
Definition get_num_classes (t : task) : Z :=
  match t with
  | TaskAll => 18
  | TaskGender => 2
  | _ => 3
  end.

Definition preds_of (outs : list (list Qc)) : list Z :=
  (λ row, Z.of_nat (argmax row)) <$> outs.

Record accum : Type := {
  loss_value : fval;
  matches : Z;
}.

Definition accum0 : accum := {| loss_value := Fin 0; matches := 0 |}.

Record train_log : Type := {
  log_idx : nat;
  train_loss : fval;
  train_acc : fval;
}.

Record train_state : Type := {
  ts_params : params;
  ts_inputs : option (list image);
  ts_accum : accum;
  ts_backward : list fval;
  ts_logs : list train_log;
}.

(** Lines 193-227: one iteration of the batch loop. *)
Definition train_step (a : args) (st : train_state) (idx : nat)
    (train_batch : list sample) : result train_state :=
  let inputs := s_image <$> train_batch in
  let labels := get_labels (arg_task a) (s_labels <$> train_batch) in
  let outs := forward (ts_params st) inputs in
  let preds := preds_of outs in
  let loss := criterion outs labels in
  let p' := optimizer_step (ts_params st) inputs [labels] in
  let acc := ts_accum st in
  let acc' :=
    {| loss_value := fadd (loss_value acc) loss;
       matches := matches acc + count_eq preds labels |} in
  r ← py_mod (Z.of_nat idx + 1) (log_interval a);
  if decide (r = 0) then
    train_loss ← py_truediv (loss_value acc') (log_interval a);
    ma ← py_truediv (of_Z (matches acc')) (Z.of_nat (batch_size a));
    train_acc ← py_truediv ma (log_interval a);
    mret {| ts_params := p'; ts_inputs := Some inputs; ts_accum := accum0;
            ts_backward := ts_backward st ++ [loss];
            ts_logs := ts_logs st ++
              [{| log_idx := idx; train_loss := train_loss;
                  train_acc := train_acc |}] |}
  else
    mret {| ts_params := p'; ts_inputs := Some inputs; ts_accum := acc';
            ts_backward := ts_backward st ++ [loss];
            ts_logs := ts_logs st |}.

Fixpoint train_loop (a : args) (st : train_state) (idx : nat)
    (train_loader : list (list sample)) : result train_state :=
  match train_loader with
  | [] => Ok st
  | train_batch :: rest =>
      st' ← train_step a st idx train_batch;
      train_loop a st' (S idx) rest
  end.

(** The values [vs] are the losses of the batches, each under the weights
    left by the optimizer steps on the batches before it (lines 201-206). *)
Fixpoint loss_trace (a : args) (p : params) (batches : list (list sample))
    (vs : list fval) : Prop :=
  match batches, vs with
  | [], [] => True
  | b :: bs, v :: vs' =>
      let labels := get_labels (arg_task a) (s_labels <$> b) in
      v = criterion (forward p (s_image <$> b)) labels
      ∧ loss_trace a (optimizer_step p (s_image <$> b) [labels]) bs vs'
  | _, _ => False
  end.

(** The [train_loss] values logged over a sequence of batch losses, from a
    running sum [acc] at batch index [idx] (lines 208, 210-211, 226). *)
Fixpoint logged_losses (interval : Z) (acc : fval) (idx : nat)
    (vs : list fval) : list fval :=
  match vs with
  | [] => []
  | v :: vs' =>
      let acc' := fadd acc v in
      if decide ((Z.of_nat idx + 1) mod interval = 0)
      then fdiv acc' (of_Z interval) :: logged_losses interval (Fin 0) (S idx) vs'
      else logged_losses interval acc' (S idx) vs'
  end.

(** Lines 42-44: [assert n <= batch_size] *)
Definition grid_image (n rows : nat) : result unit :=
  if decide (n ≤ rows)%nat then Ok () else Raise AssertionError.

(** Lines 185-239 *)
Definition train_epoch (a : args) (p : params) (inputs : option (list image))
    (train_loader : list (list sample)) : result train_state :=
  st ← train_loop a {| ts_params := p; ts_inputs := inputs; ts_accum := accum0;
                       ts_backward := []; ts_logs := [] |} 0 train_loader;
  match ts_inputs st with
  | None => Raise (UnboundLocalError "inputs")
  | Some imgs =>
      _ ← grid_image 11 (length imgs);
      mret {| ts_params := scheduler_step (ts_params st);
              ts_inputs := ts_inputs st;
              ts_accum := ts_accum st;
              ts_backward := ts_backward st;
              ts_logs := ts_logs st |}
  end.

Record val_sums : Type := {
  val_f1_sum : Qc;
  val_loss_items : list fval;
  val_acc_items : list Z;
  scored : list sample;
  vs_inputs : option (list image);
}.

(** Lines 250-269: one iteration of the validation loop. *)
Definition val_step (a : args) (p : params) (first : bool) (vs : val_sums)
    (val_batch : list sample) : result val_sums :=
  let inputs := s_image <$> val_batch in
  let labels := get_labels (arg_task a) (s_labels <$> val_batch) in
  let outs := forward p inputs in
  let preds := preds_of outs in
  let loss_item := criterion outs labels in
  let acc_item := count_eq labels preds in
  _ ← (if first then grid_image 10 (length val_batch) else Ok ());
  mret {| val_f1_sum := (val_f1_sum vs + f1_score labels preds)%Qc;
          val_loss_items := val_loss_items vs ++ [loss_item];
          val_acc_items := val_acc_items vs ++ [acc_item];
          scored := scored vs ++ val_batch;
          vs_inputs := Some inputs |}.

Fixpoint val_loop (a : args) (p : params) (first : bool) (vs : val_sums)
    (val_loader : list (list sample)) : result val_sums :=
  match val_loader with
  | [] => Ok vs
  | val_batch :: rest =>
      vs' ← val_step a p first vs val_batch;
      val_loop a p false vs' rest
  end.

Record val_report : Type := {
  val_f1 : Qc;
  val_loss : fval;
  val_acc : Qc;
  val_scored : list sample;
  val_inputs : option (list image);
}.

(** Lines 147-154 and 242-273.  The two [numpy] divisions of lines 271-272
    do not raise; with no batch, line 273 divides the int [0] by [0]. *)
Definition validate (a : args) (p : params) (inputs : option (list image))
    (val_set : list sample) : result val_report :=
  let val_loader := DataLoader_drop_last (valid_batch_size a) val_set in
  vs ← val_loop a p true
         {| val_f1_sum := 0%Qc; val_loss_items := []; val_acc_items := [];
            scored := []; vs_inputs := inputs |}
         val_loader;
  let val_loss := fdiv (fsum (val_loss_items vs)) (of_Z (Z.of_nat (length val_loader))) in
  val_f1 ← Age.q_truediv (val_f1_sum vs) (length val_loader);
  val_acc ← Age.q_truediv (Qc_of_Z (Age.zsum (val_acc_items vs))) (length val_set);
  mret {| val_f1 := val_f1; val_loss := val_loss; val_acc := val_acc;
          val_scored := scored vs; val_inputs := vs_inputs vs |}.

(** Line 276: ["{}/{}_{}_{}_{}_{}.pt".format(save_dir, 'effb4', fold, epoch,
    val_f1, val_loss)] *)
Definition epoch_path (save_dir : string) (fold epoch : nat)
    (val_f1 : Qc) (val_loss : fval) : string :=
  save_dir +:+ "/" +:+ "effb4" +:+ "_" +:+ pretty fold +:+ "_" +:+ pretty epoch
    +:+ "_" +:+ format_float (Fin val_f1) +:+ "_" +:+ format_float val_loss
    +:+ ".pt".

Record epoch_report : Type := {
  er_fold : nat;
  er_epoch : nat;
  er_backward : list fval;
  er_logs : list train_log;
  er_val : val_report;
  er_params : params;
  er_wrote_best : bool;
  er_files : gmap string pickled;
}.

Definition to_event (r : epoch_report) : ckpt_event :=
  {| ce_score := val_f1 (er_val r); ce_params := er_params r;
     ce_wrote := er_wrote_best r; ce_files := er_files r |}.

(** The per-epoch file of line 276 for the epoch of a report. *)
Definition report_path (save_dir : string) (r : epoch_report) : string :=
  epoch_path save_dir (er_fold r) (er_epoch r)
    (val_f1 (er_val r)) (val_loss (er_val r)).

Record run_state : Type := {
  rs_params : params;
  rs_inputs : option (list image);
  rs_trackers : trackers;
  rs_files : gmap string pickled;
  rs_reports : list epoch_report;
}.

(** Lines 185-297: the body of [for epoch in range(args.epochs)]. *)
Definition epoch_step (a : args) (save_dir : string)
    (train_loader : nat → list (list sample)) (val_set : list sample)
    (fold : nat) (rs : run_state) (epoch : nat) : result run_state :=
  ts ← train_epoch a (rs_params rs) (rs_inputs rs) (train_loader epoch);
  let p := ts_params ts in
  v ← validate a p (ts_inputs ts) val_set;
  let fs0 :=
    <[epoch_path save_dir fold epoch (val_f1 v) (val_loss v) := WholeModel p]>
      (rs_files rs) in
  let '(tr, fs, wrote) :=
    save_checkpoints save_dir p (val_f1 v) (val_acc v) (val_loss v)
      (rs_trackers rs) fs0 in
  mret {| rs_params := p; rs_inputs := val_inputs v;
          rs_trackers := tr; rs_files := fs;
          rs_reports := rs_reports rs ++
            [{| er_fold := fold; er_epoch := epoch;
                er_backward := ts_backward ts;
                er_logs := ts_logs ts; er_val := v; er_params := p;
                er_wrote_best := wrote; er_files := fs |}] |}.

Fixpoint epoch_loop (a : args) (save_dir : string)
    (train_loader : nat → list (list sample)) (val_set : list sample)
    (fold : nat) (rs : run_state) (epoch n : nat) : result run_state :=
  match n with
  | O => Ok rs
  | S n' =>
      rs' ← epoch_step a save_dir train_loader val_set fold rs epoch;
      epoch_loop a save_dir train_loader val_set fold rs' (S epoch) n'
  end.

(** Lines 129-297: the body of [for fold in range(5)].  The model and the
    three trackers are created anew; [save_dir], the files and the local
    [inputs] are those of the enclosing function. *)
Definition fold_step (a : args) (save_dir : string)
    (train_loader : nat → nat → list (list sample))
    (val_set : nat → list sample)
    (rs : run_state) (fold : nat) : result run_state :=
  epoch_loop a save_dir (train_loader fold) (val_set fold) fold
    {| rs_params := init_params fold; rs_inputs := rs_inputs rs;
       rs_trackers := init_trackers;
       rs_files := rs_files rs; rs_reports := rs_reports rs |}
    0 (epochs a).

Fixpoint fold_loop (a : args) (save_dir : string)
    (train_loader : nat → nat → list (list sample))
    (val_set : nat → list sample)
    (rs : run_state) (fold n : nat) : result run_state :=
  match n with
  | O => Ok rs
  | S n' =>
      rs' ← fold_step a save_dir train_loader val_set rs fold;
      fold_loop a save_dir train_loader val_set rs' (S fold) n'
  end.

(** Lines 108-128: [train]; [save_dir] is computed once, before the folds. *)
Definition train (a : args) (save_dir : string)
    (train_loader : nat → nat → list (list sample))
    (val_set : nat → list sample)
    (fs : gmap string pickled) : result run_state :=
  fold_loop a save_dir train_loader val_set
    {| rs_params := init_params 0; rs_inputs := None;
       rs_trackers := init_trackers;
       rs_files := fs; rs_reports := [] |} 0 5.

End WithFramework.
End Fold5.

(** ** [train_models.py]: which names are bound where

    Only name resolution is followed here: a statement is the sequence of the
    names it reads and binds, in Python's evaluation order; values are left
    out, and the outcomes of tests and the lengths of the two dataloaders are
    inputs. *)

Module TrainModels.

Inductive op : Type :=
  | Load (x : string)
  | Store (x : string).

(** Names bound at module level when [train_models(args)] is called. *)
Definition module_globals : list string :=
  ["np"; "plt"; "torch"; "nn"; "optim"; "F"; "getDataloader"; "torchvision";
   "get_model"; "argparse"; "timezone"; "dt"; "train_models"; "parser"; "args"].

(** The built-in functions and constants of Python 3. *)
Definition builtins : list string :=
  ["abs"; "aiter"; "all"; "anext"; "any"; "ascii"; "bin"; "bool";
   "breakpoint"; "bytearray"; "bytes"; "callable"; "chr"; "classmethod";
   "compile"; "complex"; "delattr"; "dict"; "dir"; "divmod"; "enumerate";
   "eval"; "exec"; "filter"; "float"; "format"; "frozenset"; "getattr";
   "globals"; "hasattr"; "hash"; "help"; "hex"; "id"; "input"; "int";
   "isinstance"; "issubclass"; "iter"; "len"; "list"; "locals"; "map";
   "max"; "memoryview"; "min"; "next"; "object"; "oct"; "open"; "ord";
   "pow"; "print"; "property"; "range"; "repr"; "reversed"; "round"; "set";
   "setattr"; "slice"; "sorted"; "staticmethod"; "str"; "sum"; "super";
   "tuple"; "type"; "vars"; "zip"; "__import__";
   "True"; "False"; "None"; "Ellipsis"; "NotImplemented"; "__debug__"].

(** The names [train_models] assigns somewhere in its body, and its
    parameter: its local variables. *)
Definition function_locals : list string :=
  ["args"; "now"; "train_dataloader"; "val_dataloader"; "device"; "criterion";
   "age_model"; "gender_model"; "mask_model";
   "age_optimizer"; "gender_optimizer"; "mask_optimizer";
   "max_val_acc"; "epoch";
   "total_acc"; "total_age_acc"; "total_mask_acc"; "total_gender_acc";
   "total_age_loss"; "total_mask_loss"; "total_gender_loss";
   "batch_iter"; "batch"; "img"; "label"; "gender"; "age"; "mask";
   "age_pred"; "gender_pred"; "mask_pred";
   "age_loss"; "gender_loss"; "mask_loss";
   "age_acc"; "gender_acc"; "mask_acc"; "pred"; "acc";
   "avg_age_loss"; "avg_mask_loss"; "avg_gender_loss";
   "avg_acc"; "avg_age_acc"; "avg_mask_acc"; "avg_gender_acc";
   "total_val_acc"; "val_iter"; "val_batch"; "acc_out";
   "total_val_loss"; "avg_val_loss"; "avg_val_acc"].

(** Reading a name: a local must be bound ([UnboundLocalError] otherwise);
    any other name is looked up in the module and the builtins. *)
Definition run_op (o : op) (ns : gset string) : result (gset string) :=
  match o with
  | Store x => Ok ({[x]} ∪ ns)
  | Load x =>
      if bool_decide (x ∈ function_locals) then
        if bool_decide (x ∈ ns) then Ok ns else Raise (UnboundLocalError x)
      else if bool_decide (x ∈ module_globals ++ builtins) then Ok ns
      else Raise (NameError x)
  end.

Fixpoint run (b : list op) (ns : gset string) : result (gset string) :=
  match b with
  | [] => Ok ns
  | o :: b' => ns' ← run_op o ns; run b' ns'
  end.

(** The locals a block reads before it binds them itself, given the names
    [have] bound so far. *)
Fixpoint requires (b : list op) (have : list string) : list string :=
  match b with
  | [] => []
  | Store x :: b' => requires b' (x :: have)
  | Load x :: b' =>
      if bool_decide (x ∈ function_locals) && negb (bool_decide (x ∈ have))
      then x :: requires b' have
      else requires b' have
  end.

(** Every name a block reads that is not a local is a module-level name or
    a builtin. *)
Fixpoint resolvable (b : list op) : bool :=
  match b with
  | [] => true
  | Store _ :: b' => resolvable b'
  | Load x :: b' =>
      (bool_decide (x ∈ function_locals)
       || bool_decide (x ∈ module_globals ++ builtins)) && resolvable b'
  end.

(** The names a block binds. *)
Fixpoint binds (b : list op) : list string :=
  match b with
  | [] => []
  | Store x :: b' => x :: binds b'
  | Load _ :: b' => binds b'
  end.

(** All of the names [l] are bound in [ns]. *)
Definition covers (l : list string) (ns : gset string) : Prop :=
  ∀ x, x ∈ l → x ∈ ns.

Definition loads (xs : list string) : list op := Load <$> xs.
Definition stores (xs : list string) : list op := Store <$> xs.
(** [targets = <expression reading uses>] *)
Definition assign (targets uses : list string) : list op := loads uses ++ stores targets.
(** [target += <expression reading uses>] *)
Definition augassign (target : string) (uses : list string) : list op :=
  Load target :: loads uses ++ [Store target].

(** Lines 15-57 *)
Definition setup (pretrained resnet : bool) : list op :=
  assign ["now"] ["dt"; "timezone"] ++
  assign ["train_dataloader"; "val_dataloader"] ["getDataloader"; "args"] ++
  loads ["print"; "len"; "train_dataloader"; "len"; "val_dataloader"] ++
  assign ["device"] [] ++
  assign ["criterion"] ["nn"] ++
  loads ["args"] ++
  (if pretrained then
     assign ["age_model"] ["torch"; "args"] ++
     assign ["gender_model"] ["torch"; "args"] ++
     assign ["mask_model"] ["torch"; "args"]
   else
     assign ["age_model"] ["get_model"; "args"] ++
     assign ["gender_model"] ["get_model"; "args"] ++
     assign ["mask_model"] ["get_model"; "args"] ++
     loads ["args"] ++
     (if resnet then
        loads ["nn"; "age_model"] ++ loads ["nn"; "mask_model"] ++
        loads ["nn"; "gender_model"]
      else [])) ++
  assign ["age_optimizer"] ["torch"; "age_model"] ++
  assign ["gender_optimizer"] ["torch"; "gender_model"] ++
  assign ["mask_optimizer"] ["torch"; "mask_model"] ++
  loads ["print"; "age_model"] ++
  assign ["age_model"] ["age_model"; "device"] ++
  assign ["gender_model"] ["gender_model"; "device"] ++
  assign ["mask_model"] ["mask_model"; "device"] ++
  assign ["max_val_acc"] [] ++
  loads ["age_model"; "gender_model"; "mask_model"].

(** Lines 59-68 *)
Definition epoch_head : list op :=
  stores ["total_acc"; "total_age_acc"; "total_mask_acc"; "total_gender_acc";
          "total_age_loss"; "total_mask_loss"; "total_gender_loss"] ++
  loads ["print"].

(** Lines 70-117: the body of the training batch loop. *)
Definition train_body : list op :=
  assign ["img"; "label"; "gender"; "age"; "mask"] ["batch"] ++
  assign ["img"] ["img"; "device"] ++
  assign ["label"] ["label"; "device"] ++
  assign ["gender"] ["gender"; "device"] ++
  assign ["age"] ["age"; "device"] ++
  assign ["mask"] ["mask"; "device"] ++
  assign ["age_pred"] ["age_model"; "img"] ++
  assign ["gender_pred"] ["gender_model"; "img"] ++
  assign ["mask_pred"] ["mask_model"; "img"] ++
  assign ["age_loss"] ["criterion"; "age_pred"; "age"] ++
  assign ["gender_loss"] ["criterion"; "gender_pred"; "gender"] ++
  assign ["mask_loss"] ["criterion"; "mask_pred"; "mask"] ++
  assign ["age_acc"] ["torch"; "torch"; "age_pred"; "age"; "len"; "age"] ++
  assign ["gender_acc"] ["torch"; "torch"; "gender_pred"; "gender"; "len"; "gender"] ++
  assign ["mask_acc"] ["torch"; "torch"; "mask_pred"; "mask"; "len"; "mask"] ++
  assign ["pred"] ["torch"; "age_pred"; "torch"; "gender_pred"; "torch"; "mask_pred"] ++
  assign ["acc"] ["torch"; "pred"; "label"; "len"; "label"] ++
  loads ["print"; "epoch"; "batch_iter"; "age_acc"; "gender_acc"; "mask_acc"; "acc"] ++
  loads ["age_optimizer"; "gender_optimizer"; "mask_optimizer"] ++
  loads ["age_loss"; "gender_loss"; "mask_loss"] ++
  loads ["age_optimizer"; "gender_optimizer"; "mask_optimizer"] ++
  augassign "total_age_loss" ["age_loss"] ++
  augassign "total_mask_loss" ["mask_loss"] ++
  augassign "total_gender_loss" ["gender_loss"] ++
  augassign "total_age_acc" ["age_acc"] ++
  augassign "total_mask_acc" ["mask_acc"] ++
  augassign "total_gender_acc" ["gender_acc"] ++
  augassign "total_acc" ["acc"].

(** Lines 119-130 *)
Definition train_tail : list op :=
  assign ["avg_age_loss"] ["total_age_loss"; "len"; "train_dataloader"] ++
  assign ["avg_mask_loss"] ["total_mask_loss"; "len"; "train_dataloader"] ++
  assign ["avg_gender_loss"] ["total_gender_loss"; "len"; "train_dataloader"] ++
  assign ["avg_acc"] ["total_acc"; "len"; "train_dataloader"] ++
  assign ["avg_age_acc"] ["total_age_acc"; "len"; "train_dataloader"] ++
  assign ["avg_mask_acc"] ["total_mask_acc"; "len"; "train_dataloader"] ++
  assign ["avg_gender_acc"] ["total_gender_acc"; "len"; "train_dataloader"] ++
  loads ["print"; "epoch"; "avg_acc"; "avg_age_acc"; "avg_gender_acc"; "avg_mask_acc"] ++
  loads ["print"].

(** Lines 131-139 *)
Definition val_head : list op :=
  loads ["torch"] ++
  loads ["age_model"; "mask_model"; "gender_model"] ++
  stores ["total_val_acc"; "total_age_acc"; "total_mask_acc"; "total_gender_acc"].

(** Lines 141-150: the part of the validation loop body before line 152. *)
Definition val_body_forward : list op :=
  assign ["img"; "label"; "gender"; "age"; "mask"] ["val_batch"] ++
  assign ["img"] ["img"; "device"] ++
  assign ["label"] ["label"; "device"] ++
  assign ["gender"] ["gender"; "device"] ++
  assign ["age"] ["age"; "device"] ++
  assign ["mask"] ["mask"; "device"] ++
  assign ["age_pred"] ["age_model"; "img"] ++
  assign ["mask_pred"] ["mask_model"; "img"] ++
  assign ["gender_pred"] ["gender_model"; "img"].

(** Lines 152-155 *)
Definition val_body_metrics : list op :=
  assign ["acc_out"] ["torch"; "torch"; "y_pred"; "val_batch_out"; "len"; "val_batch_out"] ++
  loads ["print"; "epoch"; "val_iter"; "acc_out"; "loss_out"] ++
  augassign "total_val_loss" ["loss_out"] ++
  augassign "total_val_acc" ["acc_out"].

Definition val_body : list op := val_body_forward ++ val_body_metrics.

(** Lines 156-160 *)
Definition val_tail : list op :=
  assign ["avg_val_loss"] ["total_val_loss"; "len"; "val_dataloader"] ++
  assign ["avg_val_acc"] ["total_val_acc"; "len"; "val_dataloader"] ++
  loads ["print"; "epoch"; "avg_val_acc"; "avg_val_loss"].

(** Lines 162-165 *)
Definition epoch_tail (improved : bool) : list op :=
  loads ["avg_val_acc"; "max_val_acc"] ++
  (if improved then
     loads ["torch"; "model"; "now"; "args"; "epoch"; "avg_val_acc"] ++
     assign ["max_val_acc"] ["avg_val_acc"] ++
     loads ["print"]
   else []).

(** [for targets in ...: body], over [n] items. *)
Fixpoint for_loop (targets : list string) (body : list op) (n : nat)
    (ns : gset string) : result (gset string) :=
  match n with
  | O => Ok ns
  | S n' => ns' ← run (stores targets ++ body) ns; for_loop targets body n' ns'
  end.

(** Lines 131-157: the validation block of one epoch, over a dataloader of
    [n_val] batches. *)
Definition validation (n_val : nat) (ns : gset string) : result (gset string) :=
  ns ← run val_head ns;
  ns ← run (loads ["enumerate"; "val_dataloader"]) ns;
  ns ← for_loop ["val_iter"; "val_batch"] val_body n_val ns;
  run val_tail ns.

(** Lines 59-128: the training block of one epoch.  With no training batch
    line 119 divides the int [0] by [0]. *)
Definition training (n_train : nat) (ns : gset string) : result (gset string) :=
  ns ← run epoch_head ns;
  ns ← run (loads ["enumerate"; "train_dataloader"]) ns;
  ns ← for_loop ["batch_iter"; "batch"] train_body n_train ns;
  if decide (n_train = 0%nat) then Raise ZeroDivisionError else run train_tail ns.

(** Lines 58-165: [for epoch in range(args.epochs)]. *)
Fixpoint epochs_loop (n_train n_val : nat) (improved : nat → bool)
    (epoch n : nat) (ns : gset string) : result (gset string) :=
  match n with
  | O => Ok ns
  | S n' =>
      ns ← run (stores ["epoch"]) ns;
      ns ← training n_train ns;
      ns ← validation n_val ns;
      ns ← run (epoch_tail (improved epoch)) ns;
      epochs_loop n_train n_val improved (S epoch) n' ns
  end.

(** Lines 14-165: the call [train_models(args)]. *)
Definition train_models (pretrained resnet : bool) (epochs n_train n_val : nat)
    (improved : nat → bool) : result (gset string) :=
  ns ← run (setup pretrained resnet) {["args"]};
  ns ← run (loads ["range"; "args"]) ns;
  epochs_loop n_train n_val improved 0 epochs ns.

(** Lines 14-128 of the first epoch: the call up to its first validation
    block. *)
Definition until_validation (pretrained resnet : bool) (n_train : nat)
  : result (gset string) :=
  ns ← run (setup pretrained resnet) {["args"]};
  ns ← run (loads ["range"; "args"]) ns;
  ns ← run (stores ["epoch"]) ns;
  training n_train ns.

(** The names the validation block reads from the code before it. *)
Definition validation_reads : list string :=
  ["age_model"; "mask_model"; "gender_model"; "val_dataloader"; "device"].

(** The names bound when the epoch loop starts. *)
Definition setup_bound : list string :=
  ["args"; "now"; "train_dataloader"; "val_dataloader"; "device"; "criterion";
   "age_model"; "gender_model"; "mask_model";
   "age_optimizer"; "gender_optimizer"; "mask_optimizer"; "max_val_acc"].

End TrainModels.

(** ** [final/test.py]: the files the script touches *)

Module TestScript.

(** [os.path.join(a, b)] on POSIX. *)
Definition os_path_join (a b : string) : string :=
  if String.prefix "/" b then b
  else if bool_decide (a = "") || String.prefix "/" (String.rev a)
  then a +:+ b
  else a +:+ "/" +:+ b.

Inductive io : Type :=
  | ReadCsv (path : string)
  | TorchLoad (path : string)
  | ImageOpen (path : string)
  | ToCsv (path : string).

(** Line 17 *)
Definition test_dir : string := "/opt/ml/input/data/eval".

(** Lines 45-92, for the [ImageID] column of [info.csv]: the file
    operations of a complete run, in program order. *)
Definition main (image_ids : list string) : list io :=
  let image_dir := os_path_join test_dir "rmbg_images" in
  let image_paths := (λ img_id, os_path_join image_dir img_id) <$> image_ids in
  [ReadCsv (os_path_join test_dir "info.csv");
   TorchLoad "/opt/ml/submissions/submission_effb5age.csv"] ++
  (ImageOpen <$> image_paths) ++
  [ToCsv (os_path_join "/opt/ml/submissions" "submission_effb5age.csv")].

(** [os.path.splitext(p)[1]] for a path without directories after the last
    dot: the text from the last dot on. *)
Fixpoint ext_from (s : string) (acc : option string) : option string :=
  match s with
  | EmptyString => acc
  | String c s' =>
      let acc' := if Ascii.eqb c "."%char then Some (String c s') else acc in
      ext_from s' acc'
  end.
Definition extension (p : string) : option string := ext_from p None.

End TestScript.

(** ** A small concrete framework, to run the scripts on explicit data

    An image is its own row of logits, the optimizer counts its steps from
    [100 * fold], the two losses are computable stand-ins, and the F1 score is
    macro-F1. *)

Module Toy.

Definition zero_one (preds labels : list Z) : Z :=
  Z.of_nat (length labels) - count_eq preds labels.

Definition toy_criterion (outs : list (list Qc)) (labels : list Z) : fval :=
  of_Z (zero_one ((λ row, Z.of_nat (argmax row)) <$> outs) labels).

(** Weighted linear loss: [w[t] * (1 - score[t])], summed over the batch. *)
Fixpoint toy_cross_entropy (w : list Qc) (scores : list (list fval))
    (target : list Z) : fval :=
  match scores, target with
  | row :: rows, t :: ts =>
      fadd (fmul (Fin (default 0%Qc (w !! Z.to_nat t)))
                 (fadd (Fin 1) (fneg (default NaN (row !! Z.to_nat t)))))
           (toy_cross_entropy w rows ts)
  | _, _ => Fin 0
  end.

(** True positives, false positives and false negatives of class [c]. *)
Fixpoint tally (c : Z) (y_true y_pred : list Z) : Z * Z * Z :=
  match y_true, y_pred with
  | t :: ts, p :: ps =>
      let '(tp, fp, fn) := tally c ts ps in
      if decide (t = c) then
        if decide (p = c) then (tp + 1, fp, fn) else (tp, fp, fn + 1)
      else
        if decide (p = c) then (tp, fp + 1, fn) else (tp, fp, fn)
  | _, _ => (0, 0, 0)
  end.

Definition class_f1 (y_true y_pred : list Z) (c : Z) : Qc :=
  let '(tp, fp, fn) := tally c y_true y_pred in
  if decide (2 * tp + fp + fn = 0) then 0%Qc
  else (Qc_of_Z (2 * tp) / Qc_of_Z (2 * tp + fp + fn))%Qc.

(** Macro-F1: the unweighted mean of the F1 scores of the classes that occur
    among the labels or the predictions. *)
Definition macro_f1 (y_true y_pred : list Z) : Qc :=
  let classes := remove_dups (y_true ++ y_pred) in
  match classes with
  | [] => 0%Qc
  | _ => (foldr Qcplus 0 (class_f1 y_true y_pred <$> classes)
          / Qc_of_Z (Z.of_nat (length classes)))%Qc
  end.

Definition toy_encode (c : Z) : Z :=
  if decide (c < 5) then 0 else if decide (c < 10) then 1 else 2.

(** A row cut or zero-padded to [n] logits. *)
Definition resize (n : nat) (row : list Qc) : list Qc :=
  take n (row ++ replicate n 0%Qc).

Definition toy (num_classes : nat) : Framework := {|
  params := nat;
  image := list Qc;
  init_params := λ fold, (100 * fold)%nat;
  forward := λ _ imgs, resize num_classes <$> imgs;
  criterion := toy_criterion;
  CrossEntropyLoss := toy_cross_entropy;
  optimizer_step := λ p _ _, S p;
  scheduler_step := λ p, p;
  f1_score := macro_f1;
  encode_original_age := toy_encode;
  format_float := λ _, "x";
|}.

(** A row of [n] logits, [1] at index [c] and [0] elsewhere. *)
Definition one_hot (n c : nat) : list Qc :=
  (λ i, if decide (i = c) then 1%Qc else 0%Qc) <$> seq 0 n.

(** *** Data for [train_age.py] *)

(** An image answered with class [guess], labelled with class [label]. *)
Definition age_sample (guess label : nat) : Age.sample (H := toy 11) :=
  @Age.Build_sample (toy 11) (one_hot 11 guess)
    (toy_encode (Z.of_nat label)) (Z.of_nat label).

Definition age_args : Age.args :=
  {| Age.epochs := 2; Age.batch_size := 11; Age.valid_batch_size := 16;
     Age.log_interval := 1 |}.

(** One batch of eleven wrongly answered images per epoch. *)
Definition age_train_loader (epoch : nat) : list (list (Age.sample (H := toy 11))) :=
  [replicate 11 (age_sample 2 3)].

(** Seventeen validation images, all answered correctly. *)
Definition age_val_set : list (Age.sample (H := toy 11)) :=
  replicate 17 (age_sample 3 3).

(** The state in which the first batch loop starts. *)
Definition age_state0 : Age.train_state (H := toy 11) :=
  @Age.Build_train_state (toy 11) 0%nat None Age.accum0 [] [].

(** The state in which the epoch loop starts, on an empty directory. *)
Definition age_run0 : Age.run_state (H := toy 11) :=
  @Age.Build_run_state (toy 11) 0%nat None init_trackers ∅ [].

(** *** Data for [train_5fold.py] *)

Definition fold_sample (guess label : nat) : Fold5.sample (H := toy 18) :=
  @Fold5.Build_sample (toy 18) (one_hot 18 guess) (Z.of_nat label).

Definition fold_args : Fold5.args :=
  {| Fold5.epochs := 1; Fold5.batch_size := 11; Fold5.valid_batch_size := 10;
     Fold5.log_interval := 1; Fold5.arg_task := Fold5.TaskAll |}.

Definition fold_train_loader (fold epoch : nat)
  : list (list (Fold5.sample (H := toy 18))) :=
  [replicate 11 (fold_sample 0 0)].

Definition fold_run0 : Fold5.run_state (H := toy 18) :=
  @Fold5.Build_run_state (toy 18) 0%nat None init_trackers ∅ [].

(** Eleven validation images per fold, all answered correctly. *)
Definition fold_val_set (fold : nat) : list (Fold5.sample (H := toy 18)) :=
  replicate 11 (fold_sample 0 0).

(** Ten validation images per fold: answered correctly in folds 0-3, all
    answered wrongly in the last fold. *)
Definition fold_val_set_last_zero (fold : nat) : list (Fold5.sample (H := toy 18)) :=
  replicate 10 (fold_sample 0 (if decide (fold < 4)%nat then 0 else 1)).

(** Ten validation images per fold: answered correctly in fold 0, half of
    them in the later folds (macro-F1 1/3). *)
Definition fold_val_set_first_best (fold : nat) : list (Fold5.sample (H := toy 18)) :=
  if decide (fold = 0)%nat then replicate 10 (fold_sample 0 0)
  else replicate 5 (fold_sample 0 0) ++ replicate 5 (fold_sample 0 1).

End Toy.

(** * Properties *)

(** ** Label packing *)

Module LabelFacts.
Import Labels.

Lemma wrap_int64_small (z : Z) :
  - 2 ^ 63 ≤ z < 2 ^ 63 → wrap_int64 z = z.
Proof.
  unfold wrap_int64.
  change (2 ^ 63) with 9223372036854775808.
  change (2 ^ 64) with 18446744073709551616.
  intros Hz. rewrite Z.mod_small by (split; lia). ring.
Qed.

Lemma pred_class_small (age gender mask : Z) :
  0 ≤ age ≤ 2 → 0 ≤ gender ≤ 1 → 0 ≤ mask ≤ 2 →
  pred_class age gender mask = mask * 6 + gender * 3 + age.
Proof.
  intros Ha Hg Hm. unfold pred_class.
  assert (2 ^ 63 = 9223372036854775808) as E by reflexivity.
  rewrite (wrap_int64_small (3 * gender)) by (rewrite E; lia).
  rewrite (wrap_int64_small (age + 3 * gender)) by (rewrite E; lia).
  rewrite (wrap_int64_small (6 * mask)) by (rewrite E; lia).
  rewrite wrap_int64_small by (rewrite E; lia). lia.
Qed.




(** C1: [combined = mask*6 + gender*3 + age] is a bijection between the
    in-range triples and the labels 0..17, inverted by integer division and
    modulo; line 91 of [train_models.py] computes this composition; labels
    0, 6 and 17 are (0,0,0), (1,0,0) and (2,1,2). *)
Theorem label_packing_bijection (mask gender age L : Z) :
  0 ≤ mask ≤ 2 → 0 ≤ gender ≤ 1 → 0 ≤ age ≤ 2 → 0 ≤ L ≤ 17 →
  (* the code's composition is the formula, and lands in [0,17] *)
  compose mask gender age = mask * 6 + gender * 3 + age
  ∧ pred_class age gender mask = mask * 6 + gender * 3 + age
  ∧ 0 ≤ compose mask gender age ≤ 17
  (* decompose after compose *)
  ∧ decode_multi_class (compose mask gender age) = (mask, gender, age)
  (* compose after decompose, with the parts in range *)
  ∧ (let '(m, g, a) := decode_multi_class L in
     0 ≤ m ≤ 2 ∧ 0 ≤ g ≤ 1 ∧ 0 ≤ a ≤ 2 ∧ compose m g a = L)
  (* the three labels of the end-to-end scenario *)
  ∧ decode_multi_class 0 = (0, 0, 0) ∧ compose 0 0 0 = 0
  ∧ decode_multi_class 6 = (1, 0, 0) ∧ compose 1 0 0 = 6
  ∧ decode_multi_class 17 = (2, 1, 2) ∧ compose 2 1 2 = 17.
Proof.
  intros Hm Hg Ha HL. unfold compose.
  rewrite pred_class_small by lia.
  split; [done|]. split; [done|]. split; [lia|]. split.
  { unfold decode_multi_class.
    assert (mask = 0 ∨ mask = 1 ∨ mask = 2) as Hm' by lia.
    assert (gender = 0 ∨ gender = 1) as Hg' by lia.
    assert (age = 0 ∨ age = 1 ∨ age = 2) as Ha' by lia.
    destruct Hm' as [->|[->| ->]], Hg' as [->| ->], Ha' as [->|[->| ->]];
      reflexivity. }
  split.
  { unfold decode_multi_class.
    pose proof (Z.mod_pos_bound (L / 6) 3).
    pose proof (Z.mod_pos_bound (L / 3) 2).
    pose proof (Z.mod_pos_bound L 3).
    split; [lia|]. split; [lia|]. split; [lia|].
    rewrite pred_class_small by lia.
    assert (L / 6 < 3) by (apply Z.div_lt_upper_bound; lia).
    assert (0 ≤ L / 6) by (apply Z.div_pos; lia).
    rewrite (Z.mod_small (L / 6) 3) by lia.
    assert (L / 6 = L / 3 / 2) as E6.
    { change 6 with (3 * 2). symmetry. apply Zdiv.Zdiv_Zdiv; lia. }
    pose proof (Z.div_mod (L / 3) 2).
    pose proof (Z.div_mod L 3). lia. }
  repeat split; reflexivity.
Qed.

Lemma label_packing_bijection_witness :
  Labels.compose 2 1 2 = 17 ∧ Labels.decode_multi_class 17 = (2, 1, 2).
Proof.
  destruct (label_packing_bijection 2 1 2 17) as (H1 & _ & _ & H2 & _);
    [lia | lia | lia | lia |].
  split; [rewrite H1; reflexivity | ].
  change 17 with (2 * 6 + 1 * 3 + 2). rewrite <- H1. exact H2.
Defined.

End LabelFacts.

(** ** Float arithmetic and global minimum / maximum *)

Module TensorFacts.

Lemma foldl_qmin_spec (xs : list Qc) (x : Qc) :
  (foldl qmin x xs ≤ x)%Qc
  ∧ (∀ y, y ∈ xs → (foldl qmin x xs ≤ y)%Qc)
  ∧ foldl qmin x xs ∈ x :: xs.
Proof.
  revert x. induction xs as [|z zs IH]; intros x; simpl.
  - split; [apply Qcle_refl|]. split; [by intros y ?%elem_of_nil | by left].
  - destruct (IH (qmin x z)) as (H1 & H2 & H3).
    assert (qmin x z ≤ x ∧ qmin x z ≤ z)%Qc as [Hx Hz].
    { unfold qmin. destruct (decide (x ≤ z)%Qc) as [Hle|Hnle].
      - split; [apply Qcle_refl | done].
      - split; [|apply Qcle_refl].
        apply Qclt_le_weak, Qcnot_le_lt, Hnle. }
    split; [by eapply Qcle_trans|]. split.
    + intros y [->|Hy]%elem_of_cons; [by eapply Qcle_trans | by apply H2].
    + apply elem_of_cons in H3 as [E|Hin].
      * rewrite E. unfold qmin. destruct (decide (x ≤ z)%Qc).
        -- by left.
        -- right. by left.
      * right. by right.
Qed.

Lemma foldl_qmax_spec (xs : list Qc) (x : Qc) :
  (x ≤ foldl qmax x xs)%Qc
  ∧ (∀ y, y ∈ xs → (y ≤ foldl qmax x xs)%Qc)
  ∧ foldl qmax x xs ∈ x :: xs.
Proof.
  revert x. induction xs as [|z zs IH]; intros x; simpl.
  - split; [apply Qcle_refl|]. split; [by intros y ?%elem_of_nil | by left].
  - destruct (IH (qmax x z)) as (H1 & H2 & H3).
    assert (x ≤ qmax x z ∧ z ≤ qmax x z)%Qc as [Hx Hz].
    { unfold qmax. destruct (decide (x ≤ z)%Qc) as [Hle|Hnle].
      - split; [done | apply Qcle_refl].
      - split; [apply Qcle_refl|].
        apply Qclt_le_weak, Qcnot_le_lt, Hnle. }
    split; [by eapply Qcle_trans|]. split.
    + intros y [->|Hy]%elem_of_cons; [by eapply Qcle_trans | by apply H2].
    + apply elem_of_cons in H3 as [E|Hin].
      * rewrite E. unfold qmax. destruct (decide (x ≤ z)%Qc).
        -- right. by left.
        -- by left.
      * right. by right.
Qed.

Lemma torch_min_spec (t : list (list Qc)) (mn : Qc) :
  torch_min t = Ok mn →
  mn ∈ concat t ∧ ∀ y, y ∈ concat t → (mn ≤ y)%Qc.
Proof.
  unfold torch_min. destruct (concat t) as [|x xs]; [done|].
  intros [= <-]. destruct (foldl_qmin_spec xs x) as (H1 & H2 & H3).
  split; [done|]. intros y [->|Hy]%elem_of_cons; auto.
Qed.

Lemma torch_max_spec (t : list (list Qc)) (mx : Qc) :
  torch_max t = Ok mx →
  mx ∈ concat t ∧ ∀ y, y ∈ concat t → (y ≤ mx)%Qc.
Proof.
  unfold torch_max. destruct (concat t) as [|x xs]; [done|].
  intros [= <-]. destruct (foldl_qmax_spec xs x) as (H1 & H2 & H3).
  split; [done|]. intros y [->|Hy]%elem_of_cons; auto.
Qed.

(** Both reductions succeed on a tensor with at least one entry. *)
Lemma torch_min_max_total (t : list (list Qc)) :
  concat t ≠ [] → ∃ mn mx, torch_min t = Ok mn ∧ torch_max t = Ok mx.
Proof.
  unfold torch_min, torch_max. destruct (concat t); [done|]. eauto.
Qed.

Lemma bind_Ok_inv {A B} (m : result A) (k : A → result B) (b : B) :
  m ≫= k = Ok b → ∃ a, m = Ok a ∧ k a = Ok b.
Proof. destruct m as [a|e]; [|done]. intros Hk. by exists a. Qed.

Lemma mapM_cons_Ok {A B} (f : A → result B) (x : A) (xs : list A)
    (y : B) (ys : list B) :
  f x = Ok y → mapM f xs = Ok ys → mapM f (x :: xs) = Ok (y :: ys).
Proof. intros Hx Hxs. simpl. rewrite Hx. cbn. rewrite Hxs. reflexivity. Qed.

Lemma py_mod_Ok (x n : Z) : n ≠ 0 → py_mod x n = Ok (x mod n).
Proof. intros Hn. unfold py_mod. by rewrite decide_False. Qed.

Lemma py_truediv_Ok (x : fval) (n : Z) :
  n ≠ 0 → py_truediv x n = Ok (fdiv x (of_Z n)).
Proof. intros Hn. unfold py_truediv. by rewrite decide_False. Qed.

Lemma fsum_acc_NaN (l : list fval) : foldl fadd NaN l = NaN.
Proof. induction l as [|x xs IH]; [done|]. simpl. exact IH. Qed.

(** A non-empty sum of [NaN]s is [NaN]. *)
Lemma fsum_all_NaN (l : list fval) :
  l ≠ [] → Forall (λ v, v = NaN) l → fsum l = NaN.
Proof.
  destruct l as [|x xs]; [done|]. intros _ Hall.
  apply Forall_cons in Hall as [-> _]. unfold fsum. simpl. apply fsum_acc_NaN.
Qed.

Lemma Qcminus_diag (x : Qc) : (x - x)%Qc = 0%Qc.
Proof. ring. Qed.

Lemma Qcminus_eq_0 (x y : Qc) : (x - y)%Qc = 0%Qc → x = y.
Proof.
  intros E. assert (x = x - y + y)%Qc as -> by ring. rewrite E. ring.
Qed.

(** One entry of the min-max normalisation. *)
Lemma normalise_entry (x mn mx : Qc) :
  (mn ≤ x)%Qc → (x ≤ mx)%Qc →
  (mn = mx → fdiv (Fin (x - mn)) (Fin (mx - mn)) = NaN)
  ∧ (mn ≠ mx →
     ∃ q, fdiv (Fin (x - mn)) (Fin (mx - mn)) = Fin q ∧ (0 ≤ q)%Qc ∧ (q ≤ 1)%Qc).
Proof.
  intros Hlo Hhi. split.
  - intros <-. assert (x = mn) as -> by by apply Qcle_antisym.
    simpl. rewrite Qcminus_diag. reflexivity.
  - intros Hne. simpl.
    destruct (decide ((mx - mn)%Qc = 0%Qc)) as [E|Hd].
    { apply Qcminus_eq_0 in E. congruence. }
    exists ((x - mn) / (mx - mn))%Qc. split; [done|].
    assert (0 ≤ x - mn)%Qc as Hnum.
    { apply Qcle_minus_iff in Hlo. exact Hlo. }
    assert (x - mn ≤ mx - mn)%Qc as Hnd.
    { unfold Qcminus. by apply Qcplus_le_mono_r. }
    assert (0 < mx - mn)%Qc as Hpos.
    { destruct (Qcle_lt_or_eq _ _ (Qcle_trans _ _ _ Hnum Hnd)) as [?|E]; [done|].
      by destruct Hd. }
    assert ((x - mn) / (mx - mn) * (mx - mn) = x - mn)%Qc as Ecancel.
    { rewrite Qcmult_comm. by apply Qcmult_div_r. }
    split.
    + apply (Qcmult_lt_0_le_reg_r _ _ (mx - mn)%Qc Hpos).
      rewrite Ecancel, Qcmult_0_l. exact Hnum.
    + apply (Qcmult_lt_0_le_reg_r _ _ (mx - mn)%Qc Hpos).
      rewrite Ecancel, Qcmult_1_l. exact Hnd.
Qed.

End TensorFacts.

(** ** The joint age loss of [train_age.py] *)

Module AgeLossFacts.
Import TensorFacts Age.

Lemma outs_normal_eq (outs : list (list Qc)) (mn mx : Qc) :
  torch_min outs = Ok mn → torch_max outs = Ok mx →
  outs_normal outs = Ok (fmap (M:=list) (normalise mn mx) <$> outs).
Proof. intros Hmn Hmx. unfold outs_normal. rewrite Hmn, Hmx. reflexivity. Qed.

Lemma Forall_entries {A B} (P : B → Prop) (f : A → B) (t : list (list A)) :
  (∀ x, x ∈ concat t → P (f x)) → Forall (Forall P) (fmap (M:=list) f <$> t).
Proof.
  induction t as [|row rows IH]; intros HP; [constructor|].
  rewrite fmap_cons. constructor.
  - apply Forall_fmap, Forall_forall. intros x Hx. apply HP.
    simpl. apply elem_of_app. by left.
  - apply IH. intros x Hx. apply HP. simpl. apply elem_of_app. by right.
Qed.

Lemma all_NaN_replicate (row : list fval) :
  Forall (λ v, v = NaN) row → row = replicate (length row) NaN.
Proof.
  induction 1 as [|x xs -> _ IH]; [done|]. simpl. by rewrite <- IH.
Qed.

Lemma final_outs_all_NaN (normal : list (list fval)) :
  Forall (λ row, length row = 11%nat) normal →
  Forall (Forall (λ v, v = NaN)) normal →
  final_outs normal = Ok (replicate (length normal) [NaN; NaN; NaN]).
Proof.
  unfold final_outs.
  induction normal as [|row rows IH]; intros Hlen Hnan; [done|].
  apply Forall_cons in Hlen as [Hl Hlen]. apply Forall_cons in Hnan as [Hn Hnan].
  apply all_NaN_replicate in Hn. rewrite Hl in Hn. subst row.
  simpl replicate. apply mapM_cons_Ok; [reflexivity | by apply IH].
Qed.

Section WithFramework.
Context `{Framework}.

(** C10: on a non-empty batch the divisor [max - min] of line 189 is zero
    exactly when all logits are equal; then every normalised score is
    [NaN], so are the three bucket scores the coarse loss is computed
    from; otherwise every normalised score is a number in [0,1]. *)
Theorem normalisation_needs_spread (outs : list (list Qc))
    (org_labels labels : list Z) :
  concat outs ≠ [] →
  ∃ mn mx normal,
    torch_min outs = Ok mn ∧ torch_max outs = Ok mx
    ∧ outs_normal outs = Ok normal
    ∧ (mn = mx ↔ ∀ x y, x ∈ concat outs → y ∈ concat outs → x = y)
    ∧ (mn = mx →
       Forall (Forall (λ v, v = NaN)) normal
       ∧ (Forall (λ row, length row = 11%nat) outs →
          final_outs normal = Ok (replicate (length outs) [NaN; NaN; NaN])
          ∧ original_loss <$> joint_loss outs org_labels labels =
              Ok (CrossEntropyLoss weights
                    (replicate (length outs) [NaN; NaN; NaN]) org_labels)))
    ∧ (mn ≠ mx →
       Forall (Forall (λ v, ∃ q, v = Fin q ∧ (0 ≤ q)%Qc ∧ (q ≤ 1)%Qc)) normal).
Proof.
  intros Hne.
  destruct (torch_min_max_total outs Hne) as (mn & mx & Hmn & Hmx).
  exists mn, mx, (fmap (M:=list) (normalise mn mx) <$> outs).
  pose proof (outs_normal_eq outs mn mx Hmn Hmx) as Hnorm.
  destruct (torch_min_spec _ _ Hmn) as [Hmn_in Hmn_le].
  destruct (torch_max_spec _ _ Hmx) as [Hmx_in Hmx_le].
  split; [done|]. split; [done|]. split; [done|]. split; [|split].
  - split.
    + intros E x y Hx Hy.
      assert (∀ z, z ∈ concat outs → z = mn) as Hall.
      { intros z Hz. apply Qcle_antisym; [|by apply Hmn_le].
        rewrite E. by apply Hmx_le. }
      by rewrite (Hall x Hx), (Hall y Hy).
    + intros Hall. by apply Hall.
  - intros E.
    assert (Forall (Forall (λ v, v = NaN)) (fmap (M:=list) (normalise mn mx) <$> outs))
      as Hnan.
    { apply Forall_entries. intros x Hx.
      by apply (normalise_entry x mn mx (Hmn_le x Hx) (Hmx_le x Hx)). }
    split; [done|]. intros Hlen.
    assert (final_outs (fmap (M:=list) (normalise mn mx) <$> outs) =
            Ok (replicate (length outs) [NaN; NaN; NaN])) as Hfinal.
    { rewrite <- (length_fmap (fmap (M:=list) (normalise mn mx)) outs).
      apply final_outs_all_NaN; [|done].
      apply Forall_fmap. eapply Forall_impl; [exact Hlen|].
      intros row Hrow. simpl. by rewrite length_fmap. }
    split; [done|].
    unfold joint_loss. rewrite Hnorm. cbn. rewrite Hfinal. reflexivity.
  - intros Hneq. apply Forall_entries. intros x Hx.
    by apply (normalise_entry x mn mx (Hmn_le x Hx) (Hmx_le x Hx)).
Qed.

End WithFramework.

(** The same on a batch of two rows of eleven equal logits. *)
Lemma normalisation_needs_spread_witness :
  ∃ mn mx normal,
    torch_min [replicate 11 1%Qc; replicate 11 1%Qc] = Ok mn
    ∧ torch_max [replicate 11 1%Qc; replicate 11 1%Qc] = Ok mx
    ∧ outs_normal [replicate 11 1%Qc; replicate 11 1%Qc] = Ok normal
    ∧ mn = mx
    ∧ Forall (Forall (λ v, v = NaN)) normal.
Proof.
  destruct (normalisation_needs_spread (H := Toy.toy 11)
              [replicate 11 1%Qc; replicate 11 1%Qc] [0; 0] [0; 0])
    as (mn & mx & normal & Hmn & Hmx & Hn & Heq & Hnan & _).
  { simpl. discriminate. }
  exists mn, mx, normal.
  assert (mn = mx) as E.
  { apply Heq. intros x y Hx Hy. simpl in Hx, Hy.
    assert (∀ z, z ∈ replicate 11 1%Qc ++ replicate 11 1%Qc ++ [] → z = 1%Qc) as Hone.
    { intros z Hz. rewrite app_nil_r in Hz.
      apply elem_of_app in Hz as [Hz|Hz]; by apply elem_of_replicate in Hz as [-> _]. }
    by rewrite (Hone x Hx), (Hone y Hy). }
  split; [done|]. split; [done|]. split; [done|]. split; [done|].
  by apply Hnan.
Defined.

End AgeLossFacts.

(** ** The three bucket scores *)

Module BucketFacts.
Import Age.

(** C2: line 190 sums the normalised scores 0-4 into bucket 0 and takes the
    last score as bucket 2, but its middle slice [5:11] reaches the last
    index too: bucket 1 is the sum of the scores 5-10, last one included.
    On a row whose only non-zero logit is the last one the script's buckets
    are (0, 1, 1); the partition of the spec gives (0, 0, 1). *)
Theorem bucket_one_counts_last_index :
  (∀ x0 x1 x2 x3 x4 x5 x6 x7 x8 x9 x10 : fval,
     final_outs_row [x0; x1; x2; x3; x4; x5; x6; x7; x8; x9; x10] =
       Ok [fsum [x0; x1; x2; x3; x4]; fsum [x5; x6; x7; x8; x9; x10]; x10]
     ∧ partition_row [x0; x1; x2; x3; x4; x5; x6; x7; x8; x9; x10] =
       Ok [fsum [x0; x1; x2; x3; x4]; fsum [x5; x6; x7; x8; x9]; x10])
  ∧ (outs_normal [Toy.one_hot 11 10] ≫= final_outs) =
      Ok [[Fin 0%Qc; Fin 1%Qc; Fin 1%Qc]]
  ∧ (outs_normal [Toy.one_hot 11 10] ≫= mapM partition_row) =
      Ok [[Fin 0%Qc; Fin 0%Qc; Fin 1%Qc]].
Proof.
  split; [intros; split; reflexivity|].
  split; apply (bool_decide_unpack _); vm_compute; exact I.
Qed.

End BucketFacts.

(** ** The batch loop of [train_age.py] *)

Module TrainLoopFacts.
Import TensorFacts AgeLossFacts Age.

Lemma final_outs_total (normal : list (list fval)) :
  Forall (λ row, row ≠ []) normal → ∃ final, final_outs normal = Ok final.
Proof.
  unfold final_outs. induction 1 as [|row rows Hrow _ [final IH]].
  - by exists [].
  - destruct (last row) as [l|] eqn:El.
    + eexists. apply mapM_cons_Ok; [|exact IH].
      unfold final_outs_row. rewrite El. reflexivity.
    + apply last_None in El. done.
Qed.

Section WithFramework.
Context `{Framework}.

Lemma joint_loss_total (p : params) (b : list sample) :
  eleven_classes → b ≠ [] →
  ∃ v, is_joint_loss p b v
       ∧ loss <$> joint_loss (forward p (s_image <$> b))
                    (s_org_label <$> b) (s_label <$> b) = Ok v.
Proof.
  intros Hcls Hb. unfold is_joint_loss.
  set (outs := forward p (s_image <$> b)).
  destruct (Hcls p (s_image <$> b)) as [Hlen Hrows]. fold outs in Hlen, Hrows.
  assert (concat outs ≠ []) as Hne.
  { destruct outs as [|row rows].
    - rewrite length_fmap in Hlen. destruct b; [done|simpl in Hlen; lia].
    - apply Forall_cons in Hrows as [Hr _]. simpl.
      destruct row; [simpl in Hr; lia | done]. }
  destruct (torch_min_max_total outs Hne) as (mn & mx & Hmn & Hmx).
  pose proof (outs_normal_eq outs mn mx Hmn Hmx) as Hnorm.
  destruct (final_outs_total (fmap (M:=list) (normalise mn mx) <$> outs))
    as [final Hfinal].
  { apply Forall_fmap. eapply Forall_impl; [exact Hrows|].
    intros row Hr. simpl. destruct row; [simpl in Hr; lia | done]. }
  eexists. split.
  - exists (fmap (M:=list) (normalise mn mx) <$> outs), final.
    split; [done|]. split; [done|]. reflexivity.
  - unfold joint_loss. rewrite Hnorm. cbn. rewrite Hfinal. reflexivity.
Qed.

(** One iteration: what is backpropagated, and what is logged. *)
Lemma train_step_spec (a : args) (st : train_state) (idx : nat)
    (b : list sample) :
  eleven_classes → log_interval a ≠ 0 → batch_size a ≠ 0%nat → b ≠ [] →
  ∃ st' v,
    train_step a st idx b = Ok st'
    ∧ is_joint_loss (ts_params st) b v
    ∧ ts_backward st' = ts_backward st ++ [v]
    ∧ ts_params st' =
        optimizer_step (ts_params st) (s_image <$> b)
          [s_org_label <$> b; s_label <$> b]
    ∧ ts_inputs st' = Some (s_image <$> b)
    ∧ (let acc' := fadd (loss_value (ts_accum st)) (fdiv v (of_Z 2)) in
       if decide ((Z.of_nat idx + 1) mod log_interval a = 0)
       then train_loss <$> ts_logs st' =
              (train_loss <$> ts_logs st) ++ [fdiv acc' (of_Z (log_interval a))]
            ∧ loss_value (ts_accum st') = Fin 0
       else ts_logs st' = ts_logs st ∧ loss_value (ts_accum st') = acc').
Proof.
  intros Hcls HL Hbs Hb.
  destruct (joint_loss_total (ts_params st) b Hcls Hb) as (v & Hv & Hjl).
  unfold train_step.
  destruct (joint_loss _ _ _) as [l|e] eqn:El; [|done].
  cbn in Hjl. injection Hjl as Hlv.
  cbn [mbind result_bind]. rewrite py_mod_Ok by done. cbn [mbind result_bind].
  destruct (decide ((Z.of_nat idx + 1) mod log_interval a = 0)) as [E|E].
  - repeat (rewrite py_truediv_Ok by (done || lia); cbn [mbind result_bind]).
    eexists _, v. split; [reflexivity|].
    cbn [ts_backward ts_params ts_inputs ts_logs ts_accum loss_value accum0].
    rewrite Hlv. split; [done|]. split; [done|]. split; [done|]. split; [done|].
    split; [|done]. by rewrite fmap_app.
  - eexists _, v. split; [reflexivity|].
    cbn [ts_backward ts_params ts_inputs ts_logs ts_accum loss_value].
    rewrite Hlv. done.
Qed.

Lemma train_loop_spec (a : args) (batches : list (list sample))
    (st : train_state) (idx : nat) :
  eleven_classes → log_interval a ≠ 0 → batch_size a ≠ 0%nat →
  Forall (λ b, b ≠ []) batches →
  ∃ st' vs,
    train_loop a st idx batches = Ok st'
    ∧ ts_backward st' = ts_backward st ++ vs
    ∧ joint_trace (ts_params st) batches vs
    ∧ train_loss <$> ts_logs st' =
        (train_loss <$> ts_logs st)
          ++ logged_losses (log_interval a) (loss_value (ts_accum st)) idx vs.
Proof.
  intros Hcls HL Hbs Hall. revert st idx.
  induction Hall as [|b bs Hb _ IH]; intros st idx.
  - exists st, []. simpl. by rewrite !app_nil_r.
  - destruct (train_step_spec a st idx b Hcls HL Hbs Hb)
      as (st1 & v & Hstep & Hv & Hback & Hp & _ & Hlog).
    destruct (IH st1 (S idx)) as (st' & vs & Hloop & Hback' & Htrace & Hlogs').
    exists st', (v :: vs). simpl. rewrite Hstep. cbn.
    split; [done|]. split.
    { rewrite Hback', Hback, <- app_assoc. done. }
    split.
    { split; [done|]. by rewrite <- Hp. }
    rewrite Hlogs'. cbn in Hlog.
    destruct (decide ((Z.of_nat idx + 1) mod log_interval a = 0)).
    + destruct Hlog as [-> ->]. by rewrite <- app_assoc.
    + destruct Hlog as [-> ->]. done.
Qed.

(** C3: every batch of the training loop backpropagates
    [0.5 * fine_loss + coarse_loss]: the configured criterion on the
    eleven logits and the fine labels, plus the cross-entropy weighted
    [1.5, 1.5, 7.0] on the three bucket scores and the coarse labels. *)
Theorem backward_is_joint_loss (a : args) (batches : list (list sample))
    (st : train_state) (idx : nat) :
  eleven_classes → log_interval a ≠ 0 → batch_size a ≠ 0%nat →
  Forall (λ b, b ≠ []) batches →
  weights = [Q2Qc (3 # 2); Q2Qc (3 # 2); Q2Qc 7]
  ∧ ∃ st' vs,
      train_loop a st idx batches = Ok st'
      ∧ ts_backward st' = ts_backward st ++ vs
      ∧ length vs = length batches
      ∧ joint_trace (ts_params st) batches vs.
Proof.
  intros Hcls HL Hbs Hall. split; [reflexivity|].
  destruct (train_loop_spec a batches st idx Hcls HL Hbs Hall)
    as (st' & vs & Hloop & Hback & Htrace & _).
  exists st', vs. split; [done|]. split; [done|]. split; [|done].
  clear Hloop Hback Hall. revert vs Htrace. generalize (ts_params st).
  induction batches as [|b bs IH]; intros p [|v vs] Ht; simpl in *; try done.
  destruct Ht as [_ Ht]. f_equal. by eapply IH.
Qed.

End WithFramework.
End TrainLoopFacts.

(** ** The logged training loss of [train_age.py] *)

Module LoggedLossFacts.
Import TensorFacts TrainLoopFacts Age.

(** Division of a float by a positive constant. *)
Lemma fdiv_pos_fadd (c : Qc) (x y : fval) :
  (0 < c)%Qc →
  fdiv (fadd x y) (Fin c) = fadd (fdiv x (Fin c)) (fdiv y (Fin c)).
Proof.
  intros Hc.
  assert (c ≠ 0%Qc) as Hc0 by (intros ->; by apply (Qclt_not_eq 0 0)%Qc in Hc).
  assert (¬ (c < 0)%Qc) as Hneg.
  { intros Hlt. apply (Qclt_not_le _ _ Hlt). by apply Qclt_le_weak. }
  destruct x as [a| | |], y as [b| | |]; simpl;
    rewrite ?(decide_False (P := c = 0%Qc)) by done;
    rewrite ?(decide_False (P := (c < 0)%Qc)) by done; try reflexivity.
  simpl. f_equal. unfold Qcdiv. ring.
Qed.

Lemma fdiv_pos_zero (c : Qc) : (0 < c)%Qc → fdiv (Fin 0) (Fin c) = Fin 0.
Proof.
  intros Hc.
  assert (c ≠ 0%Qc) as Hc0 by (intros ->; by apply (Qclt_not_eq 0 0)%Qc in Hc).
  simpl. rewrite decide_False by done. f_equal. unfold Qcdiv. ring.
Qed.

Lemma fdiv_pos_comm (c d : Qc) (x : fval) :
  (0 < c)%Qc → (0 < d)%Qc →
  fdiv (fdiv x (Fin c)) (Fin d) = fdiv (fdiv x (Fin d)) (Fin c).
Proof.
  intros Hc Hd.
  assert (c ≠ 0%Qc) as Hc0 by (intros ->; by apply (Qclt_not_eq 0 0)%Qc in Hc).
  assert (d ≠ 0%Qc) as Hd0 by (intros ->; by apply (Qclt_not_eq 0 0)%Qc in Hd).
  assert (¬ (c < 0)%Qc) as Hcn.
  { intros Hlt. apply (Qclt_not_le _ _ Hlt). by apply Qclt_le_weak. }
  assert (¬ (d < 0)%Qc) as Hdn.
  { intros Hlt. apply (Qclt_not_le _ _ Hlt). by apply Qclt_le_weak. }
  destruct x as [a| | |]; simpl;
    rewrite ?(decide_False (P := c = 0%Qc)) by done;
    rewrite ?(decide_False (P := d = 0%Qc)) by done;
    rewrite ?(decide_False (P := (c < 0)%Qc)) by done;
    rewrite ?(decide_False (P := (d < 0)%Qc)) by done; simpl;
    rewrite ?(decide_False (P := c = 0%Qc)) by done;
    rewrite ?(decide_False (P := d = 0%Qc)) by done;
    rewrite ?(decide_False (P := (c < 0)%Qc)) by done;
    rewrite ?(decide_False (P := (d < 0)%Qc)) by done; try reflexivity.
  f_equal. unfold Qcdiv. ring.
Qed.

(** Multiplying by [0.5] is dividing by [2]. *)
Lemma fmul_half (x : fval) : fmul (Fin (Q2Qc (1 # 2))) x = fdiv x (of_Z 2).
Proof.
  destruct x as [a| | |]; try (by vm_compute).
  unfold of_Z. simpl. f_equal. unfold Qcdiv. rewrite Qcmult_comm.
  f_equal; apply Qc_is_canon; reflexivity.
Qed.

Lemma Qc_of_Z_pos (n : Z) : 0 < n → (0 < Qc_of_Z n)%Qc.
Proof.
  intros Hn. unfold Qclt, Qc_of_Z. simpl. unfold Qlt. simpl. lia.
Qed.

(** Summing halves is halving the sum. *)
Lemma foldl_halves (w : list fval) (acc : fval) :
  foldl fadd (fdiv acc (of_Z 2)) ((λ v, fdiv v (of_Z 2)) <$> w) =
    fdiv (foldl fadd acc w) (of_Z 2).
Proof.
  revert acc. induction w as [|v w IH]; intros acc; [done|].
  simpl. rewrite <- IH. f_equal. unfold of_Z.
  symmetry. apply fdiv_pos_fadd. by apply Qc_of_Z_pos.
Qed.

(** What one full window logs is half the mean of its losses. *)
Lemma window_log_half_mean (w : list fval) (interval : Z) :
  0 < interval → length w = Z.to_nat interval →
  fdiv (foldl fadd (Fin 0) ((λ v, fdiv v (of_Z 2)) <$> w)) (of_Z interval) =
    half_of_mean w.
Proof.
  intros HL Hlen. unfold half_of_mean, mean, fsum.
  rewrite Hlen, Z2Nat.id by lia. rewrite fmul_half.
  assert (Fin 0 = fdiv (Fin 0) (of_Z 2)) as E.
  { symmetry. apply fdiv_pos_zero. by apply Qc_of_Z_pos. }
  rewrite E at 1. rewrite foldl_halves.
  unfold of_Z. apply fdiv_pos_comm; by apply Qc_of_Z_pos.
Qed.

Lemma logged_losses_window (interval : Z) (w rest : list fval)
    (acc : fval) (idx : nat) :
  w ≠ [] →
  (Z.of_nat idx + Z.of_nat (length w)) mod interval = 0 →
  (∀ k, 0 < k < Z.of_nat (length w) → (Z.of_nat idx + k) mod interval ≠ 0) →
  logged_losses interval acc idx (w ++ rest) =
    fdiv (foldl fadd acc ((λ v, fdiv v (of_Z 2)) <$> w)) (of_Z interval)
      :: logged_losses interval (Fin 0) (idx + length w) rest.
Proof.
  revert acc idx. induction w as [|v w IH]; intros acc idx Hne Hend Hmid; [done|].
  destruct w as [|v' w'].
  - simpl in *. rewrite decide_True by (rewrite <- Hend; f_equal; lia).
    do 2 f_equal. lia.
  - change ((v :: v' :: w') ++ rest) with (v :: ((v' :: w') ++ rest)).
    cbn [logged_losses].
    rewrite decide_False by (apply Hmid; simpl; lia).
    rewrite IH.
    + simpl. do 2 f_equal. lia.
    + done.
    + rewrite <- Hend. f_equal. simpl length. lia.
    + intros k Hk.
      replace (Z.of_nat (S idx) + k) with (Z.of_nat idx + (k + 1)) by lia.
      apply Hmid. simpl length in *. lia.
Qed.

Lemma logged_losses_short (interval : Z) (tl : list fval) (acc : fval) (idx : nat) :
  (∀ k, 0 < k ≤ Z.of_nat (length tl) → (Z.of_nat idx + k) mod interval ≠ 0) →
  logged_losses interval acc idx tl = [].
Proof.
  revert acc idx. induction tl as [|v tl IH]; intros acc idx Hmid; [done|].
  simpl. rewrite decide_False by (apply Hmid; simpl; lia).
  apply IH. intros k Hk.
  replace (Z.of_nat (S idx) + k) with (Z.of_nat idx + (k + 1)) by lia.
  apply Hmid. simpl length. lia.
Qed.

(** The log of a sequence of losses, window by window. *)
Lemma logged_losses_windows (interval : Z) (ws : list (list fval))
    (tl : list fval) (k : nat) :
  0 < interval →
  Forall (λ w, length w = Z.to_nat interval) ws →
  (length tl < Z.to_nat interval)%nat →
  logged_losses interval (Fin 0) (k * Z.to_nat interval) (concat ws ++ tl) =
    half_of_mean <$> ws.
Proof.
  intros HL Hws Htl. revert k.
  induction Hws as [|w ws Hw _ IH]; intros k.
  - simpl. apply logged_losses_short. intros j Hj.
    rewrite Nat2Z.inj_mul, Z2Nat.id by lia.
    rewrite Z.add_comm, Z.mod_add by lia. rewrite Z.mod_small by lia. lia.
  - simpl. rewrite <- app_assoc. rewrite logged_losses_window.
    + rewrite window_log_half_mean by done. f_equal.
      rewrite Hw. replace (k * Z.to_nat interval + Z.to_nat interval)%nat
        with (S k * Z.to_nat interval)%nat by lia.
      apply IH.
    + destruct w; [simpl in Hw; lia | done].
    + rewrite Hw, Nat2Z.inj_mul, Z2Nat.id by lia.
      replace (Z.of_nat k * interval + interval) with ((Z.of_nat k + 1) * interval)
        by lia.
      apply Z.mod_mul. lia.
    + intros j Hj. rewrite Hw, Z2Nat.id in Hj by lia.
      rewrite Nat2Z.inj_mul, Z2Nat.id by lia.
      rewrite Z.add_comm, Z.mod_add by lia. rewrite Z.mod_small by lia. lia.
Qed.

(** Half of a non-zero number is another number. *)
Lemma half_ne (m : Qc) : m ≠ 0%Qc → fmul (Fin (Q2Qc (1 # 2))) (Fin m) ≠ Fin m.
Proof.
  intros Hm [= E]. apply Hm.
  assert (m = 2 * (Q2Qc (1 # 2) * m))%Qc as E2.
  { rewrite Qcmult_assoc.
    assert (2 * Q2Qc (1 # 2) = 1)%Qc as -> by (apply Qc_is_canon; reflexivity).
    ring. }
  rewrite E in E2.
  assert (m + 0 = m + m)%Qc as E3 by (rewrite E2 at 1; ring).
  by apply (inj (Qcplus m)) in E3.
Qed.

Section WithFramework.
Context `{Framework}.

(** C8: the running sum of [train_age.py] adds [loss.item() / 2], so the
    training loss logged at the end of each window of [log_interval]
    batches is one half of the mean of the combined losses backpropagated
    in that window, and differs from that mean whenever the mean is a
    non-zero number. *)
Theorem train_loss_is_half_mean (a : args) (p : params)
    (inputs : option (list image)) (batches : list (list sample)) :
  eleven_classes → 0 < log_interval a → batch_size a ≠ 0%nat →
  Forall (λ b, b ≠ []) batches →
  ∃ st',
    train_loop a {| ts_params := p; ts_inputs := inputs; ts_accum := accum0;
                    ts_backward := []; ts_logs := [] |} 0 batches = Ok st'
    ∧ joint_trace p batches (ts_backward st')
    ∧ ∀ ws tl,
        ts_backward st' = concat ws ++ tl →
        Forall (λ w, length w = Z.to_nat (log_interval a)) ws →
        (length tl < Z.to_nat (log_interval a))%nat →
        train_loss <$> ts_logs st' = half_of_mean <$> ws
        ∧ ∀ w m, w ∈ ws → mean w = Fin m → m ≠ 0%Qc →
                 half_of_mean w ≠ mean w.
Proof.
  intros Hcls HL Hbs Hall.
  destruct (train_loop_spec a batches
              {| ts_params := p; ts_inputs := inputs; ts_accum := accum0;
                 ts_backward := []; ts_logs := [] |} 0 Hcls ltac:(lia) Hbs Hall)
    as (st' & vs & Hloop & Hback & Htrace & Hlogs).
  simpl in Hback, Htrace, Hlogs. subst vs.
  exists st'. split; [done|]. split; [done|].
  intros ws tl Hsplit Hws Htl. split.
  - rewrite Hlogs, Hsplit.
    apply (logged_losses_windows (log_interval a) ws tl 0 HL Hws Htl).
  - intros w m _ Hmean Hm. unfold half_of_mean. rewrite Hmean.
    by apply half_ne.
Qed.

End WithFramework.
End LoggedLossFacts.

(** ** Checkpoint selection *)

Module CheckpointFacts.
Section WithFramework.
Context `{Framework}.

Lemma best_last_distinct (save_dir : string) :
  best_path save_dir ≠ last_path save_dir.
Proof.
  unfold best_path, last_path. intros E.
  apply (inj (String.app save_dir)) in E. discriminate.
Qed.

(** Lines 293-299 of [train_age.py], 274-281 of [train_5fold.py]. *)
Lemma save_checkpoints_spec (save_dir : string) (p : params)
    (s val_acc : Qc) (val_loss : fval) (tr : trackers)
    (fs : gmap string pickled) :
  ∃ tr' fs' wrote,
    save_checkpoints save_dir p s val_acc val_loss tr fs = (tr', fs', wrote)
    ∧ wrote = bool_decide (best_val_f1 tr < s)%Qc
    ∧ best_val_f1 tr' = (if wrote then s else best_val_f1 tr)
    ∧ fs' !! last_path save_dir = Some (StateDict p)
    ∧ fs' !! best_path save_dir =
        (if wrote then Some (StateDict p) else fs !! best_path save_dir)
    ∧ ∀ path, path ≠ best_path save_dir → path ≠ last_path save_dir →
              fs' !! path = fs !! path.
Proof.
  pose proof (best_last_distinct save_dir) as Hd.
  unfold save_checkpoints.
  destruct (decide (best_val_f1 tr < s)%Qc) as [Hlt|Hnlt].
  - eexists _, _, true. split; [reflexivity|].
    rewrite bool_decide_eq_true_2 by done. simpl.
    split; [done|]. split; [done|].
    split; [by rewrite lookup_insert_eq|].
    split; [by rewrite lookup_insert_ne, lookup_insert_eq|].
    intros path Hb Hl. by rewrite !lookup_insert_ne.
  - eexists _, _, false. split; [reflexivity|].
    rewrite bool_decide_eq_false_2 by done. simpl.
    split; [done|]. split; [done|].
    split; [by rewrite lookup_insert_eq|].
    split; [by rewrite lookup_insert_ne|].
    intros path Hb Hl. by rewrite !lookup_insert_ne.
Qed.

(** *** Consequences of a chain of epochs *)

Lemma final_files_cons (fs : gmap string pickled) (e : ckpt_event)
    (evs : list ckpt_event) :
  final_files fs (e :: evs) = final_files (ce_files e) evs.
Proof.
  unfold final_files. destruct evs as [|e1 evs]; [done|].
  rewrite last_cons_cons. destruct (last (e1 :: evs)) eqn:E; [done|].
  by apply last_None in E.
Qed.

Lemma chain_wrote_iff (save_dir : string) (evs : list ckpt_event)
    (fs : gmap string pickled) (best : Qc) (k : nat) (e : ckpt_event) :
  ckpt_chain save_dir fs best evs → evs !! k = Some e →
  (ce_wrote e = true ↔
     (best < ce_score e)%Qc
     ∧ ∀ j e', (j < k)%nat → evs !! j = Some e' → (ce_score e' < ce_score e)%Qc).
Proof.
  revert fs best k. induction evs as [|e0 evs IH]; intros fs best k Hc Hk; [done|].
  destruct Hc as (Hw & _ & _ & Hc). destruct k as [|k].
  - injection Hk as ->. rewrite Hw. split.
    + intros Hb%bool_decide_eq_true_1. split; [done|]. intros j e' Hj. lia.
    + intros [Hb _]. by apply bool_decide_eq_true_2.
  - simpl in Hk. rewrite (IH _ _ _ Hc Hk). clear IH Hc Hk.
    rewrite Hw. split.
    + intros [Hb Hall]. case_bool_decide as Hlt.
      * split; [by eapply Qclt_trans|].
        intros [|j] e' Hj He'; [by injection He' as <-|].
        apply (Hall j); [lia | done].
      * split; [done|].
        intros [|j] e' Hj He'.
        -- injection He' as <-. eapply Qcle_lt_trans; [|exact Hb].
           by apply Qcnot_lt_le.
        -- apply (Hall j); [lia | done].
    + intros [Hb Hall]. split.
      * case_bool_decide; [|done]. apply (Hall 0%nat e0); [lia | done].
      * intros j e' Hj He'. apply (Hall (S j)); [lia | done].
Qed.

Lemma chain_last_pth (save_dir : string) (evs : list ckpt_event)
    (fs : gmap string pickled) (best : Qc) (k : nat) (e : ckpt_event) :
  ckpt_chain save_dir fs best evs → evs !! k = Some e →
  ce_files e !! last_path save_dir = Some (StateDict (ce_params e)).
Proof.
  revert fs best k. induction evs as [|e0 evs IH]; intros fs best k Hc Hk; [done|].
  destruct Hc as (_ & Hl & _ & Hc). destruct k as [|k].
  - by injection Hk as ->.
  - by eapply IH.
Qed.

Lemma chain_best_pth (save_dir : string) (evs : list ckpt_event)
    (fs : gmap string pickled) (best : Qc) (k : nat) (e : ckpt_event) :
  ckpt_chain save_dir fs best evs → evs !! k = Some e →
  ce_files e !! best_path save_dir =
    (if ce_wrote e then Some (StateDict (ce_params e))
     else files_before fs evs k !! best_path save_dir).
Proof.
  revert fs best k. induction evs as [|e0 evs IH]; intros fs best k Hc Hk; [done|].
  destruct Hc as (_ & _ & Hb & Hc). destruct k as [|k].
  - by injection Hk as ->.
  - simpl in Hk. rewrite (IH _ _ _ Hc Hk).
    destruct (ce_wrote e); [done|]. f_equal.
    destruct k as [|k]; [done|]. simpl.
    destruct (evs !! k) eqn:E; [done|].
    apply lookup_ge_None in E. apply lookup_lt_Some in Hk. lia.
Qed.

Lemma last_writer_cons (e : ckpt_event) (evs : list ckpt_event) :
  last_writer (e :: evs) =
    match last_writer evs with
    | Some e' => Some e'
    | None => if ce_wrote e then Some e else None
    end.
Proof.
  unfold last_writer. rewrite filter_cons.
  destruct (decide (ce_wrote e = true)) as [Hw|Hw].
  - rewrite Hw. destruct (filter _ evs) as [|e1 l] eqn:E; [done|].
    rewrite last_cons_cons. destruct (last (e1 :: l)) eqn:E2; [done|].
    by apply last_None in E2.
  - destruct (ce_wrote e); [done|]. by destruct (last _).
Qed.

(** After the epochs [best.pth] is the checkpoint of the last epoch that
    wrote it, or what it was before. *)
Lemma chain_final_best (save_dir : string) (evs : list ckpt_event)
    (fs : gmap string pickled) (best : Qc) :
  ckpt_chain save_dir fs best evs →
  final_files fs evs !! best_path save_dir =
    match last_writer evs with
    | Some e => Some (StateDict (ce_params e))
    | None => fs !! best_path save_dir
    end.
Proof.
  revert fs best. induction evs as [|e0 evs IH]; intros fs best Hc; [done|].
  destruct Hc as (_ & _ & Hb & Hc).
  rewrite final_files_cons, last_writer_cons, (IH _ _ Hc).
  destruct (last_writer evs); [done|]. rewrite Hb. by destruct (ce_wrote e0).
Qed.

(** The last writer has the largest score of the chain, above the initial
    tracker; without a writer no score exceeds the tracker. *)
Lemma chain_last_writer_max (save_dir : string) (evs : list ckpt_event)
    (fs : gmap string pickled) (best : Qc) :
  ckpt_chain save_dir fs best evs →
  match last_writer evs with
  | Some e =>
      e ∈ evs ∧ ce_wrote e = true ∧ (best < ce_score e)%Qc
      ∧ ∀ e', e' ∈ evs → (ce_score e' ≤ ce_score e)%Qc
  | None => ∀ e', e' ∈ evs → (ce_score e' ≤ best)%Qc
  end.
Proof.
  revert fs best. induction evs as [|e0 evs IH]; intros fs best Hc.
  - simpl. unfold last_writer. simpl. intros e' He'. by apply elem_of_nil in He'.
  - destruct Hc as (Hw & _ & _ & Hc). specialize (IH _ _ Hc).
    rewrite last_writer_cons.
    assert (best ≤ (if ce_wrote e0 then ce_score e0 else best)
            ∧ ce_score e0 ≤ (if ce_wrote e0 then ce_score e0 else best))%Qc
      as [Hb1 Hb2].
    { rewrite Hw. case_bool_decide as Hlt.
      - split; [by apply Qclt_le_weak | apply Qcle_refl].
      - split; [apply Qcle_refl | by apply Qcnot_lt_le]. }
    destruct (last_writer evs) as [e|].
    + destruct IH as (Hin & Hwe & Hlt & Hmax).
      split; [by right|]. split; [done|].
      split; [by eapply Qcle_lt_trans|].
      intros e' [->|He']%elem_of_cons; [|by apply Hmax].
      apply Qclt_le_weak. by eapply Qcle_lt_trans.
    + destruct (ce_wrote e0) eqn:Hw0.
      * symmetry in Hw. apply bool_decide_eq_true_1 in Hw.
        split; [by left|]. split; [done|]. split; [done|].
        intros e' [->|He']%elem_of_cons; [apply Qcle_refl | by apply IH].
      * intros e' [->|He']%elem_of_cons; [done | by apply IH].
Qed.

End WithFramework.
End CheckpointFacts.

(** ** The epoch loops of [train_age.py] and [train_5fold.py] *)

Module EpochLoopFacts.
Import CheckpointFacts.

Section WithFramework.
Context `{Framework}.

Lemma age_epoch_step_inv (a : Age.args) (save_dir : string)
    (train_loader : nat → list (list Age.sample)) (val_set : list Age.sample)
    (rs rs1 : Age.run_state) (epoch : nat) :
  Age.epoch_step a save_dir train_loader val_set rs epoch = Ok rs1 →
  ∃ ts v tr fs wrote,
    Age.train_epoch a (Age.rs_params rs) (Age.rs_inputs rs) (train_loader epoch)
      = Ok ts
    ∧ Age.validate a (Age.ts_params ts) (Age.ts_inputs ts) val_set = Ok v
    ∧ save_checkpoints save_dir (Age.ts_params ts) (Age.score v)
        (Age.val_acc v) (Age.val_loss v) (Age.rs_trackers rs) (Age.rs_files rs)
      = (tr, fs, wrote)
    ∧ rs1 = {| Age.rs_params := Age.ts_params ts;
               Age.rs_inputs := Age.val_inputs v;
               Age.rs_trackers := tr; Age.rs_files := fs;
               Age.rs_reports := Age.rs_reports rs ++
                 [{| Age.er_epoch := epoch;
                     Age.er_backward := Age.ts_backward ts;
                     Age.er_logs := Age.ts_logs ts; Age.er_val := v;
                     Age.er_params := Age.ts_params ts;
                     Age.er_wrote_best := wrote; Age.er_files := fs |}] |}.
Proof.
  unfold Age.epoch_step. intros Hstep.
  destruct (Age.train_epoch _ _ _ _) as [ts|] eqn:Et; [|done].
  cbn [mbind result_bind] in Hstep.
  destruct (Age.validate _ _ _ _) as [v|] eqn:Ev; [|done].
  cbn [mbind result_bind] in Hstep.
  destruct (save_checkpoints _ _ _ _ _ _ _) as [[tr fs] wrote] eqn:Es.
  injection Hstep as <-. by exists ts, v, tr, fs, wrote.
Qed.

Lemma age_epoch_loop_chain (a : Age.args) (save_dir : string)
    (train_loader : nat → list (list Age.sample)) (val_set : list Age.sample)
    (n : nat) (rs rs' : Age.run_state) (epoch : nat) :
  Age.epoch_loop a save_dir train_loader val_set rs epoch n = Ok rs' →
  ∃ R,
    Age.rs_reports rs' = Age.rs_reports rs ++ R
    ∧ length R = n
    ∧ (∀ k r, R !! k = Some r → Age.er_epoch r = (epoch + k)%nat)
    ∧ ckpt_chain save_dir (Age.rs_files rs) (best_val_f1 (Age.rs_trackers rs))
        (Age.to_event <$> R)
    ∧ Age.rs_files rs' = final_files (Age.rs_files rs) (Age.to_event <$> R)
    ∧ Age.rs_params rs' = from_option Age.er_params (Age.rs_params rs) (last R).
Proof.
  revert rs epoch. induction n as [|n IH]; intros rs epoch Hloop.
  - injection Hloop as <-. exists []. by rewrite app_nil_r.
  - simpl in Hloop.
    destruct (Age.epoch_step _ _ _ _ rs epoch) as [rs1|] eqn:Estep; [|done].
    cbn [mbind result_bind] in Hloop.
    apply age_epoch_step_inv in Estep
      as (ts & v & tr & fs & wrote & _ & _ & Hsave & ->).
    destruct (IH _ _ Hloop) as (R & HR & Hlen & Hep & Hchain & Hfiles & Hpar).
    cbn [Age.rs_reports Age.rs_files Age.rs_trackers Age.rs_params] in *.
    destruct (save_checkpoints_spec save_dir (Age.ts_params ts) (Age.score v)
                (Age.val_acc v) (Age.val_loss v) (Age.rs_trackers rs)
                (Age.rs_files rs))
      as (tr' & fs' & wrote' & Hsave' & Hw & Hbest & Hlast & Hbp & _).
    rewrite Hsave in Hsave'. injection Hsave' as <- <- <-.
    eexists (_ :: R). split; [by rewrite HR, <- app_assoc|].
    split; [simpl; by rewrite Hlen|]. split.
    { intros [|k] r Hr.
      - injection Hr as <-. simpl. lia.
      - simpl in Hr. rewrite (Hep _ _ Hr). lia. }
    split.
    { rewrite fmap_cons. simpl. rewrite <- Hbest. done. }
    split.
    { by rewrite fmap_cons, final_files_cons. }
    rewrite Hpar. destruct R as [|r R]; [done|].
    rewrite last_cons_cons. simpl.
    destruct (last (r :: R)) eqn:El; [done|]. by apply last_None in El.
Qed.

Lemma epoch_path_not_best (save_dir : string) (fold epoch : nat)
    (val_f1 : Qc) (val_loss : fval) :
  Fold5.epoch_path save_dir fold epoch val_f1 val_loss ≠ best_path save_dir.
Proof.
  unfold Fold5.epoch_path, best_path. intros E.
  apply (inj (String.app save_dir)) in E. discriminate.
Qed.

Lemma epoch_path_not_last (save_dir : string) (fold epoch : nat)
    (val_f1 : Qc) (val_loss : fval) :
  Fold5.epoch_path save_dir fold epoch val_f1 val_loss ≠ last_path save_dir.
Proof.
  unfold Fold5.epoch_path, last_path. intros E.
  apply (inj (String.app save_dir)) in E. discriminate.
Qed.

Lemma fold5_epoch_step_inv (a : Fold5.args) (save_dir : string)
    (train_loader : nat → list (list Fold5.sample))
    (val_set : list Fold5.sample) (fold : nat)
    (rs rs1 : Fold5.run_state) (epoch : nat) :
  Fold5.epoch_step a save_dir train_loader val_set fold rs epoch = Ok rs1 →
  ∃ ts v tr fs wrote,
    Fold5.train_epoch a (Fold5.rs_params rs) (Fold5.rs_inputs rs)
      (train_loader epoch) = Ok ts
    ∧ Fold5.validate a (Fold5.ts_params ts) (Fold5.ts_inputs ts) val_set = Ok v
    ∧ save_checkpoints save_dir (Fold5.ts_params ts) (Fold5.val_f1 v)
        (Fold5.val_acc v) (Fold5.val_loss v) (Fold5.rs_trackers rs)
        (<[Fold5.epoch_path save_dir fold epoch (Fold5.val_f1 v) (Fold5.val_loss v)
           := WholeModel (Fold5.ts_params ts)]> (Fold5.rs_files rs))
      = (tr, fs, wrote)
    ∧ rs1 = {| Fold5.rs_params := Fold5.ts_params ts;
               Fold5.rs_inputs := Fold5.val_inputs v;
               Fold5.rs_trackers := tr; Fold5.rs_files := fs;
               Fold5.rs_reports := Fold5.rs_reports rs ++
                 [{| Fold5.er_fold := fold; Fold5.er_epoch := epoch;
                     Fold5.er_backward := Fold5.ts_backward ts;
                     Fold5.er_logs := Fold5.ts_logs ts; Fold5.er_val := v;
                     Fold5.er_params := Fold5.ts_params ts;
                     Fold5.er_wrote_best := wrote; Fold5.er_files := fs |}] |}.
Proof.
  unfold Fold5.epoch_step. intros Hstep.
  destruct (Fold5.train_epoch _ _ _ _) as [ts|] eqn:Et; [|done].
  cbn [mbind result_bind] in Hstep.
  destruct (Fold5.validate _ _ _ _) as [v|] eqn:Ev; [|done].
  cbn [mbind result_bind] in Hstep.
  destruct (save_checkpoints _ _ _ _ _ _ _) as [[tr fs] wrote] eqn:Es.
  injection Hstep as <-. by exists ts, v, tr, fs, wrote.
Qed.

Lemma fold5_epoch_loop_chain (a : Fold5.args) (save_dir : string)
    (train_loader : nat → list (list Fold5.sample))
    (val_set : list Fold5.sample) (fold : nat)
    (n : nat) (rs rs' : Fold5.run_state) (epoch : nat) :
  Fold5.epoch_loop a save_dir train_loader val_set fold rs epoch n = Ok rs' →
  ∃ R,
    Fold5.rs_reports rs' = Fold5.rs_reports rs ++ R
    ∧ length R = n
    ∧ (∀ k r, R !! k = Some r →
              Fold5.er_epoch r = (epoch + k)%nat ∧ Fold5.er_fold r = fold)
    ∧ ckpt_chain save_dir (Fold5.rs_files rs)
        (best_val_f1 (Fold5.rs_trackers rs)) (Fold5.to_event <$> R)
    ∧ Fold5.rs_files rs' = final_files (Fold5.rs_files rs) (Fold5.to_event <$> R)
    ∧ Fold5.rs_params rs' =
        from_option Fold5.er_params (Fold5.rs_params rs) (last R).
Proof.
  revert rs epoch. induction n as [|n IH]; intros rs epoch Hloop.
  - injection Hloop as <-. exists []. by rewrite app_nil_r.
  - simpl in Hloop.
    destruct (Fold5.epoch_step _ _ _ _ _ rs epoch) as [rs1|] eqn:Estep; [|done].
    cbn [mbind result_bind] in Hloop.
    apply fold5_epoch_step_inv in Estep
      as (ts & v & tr & fs & wrote & _ & _ & Hsave & ->).
    destruct (IH _ _ Hloop) as (R & HR & Hlen & Hep & Hchain & Hfiles & Hpar).
    cbn [Fold5.rs_reports Fold5.rs_files Fold5.rs_trackers Fold5.rs_params] in *.
    destruct (save_checkpoints_spec save_dir (Fold5.ts_params ts) (Fold5.val_f1 v)
                (Fold5.val_acc v) (Fold5.val_loss v) (Fold5.rs_trackers rs)
                (<[Fold5.epoch_path save_dir fold epoch (Fold5.val_f1 v)
                     (Fold5.val_loss v) := WholeModel (Fold5.ts_params ts)]>
                   (Fold5.rs_files rs)))
      as (tr' & fs' & wrote' & Hsave' & Hw & Hbest & Hlast & Hbp & _).
    rewrite Hsave in Hsave'. injection Hsave' as <- <- <-.
    rewrite lookup_insert_ne in Hbp by apply epoch_path_not_best.
    eexists (_ :: R). split; [by rewrite HR, <- app_assoc|].
    split; [simpl; by rewrite Hlen|]. split.
    { intros [|k] r Hr.
      - injection Hr as <-. simpl. split; [lia | done].
      - simpl in Hr. destruct (Hep _ _ Hr) as [-> ->]. split; [lia | done]. }
    split.
    { rewrite fmap_cons. simpl. rewrite <- Hbest. done. }
    split.
    { by rewrite fmap_cons, final_files_cons. }
    rewrite Hpar. destruct R as [|r R]; [done|].
    rewrite last_cons_cons. simpl.
    destruct (last (r :: R)) eqn:El; [done|]. by apply last_None in El.
Qed.

End WithFramework.
End EpochLoopFacts.

Module CheckpointClaims.
Import CheckpointFacts EpochLoopFacts.

Section WithFramework.
Context `{Framework}.

(** What a chain started with the tracker at [0] says about its [k]-th
    epoch, in terms of the events. *)
Lemma chain_epoch_props (save_dir : string) (evs : list ckpt_event)
    (fs : gmap string pickled) (k : nat) (e : ckpt_event) :
  ckpt_chain save_dir fs 0%Qc evs → evs !! k = Some e →
  (ce_wrote e = true ↔
     (0 < ce_score e)%Qc
     ∧ ∀ j e', (j < k)%nat → evs !! j = Some e' → (ce_score e' < ce_score e)%Qc)
  ∧ ce_files e !! best_path save_dir =
      (if ce_wrote e then Some (StateDict (ce_params e))
       else files_before fs evs k !! best_path save_dir)
  ∧ ce_files e !! last_path save_dir = Some (StateDict (ce_params e)).
Proof.
  intros Hc Hk. split; [by eapply chain_wrote_iff|].
  split; [by eapply chain_best_pth | by eapply chain_last_pth].
Qed.

Lemma final_last_pth (save_dir : string) (evs : list ckpt_event)
    (fs : gmap string pickled) (best : Qc) (e : ckpt_event) :
  ckpt_chain save_dir fs best evs → last evs = Some e →
  final_files fs evs !! last_path save_dir = Some (StateDict (ce_params e)).
Proof.
  intros Hc Hl. unfold final_files. rewrite Hl. simpl.
  rewrite last_lookup in Hl. by eapply chain_last_pth.
Qed.

End WithFramework.
End CheckpointClaims.

(** ** The five folds of [train_5fold.py] *)

Module FoldFacts.
Import TensorFacts CheckpointFacts EpochLoopFacts.

Section WithFramework.
Context `{Framework}.

(** The folds one after the other: the first [n], then fold [fold + n]. *)
Lemma fold_loop_snoc (a : Fold5.args) (save_dir : string)
    (train_loader : nat → nat → list (list Fold5.sample))
    (val_set : nat → list Fold5.sample) (n : nat)
    (rs : Fold5.run_state) (fold : nat) :
  Fold5.fold_loop a save_dir train_loader val_set rs fold (S n) =
    Fold5.fold_loop a save_dir train_loader val_set rs fold n
      ≫= λ rs', Fold5.fold_step a save_dir train_loader val_set rs' (fold + n)%nat.
Proof.
  revert rs fold. induction n as [|n IH]; intros rs fold.
  - simpl. rewrite Nat.add_0_r.
    by destruct (Fold5.fold_step _ _ _ _ rs fold).
  - change (Fold5.fold_loop a save_dir train_loader val_set rs fold (S (S n)))
      with (Fold5.fold_step a save_dir train_loader val_set rs fold
              ≫= λ rs1, Fold5.fold_loop a save_dir train_loader val_set rs1
                           (S fold) (S n)).
    simpl Fold5.fold_loop at 2.
    destruct (Fold5.fold_step _ _ _ _ rs fold) as [rs1|]; [|done].
    cbn [mbind result_bind]. rewrite IH.
    by replace (S fold + n)%nat with (fold + S n)%nat by lia.
Qed.

(** One fold, whatever the folds before it left behind: the trackers
    start again at zero, so the fold's first epoch with a positive
    macro-F1 replaces [best.pth]. *)
Lemma fold_step_spec (a : Fold5.args) (save_dir : string)
    (train_loader : nat → nat → list (list Fold5.sample))
    (val_set : nat → list Fold5.sample)
    (rs rs' : Fold5.run_state) (fold : nat) :
  Fold5.fold_step a save_dir train_loader val_set rs fold = Ok rs' →
  ∃ R,
    Fold5.rs_reports rs' = Fold5.rs_reports rs ++ R
    ∧ length R = Fold5.epochs a
    ∧ (∀ r, r ∈ R → Fold5.er_fold r = fold)
    ∧ (∀ k r, R !! k = Some r →
         (Fold5.er_wrote_best r = true ↔
            (0 < Fold5.val_f1 (Fold5.er_val r))%Qc
            ∧ ∀ j r', (j < k)%nat → R !! j = Some r' →
                (Fold5.val_f1 (Fold5.er_val r') < Fold5.val_f1 (Fold5.er_val r))%Qc))
    ∧ ((∃ r, r ∈ R ∧ (0 < Fold5.val_f1 (Fold5.er_val r))%Qc) →
       ∃ r, r ∈ R
            ∧ Fold5.rs_files rs' !! best_path save_dir =
                Some (StateDict (Fold5.er_params r))
            ∧ ∀ r', r' ∈ R →
                (Fold5.val_f1 (Fold5.er_val r') ≤ Fold5.val_f1 (Fold5.er_val r))%Qc)
    ∧ ((∀ r, r ∈ R → (Fold5.val_f1 (Fold5.er_val r) ≤ 0)%Qc) →
       Fold5.rs_files rs' !! best_path save_dir =
         Fold5.rs_files rs !! best_path save_dir).
Proof.
  unfold Fold5.fold_step. intros Hloop.
  destruct (fold5_epoch_loop_chain _ _ _ _ _ _ _ _ _ Hloop)
    as (R & HR & Hlen & Hep & Hchain & Hfiles & _).
  cbn [Fold5.rs_reports Fold5.rs_files Fold5.rs_trackers best_val_f1
       init_trackers] in *.
  exists R. split; [done|]. split; [done|]. split.
  { intros r [k Hk]%list_elem_of_lookup. by destruct (Hep _ _ Hk). }
  split.
  { intros k r Hr.
    assert ((Fold5.to_event <$> R) !! k = Some (Fold5.to_event r)) as Hk.
    { by rewrite list_lookup_fmap, Hr. }
    rewrite (chain_wrote_iff _ _ _ _ _ _ Hchain Hk : Fold5.er_wrote_best r = true ↔ _).
    simpl. split; intros [Hpos Hall]; (split; [done|]).
    - intros j r' Hj Hr'. apply (Hall j (Fold5.to_event r')); [done|].
      by rewrite list_lookup_fmap, Hr'.
    - intros j e' Hj He'. rewrite list_lookup_fmap in He'.
      destruct (R !! j) as [r'|] eqn:Hr'; [|done].
      injection He' as <-. by apply (Hall j). }
  pose proof (chain_final_best _ _ _ _ Hchain) as Hfinal.
  pose proof (chain_last_writer_max _ _ _ _ Hchain) as Hmax.
  rewrite <- Hfiles in Hfinal.
  destruct (last_writer (Fold5.to_event <$> R)) as [e|].
  - destruct Hmax as (Hin & _ & Hpos & Hmax).
    apply list_elem_of_fmap in Hin as (r & -> & Hr).
    split.
    + intros _. exists r. split; [done|]. split; [done|].
      intros r' Hr'. apply (Hmax (Fold5.to_event r')).
      apply list_elem_of_fmap. by exists r'.
    + intros Hzero. exfalso. apply (Qclt_not_le _ _ Hpos). by apply Hzero.
  - split; [|done].
    intros (r & Hr & Hpos). exfalso. apply (Qclt_not_le _ _ Hpos).
    apply (Hmax (Fold5.to_event r)). apply list_elem_of_fmap. by exists r.
Qed.

End WithFramework.
End FoldFacts.

Module FoldClaims.
Import TensorFacts CheckpointFacts EpochLoopFacts FoldFacts.

Section WithFramework.
Context `{Framework}.

(** C9, as the code has it: every fold of [train_5fold.py] starts its
    trackers again at zero and writes into the same [save_dir], so the
    decision to write [best.pth] in a fold depends on the scores of that
    fold alone; a fold that reaches a positive macro-F1 leaves its own
    best epoch in [best.pth], a fold that never does leaves [best.pth] as
    the folds before it left it.  After the five folds [best.pth] is
    therefore the best epoch of the last fold when that fold reached a
    positive macro-F1, whatever the earlier folds scored. *)
Theorem last_fold_decides_best (a : Fold5.args) (save_dir : string)
    (train_loader : nat → nat → list (list Fold5.sample))
    (val_set : nat → list Fold5.sample) (fs : gmap string pickled)
    (rs : Fold5.run_state) :
  Fold5.train a save_dir train_loader val_set fs = Ok rs →
  ∃ rs4 R,
    Fold5.fold_loop a save_dir train_loader val_set
      {| Fold5.rs_params := init_params 0; Fold5.rs_inputs := None;
         Fold5.rs_trackers := init_trackers;
         Fold5.rs_files := fs; Fold5.rs_reports := [] |} 0 4 = Ok rs4
    ∧ Fold5.fold_step a save_dir train_loader val_set rs4 4 = Ok rs
    ∧ Fold5.rs_reports rs = Fold5.rs_reports rs4 ++ R
    ∧ length R = Fold5.epochs a
    ∧ (∀ r, r ∈ R → Fold5.er_fold r = 4%nat)
    ∧ (∀ k r, R !! k = Some r →
         (Fold5.er_wrote_best r = true ↔
            (0 < Fold5.val_f1 (Fold5.er_val r))%Qc
            ∧ ∀ j r', (j < k)%nat → R !! j = Some r' →
                (Fold5.val_f1 (Fold5.er_val r') < Fold5.val_f1 (Fold5.er_val r))%Qc))
    ∧ ((∃ r, r ∈ R ∧ (0 < Fold5.val_f1 (Fold5.er_val r))%Qc) →
       ∃ r, r ∈ R
            ∧ Fold5.rs_files rs !! best_path save_dir =
                Some (StateDict (Fold5.er_params r))
            ∧ ∀ r', r' ∈ R →
                (Fold5.val_f1 (Fold5.er_val r') ≤ Fold5.val_f1 (Fold5.er_val r))%Qc)
    ∧ ((∀ r, r ∈ R → (Fold5.val_f1 (Fold5.er_val r) ≤ 0)%Qc) →
       Fold5.rs_files rs !! best_path save_dir =
         Fold5.rs_files rs4 !! best_path save_dir).
Proof.
  unfold Fold5.train. rewrite fold_loop_snoc. intros Hrun.
  apply bind_Ok_inv in Hrun as (rs4 & Hfour & Hlast).
  destruct (fold_step_spec _ _ _ _ _ _ _ Hlast)
    as (R & HR & Hlen & Hfold & Hw & Hpos & Hzero).
  exists rs4, R. split_and!; done.
Qed.

End WithFramework.

Import Toy.

(** The observable outcome of a run: [best.pth], and per epoch the fold,
    the macro-F1, whether [best.pth] was written, and the weights. *)
Lemma final_fold_zero_f1_run :
  (λ rs, (Fold5.rs_files rs !! best_path "model/5fold_all",
          (λ r, (Fold5.er_fold r, this (Fold5.val_f1 (Fold5.er_val r)),
                 Fold5.er_wrote_best r, Fold5.er_params r))
            <$> Fold5.rs_reports rs))
    <$> Fold5.train (H := toy 18) fold_args "model/5fold_all"
          fold_train_loader fold_val_set_last_zero ∅
  = Ok (Some (@StateDict (toy 18) 301%nat),
        [(0%nat, 1%Q, true, 1%nat); (1%nat, 1%Q, true, 101%nat);
         (2%nat, 1%Q, true, 201%nat); (3%nat, 1%Q, true, 301%nat);
         (4%nat, 0%Q, false, 401%nat)]).
Proof. vm_compute. reflexivity. Qed.

(** With a last fold whose macro-F1 stays at zero, [best.pth] after the run
    is the checkpoint of fold 3 and of no epoch of the last fold. *)
Lemma final_fold_zero_f1_counterexample :
  ¬ (∀ rs,
       Fold5.train (H := toy 18) fold_args "model/5fold_all"
         fold_train_loader fold_val_set_last_zero ∅ = Ok rs →
       ∃ r, r ∈ Fold5.rs_reports rs ∧ Fold5.er_fold r = 4%nat
            ∧ Fold5.rs_files rs !! best_path "model/5fold_all" =
                Some (StateDict (Fold5.er_params r))).
Proof.
  assert (∀ (l : list (nat * Q * bool * nat)) x,
            l = [(0%nat, 1%Q, true, 1%nat); (1%nat, 1%Q, true, 101%nat);
                 (2%nat, 1%Q, true, 201%nat); (3%nat, 1%Q, true, 301%nat);
                 (4%nat, 0%Q, false, 401%nat)] →
            x ∈ l → x.1.1.1 = 4%nat → x.2 = 301%nat → False) as Haux.
  { intros l x -> Hx H4 H301.
    repeat (apply elem_of_cons in Hx as [->|Hx];
            [simpl in H4, H301; discriminate|]).
    by apply elem_of_nil in Hx. }
  intros Hclaim. pose proof final_fold_zero_f1_run as Hrun.
  destruct (Fold5.train _ _ _ _ _) as [rs|] eqn:E; [|discriminate Hrun].
  destruct (Hclaim rs eq_refl) as (r & Hr & Hfold & Hbest).
  clear E Hclaim.
  injection Hrun as Hb Hreports.
  rewrite Hb in Hbest. injection Hbest as Hp.
  apply (list_elem_of_fmap_2
           (λ r, (Fold5.er_fold r, this (Fold5.val_f1 (Fold5.er_val r)),
                  Fold5.er_wrote_best r, Fold5.er_params r))) in Hr.
  exact (Haux _ _ Hreports Hr Hfold (eq_sym Hp)).
Qed.

(** A run in which fold 0 scores 1 and the later folds 1/3: [best.pth] ends
    as the checkpoint of the last fold. *)
Lemma first_fold_best_run :
  (λ rs, (Fold5.rs_files rs !! best_path "model/5fold_all",
          (λ r, (Fold5.er_fold r, this (Fold5.val_f1 (Fold5.er_val r)),
                 Fold5.er_wrote_best r, Fold5.er_params r))
            <$> Fold5.rs_reports rs))
    <$> Fold5.train (H := toy 18) fold_args "model/5fold_all"
          fold_train_loader fold_val_set_first_best ∅
  = Ok (Some (@StateDict (toy 18) 401%nat),
        [(0%nat, 1%Q, true, 1%nat); (1%nat, (1 # 3)%Q, true, 101%nat);
         (2%nat, (1 # 3)%Q, true, 201%nat); (3%nat, (1 # 3)%Q, true, 301%nat);
         (4%nat, (1 # 3)%Q, true, 401%nat)]).
Proof. vm_compute. reflexivity. Qed.

Lemma last_fold_decides_best_witness :
  ∃ rs rs4 R,
    Fold5.train (H := toy 18) fold_args "model/5fold_all"
      fold_train_loader fold_val_set_first_best ∅ = Ok rs
    ∧ Fold5.fold_step fold_args "model/5fold_all"
        fold_train_loader fold_val_set_first_best rs4 4 = Ok rs
    ∧ Fold5.rs_reports rs = Fold5.rs_reports rs4 ++ R
    ∧ length R = 1%nat.
Proof.
  pose proof first_fold_best_run as Hrun.
  destruct (Fold5.train (H := toy 18) fold_args "model/5fold_all"
              fold_train_loader fold_val_set_first_best ∅) as [rs|] eqn:E;
    [|discriminate Hrun].
  destruct (last_fold_decides_best (H := toy 18) _ _ _ _ _ _ E)
    as (rs4 & R & _ & Hstep & HR & Hlen & _).
  exists rs, rs4, R. split; [reflexivity|]. split; [exact Hstep|].
  split; [exact HR | exact Hlen].
Defined.

End FoldClaims.

(** ** The checkpoints over a whole run *)

Module RunCheckpointClaims.
Import TensorFacts CheckpointFacts EpochLoopFacts CheckpointClaims FoldFacts.

Section WithFramework.
Context `{Framework}.

Lemma final_files_app (fs : gmap string pickled) (evs evs' : list ckpt_event) :
  final_files fs (evs ++ evs') = final_files (final_files fs evs) evs'.
Proof.
  unfold final_files. destruct evs' as [|e evs' _] using rev_ind.
  - by rewrite app_nil_r.
  - by rewrite app_assoc, !last_snoc.
Qed.

Lemma files_before_app_l (fs : gmap string pickled)
    (evs evs' : list ckpt_event) (i : nat) :
  (i ≤ length evs)%nat →
  files_before fs (evs ++ evs') i = files_before fs evs i.
Proof.
  destruct i as [|i]; [done|]. intros Hi. simpl.
  by rewrite lookup_app_l by lia.
Qed.

Lemma files_before_app_r (fs : gmap string pickled)
    (evs evs' : list ckpt_event) (k : nat) :
  (k ≤ length evs')%nat →
  files_before fs (evs ++ evs') (length evs + k)
    = files_before (final_files fs evs) evs' k.
Proof.
  intros Hk. destruct k as [|k].
  - rewrite Nat.add_0_r. simpl. unfold final_files.
    destruct evs as [|e evs _] using rev_ind; [done|].
    rewrite last_snoc, length_app, Nat.add_1_r. simpl.
    rewrite <- app_assoc. simpl.
    by rewrite (list_lookup_middle evs evs' e (length evs) eq_refl).
  - replace (length evs + S k)%nat with (S (length evs + k)) by lia. simpl.
    rewrite lookup_app_r by lia.
    replace (length evs + k - length evs)%nat with k by lia.
    destruct (evs' !! k) eqn:E; [done|].
    apply lookup_ge_None in E. lia.
Qed.

(** The folds as blocks of epochs: fold [fold0 + f] contributes the block
    [f], and inside a block the decision to write [best.pth] looks at the
    scores of that block alone. *)
Lemma fold_loop_blocks (a : Fold5.args) (save_dir : string)
    (train_loader : nat → nat → list (list Fold5.sample))
    (val_set : nat → list Fold5.sample) (n : nat)
    (rs rs' : Fold5.run_state) (fold0 : nat) :
  Fold5.fold_loop a save_dir train_loader val_set rs fold0 n = Ok rs' →
  ∃ Rs : list (list Fold5.epoch_report),
    length Rs = n
    ∧ length (concat Rs) = (n * Fold5.epochs a)%nat
    ∧ Fold5.rs_reports rs' = Fold5.rs_reports rs ++ concat Rs
    ∧ Fold5.rs_files rs' =
        final_files (Fold5.rs_files rs) (Fold5.to_event <$> concat Rs)
    ∧ ∀ f R, Rs !! f = Some R →
        length R = Fold5.epochs a
        ∧ ∀ k r, R !! k = Some r →
            Fold5.er_fold r = (fold0 + f)%nat ∧ Fold5.er_epoch r = k
            ∧ (Fold5.er_wrote_best r = true ↔
                 (0 < Fold5.val_f1 (Fold5.er_val r))%Qc
                 ∧ ∀ j r', (j < k)%nat → R !! j = Some r' →
                     (Fold5.val_f1 (Fold5.er_val r')
                        < Fold5.val_f1 (Fold5.er_val r))%Qc)
            ∧ Fold5.er_files r !! best_path save_dir =
                (if Fold5.er_wrote_best r
                 then Some (StateDict (Fold5.er_params r))
                 else files_before (Fold5.rs_files rs)
                        (Fold5.to_event <$> concat Rs)
                        (f * Fold5.epochs a + k) !! best_path save_dir)
            ∧ Fold5.er_files r !! last_path save_dir =
                Some (StateDict (Fold5.er_params r)).
Proof.
  revert rs'. induction n as [|n IH]; intros rs' Hloop.
  - injection Hloop as <-. exists []. simpl. rewrite app_nil_r.
    split_and!; done.
  - rewrite fold_loop_snoc in Hloop.
    apply bind_Ok_inv in Hloop as (rsn & Hn & Hstep).
    destruct (IH _ Hn) as (Rs & HlenRs & Hlenc & Hrep & Hfiles & Hblocks).
    clear IH Hn. unfold Fold5.fold_step in Hstep.
    destruct (fold5_epoch_loop_chain _ _ _ _ _ _ _ _ _ Hstep)
      as (R & HR & Hlen & Hep & Hchain & HfilesR & _).
    clear Hstep.
    cbn [Fold5.rs_reports Fold5.rs_files Fold5.rs_trackers best_val_f1
         init_trackers] in HR, Hchain, HfilesR.
    exists (Rs ++ [R]).
    assert (concat (Rs ++ [R]) = concat Rs ++ R) as ->.
    { rewrite concat_app. simpl. by rewrite app_nil_r. }
    assert (length (Fold5.to_event <$> concat Rs) = (n * Fold5.epochs a)%nat)
      as Hlene by by rewrite length_fmap.
    split_and!.
    + rewrite length_app. simpl. lia.
    + rewrite length_app, Hlenc, Hlen. simpl. lia.
    + by rewrite HR, Hrep, app_assoc.
    + by rewrite fmap_app, final_files_app, <- Hfiles.
    + intros f R' Hf. pose proof (lookup_lt_Some _ _ _ Hf) as Hlt.
      rewrite length_app in Hlt. simpl in Hlt.
      destruct (decide (f < n)%nat) as [Hfn|Hfn].
      * rewrite lookup_app_l in Hf by lia.
        destruct (Hblocks f R' Hf) as [HlR Hk]. split; [done|].
        intros k r Hr. destruct (Hk k r Hr) as (Hfo & He & Hw & Hb & Hl).
        split_and!; try done. rewrite Hb.
        destruct (Fold5.er_wrote_best r); [done|].
        rewrite fmap_app, files_before_app_l; [done|].
        rewrite Hlene. apply lookup_lt_Some in Hr. nia.
      * assert (f = n) as -> by lia.
        rewrite lookup_app_r in Hf by lia.
        rewrite HlenRs, Nat.sub_diag in Hf. injection Hf as <-.
        split; [done|]. intros k r Hr.
        destruct (Hep k r Hr) as [He Hfo].
        assert ((Fold5.to_event <$> R) !! k = Some (Fold5.to_event r)) as Hk.
        { by rewrite list_lookup_fmap, Hr. }
        destruct (chain_epoch_props _ _ _ _ _ Hchain Hk) as (Hw & Hb & Hl).
        simpl in Hw, Hb, Hl.
        split; [done|]. split; [done|]. split; [|split; [|done]].
        -- rewrite Hw. split; intros [Hpos Hall]; (split; [done|]).
           ++ intros j r' Hj Hr'. apply (Hall j (Fold5.to_event r')); [done|].
              by rewrite list_lookup_fmap, Hr'.
           ++ intros j e' Hj He'. rewrite list_lookup_fmap in He'.
              destruct (R !! j) as [r'|] eqn:Hr'; [|done].
              injection He' as <-. by apply (Hall j).
        -- rewrite Hb. destruct (Fold5.er_wrote_best r); [done|].
           rewrite fmap_app, <- Hlene, files_before_app_r, <- Hfiles; [done|].
           rewrite length_fmap. apply lookup_lt_Some in Hr. lia.
Qed.

(** C4, as the code has it: in [train_age.py] [best.pth] is written in an
    epoch exactly when its validation macro-F1 is positive and strictly
    greater than the macro-F1 of every earlier epoch of the run; in
    [train_5fold.py], whose tracker starts again at zero in every fold,
    [best.pth] is written in an epoch exactly when its macro-F1 is positive
    and strictly greater than that of every earlier epoch of the same fold,
    whatever the folds before scored.  In both scripts [best.pth] stays as
    it was in any other epoch, and [last.pth] is written in every epoch
    with the weights of that epoch, so after the run it holds the current
    weights. *)
Theorem best_only_on_improvement_within_fold :
  (∀ (a : Age.args) (save_dir : string)
     (train_loader : nat → list (list Age.sample)) (val_set : list Age.sample)
     (rs rs' : Age.run_state) (n : nat),
     best_val_f1 (Age.rs_trackers rs) = 0%Qc →
     Age.epoch_loop a save_dir train_loader val_set rs 0 n = Ok rs' →
     ∃ R,
       Age.rs_reports rs' = Age.rs_reports rs ++ R ∧ length R = n
       ∧ (∀ k r, R !! k = Some r →
            Age.er_epoch r = k
            ∧ (Age.er_wrote_best r = true ↔
                 (0 < Age.score (Age.er_val r))%Qc
                 ∧ ∀ j r', (j < k)%nat → R !! j = Some r' →
                     (Age.score (Age.er_val r') < Age.score (Age.er_val r))%Qc)
            ∧ Age.er_files r !! best_path save_dir =
                (if Age.er_wrote_best r then Some (StateDict (Age.er_params r))
                 else files_before (Age.rs_files rs) (Age.to_event <$> R) k
                        !! best_path save_dir)
            ∧ Age.er_files r !! last_path save_dir =
                Some (StateDict (Age.er_params r)))
       ∧ (n ≠ 0%nat →
          Age.rs_files rs' !! last_path save_dir =
            Some (StateDict (Age.rs_params rs'))))
  ∧ (∀ (a : Fold5.args) (save_dir : string)
       (train_loader : nat → nat → list (list Fold5.sample))
       (val_set : nat → list Fold5.sample) (fs : gmap string pickled)
       (rs : Fold5.run_state),
       Fold5.train a save_dir train_loader val_set fs = Ok rs →
       ∃ Rs : list (list Fold5.epoch_report),
         length Rs = 5%nat
         ∧ Fold5.rs_reports rs = concat Rs
         ∧ (∀ fold R, Rs !! fold = Some R →
              length R = Fold5.epochs a
              ∧ ∀ k r, R !! k = Some r →
                  Fold5.er_fold r = fold ∧ Fold5.er_epoch r = k
                  ∧ (Fold5.er_wrote_best r = true ↔
                       (0 < Fold5.val_f1 (Fold5.er_val r))%Qc
                       ∧ ∀ j r', (j < k)%nat → R !! j = Some r' →
                           (Fold5.val_f1 (Fold5.er_val r')
                              < Fold5.val_f1 (Fold5.er_val r))%Qc)
                  ∧ Fold5.er_files r !! best_path save_dir =
                      (if Fold5.er_wrote_best r
                       then Some (StateDict (Fold5.er_params r))
                       else files_before fs (Fold5.to_event <$> concat Rs)
                              (fold * Fold5.epochs a + k)
                              !! best_path save_dir)
                  ∧ Fold5.er_files r !! last_path save_dir =
                      Some (StateDict (Fold5.er_params r)))
         ∧ (Fold5.epochs a ≠ 0%nat →
            Fold5.rs_files rs !! last_path save_dir =
              Some (StateDict (Fold5.rs_params rs)))).
Proof.
  split.
  - intros a save_dir train_loader val_set rs rs' n Hbest Hloop.
    destruct (age_epoch_loop_chain _ _ _ _ _ _ _ _ Hloop)
      as (R & HR & Hlen & Hep & Hchain & Hfiles & Hpar).
    rewrite Hbest in Hchain.
    exists R. split; [done|]. split; [done|]. split.
    + intros k r Hr. split; [by rewrite (Hep _ _ Hr)|].
      assert ((Age.to_event <$> R) !! k = Some (Age.to_event r)) as Hk.
      { by rewrite list_lookup_fmap, Hr. }
      destruct (chain_epoch_props _ _ _ _ _ Hchain Hk) as (Hw & Hb & Hl).
      split; [|by split].
      simpl in Hw. rewrite Hw. split; intros [Hpos Hall]; (split; [done|]).
      * intros j r' Hj Hr'. apply (Hall j (Age.to_event r')); [done|].
        by rewrite list_lookup_fmap, Hr'.
      * intros j e' Hj He'. rewrite list_lookup_fmap in He'.
        destruct (R !! j) as [r'|] eqn:Hr'; [|done].
        injection He' as <-. by apply (Hall j).
    + intros Hn. destruct (last R) as [r|] eqn:El.
      * rewrite Hfiles, Hpar. simpl.
        apply (final_last_pth _ _ _ _ (Age.to_event r) Hchain).
        by rewrite fmap_last, El.
      * apply last_None in El. subst R. simpl in Hlen. lia.
  - intros a save_dir train_loader val_set fs rs Hrun.
    unfold Fold5.train in Hrun.
    destruct (fold_loop_blocks _ _ _ _ _ _ _ _ Hrun)
      as (Rs & HlenRs & _ & Hrep & _ & Hblocks).
    cbn [Fold5.rs_reports Fold5.rs_files] in Hrep, Hblocks.
    exists Rs. split; [done|]. split; [done|]. split; [exact Hblocks|].
    intros Hep. rewrite fold_loop_snoc in Hrun.
    apply bind_Ok_inv in Hrun as (rs4 & _ & Hlast).
    unfold Fold5.fold_step in Hlast.
    destruct (fold5_epoch_loop_chain _ _ _ _ _ _ _ _ _ Hlast)
      as (R & _ & Hlen & _ & Hchain & Hfiles & Hpar).
    destruct (last R) as [r|] eqn:El.
    + rewrite Hfiles, Hpar. simpl.
      apply (final_last_pth _ _ _ _ (Fold5.to_event r) Hchain).
      by rewrite fmap_last, El.
    + apply last_None in El. subst R. simpl in Hlen. lia.
Qed.

End WithFramework.

Import Toy.

Lemma fmap_lookup_inv {A B} (f : A → B) (l : list A) (l' : list B)
    (k : nat) (y : B) :
  f <$> l = l' → l' !! k = Some y → ∃ x, l !! k = Some x ∧ f x = y.
Proof.
  intros <- Hk. rewrite list_lookup_fmap in Hk.
  destruct (l !! k) as [x|]; [|done]. injection Hk as <-. by exists x.
Qed.

(** In a run in which fold 0 reaches macro-F1 1 and fold 1 only 1/3, the
    epoch of fold 1 writes [best.pth] although an earlier epoch of the
    run had a greater macro-F1. *)
Lemma later_fold_overwrites_best_counterexample :
  ¬ (∀ rs,
       Fold5.train (H := toy 18) fold_args "model/5fold_all"
         fold_train_loader fold_val_set_first_best ∅ = Ok rs →
       ∀ k r, Fold5.rs_reports rs !! k = Some r →
         Fold5.er_wrote_best r = true →
         ∀ j r', (j < k)%nat → Fold5.rs_reports rs !! j = Some r' →
           (Fold5.val_f1 (Fold5.er_val r') < Fold5.val_f1 (Fold5.er_val r))%Qc).
Proof.
  intros Hclaim. pose proof FoldClaims.first_fold_best_run as Hrun.
  destruct (Fold5.train _ _ _ _ _) as [rs|] eqn:E; [|discriminate Hrun].
  specialize (Hclaim rs eq_refl). clear E.
  injection Hrun as _ Hreports.
  destruct (fmap_lookup_inv _ _ _ 1 _ Hreports eq_refl) as (r & Hr & Hfr).
  destruct (fmap_lookup_inv _ _ _ 0 _ Hreports eq_refl) as (r' & Hr' & Hfr').
  injection Hfr as _ Hf1 Hw _. injection Hfr' as _ Hf1' _ _.
  pose proof (Hclaim 1%nat r Hr Hw 0%nat r' (Nat.lt_0_succ 0) Hr') as Hlt.
  unfold Qclt in Hlt. rewrite Hf1, Hf1' in Hlt. by vm_compute in Hlt.
Qed.

End RunCheckpointClaims.

(** ** Validation over the batches of a [drop_last] loader *)

Module ValidationFacts.

Lemma full_batches_concat {A} (fuel b : nat) (ds : list A) :
  (0 < b)%nat → (length ds ≤ fuel)%nat →
  concat (full_batches fuel b ds) = take (b * (length ds / b)) ds
  ∧ length (full_batches fuel b ds) = (length ds / b)%nat.
Proof.
  intros Hb. revert ds. induction fuel as [|fuel IH]; intros ds Hfuel.
  - destruct ds; [|simpl in Hfuel; lia]. simpl.
    rewrite Nat.Div0.div_0_l. by rewrite take_nil.
  - simpl. destruct (decide (b ≤ length ds)%nat) as [Hle|Hgt].
    + destruct (IH (drop b ds)) as [Hc Hl].
      { rewrite length_drop. lia. }
      rewrite length_drop in Hc, Hl.
      assert (length ds / b = S ((length ds - b) / b))%nat as Hdiv.
      { replace (length ds) with (1 * b + (length ds - b))%nat at 1 by lia.
        rewrite Nat.div_add_l by lia. lia. }
      split.
      * simpl. rewrite Hc, Hdiv.
        replace (b * S ((length ds - b) / b))%nat
          with (b + b * ((length ds - b) / b))%nat by lia.
        transitivity (take (b + b * ((length ds - b) / b)) (take b ds ++ drop b ds));
          [|by rewrite take_drop].
        rewrite take_app_add'; [done|].
        rewrite length_take. lia.
      * simpl. by rewrite Hl, Hdiv.
    + rewrite Nat.div_small by lia. simpl. by rewrite Nat.mul_0_r, take_0.
Qed.

(** The loader yields the first [batch_size * (n / batch_size)] items, in
    [n / batch_size] batches. *)
Lemma DataLoader_drop_last_spec {A} (b : nat) (ds : list A) :
  concat (DataLoader_drop_last b ds) = take (b * (length ds / b)) ds
  ∧ length (DataLoader_drop_last b ds) = (length ds / b)%nat.
Proof.
  destruct b as [|b]; [done|].
  unfold DataLoader_drop_last. apply full_batches_concat; lia.
Qed.

Section WithFramework.
Context `{Framework}.

Lemma age_val_loop_scored (p : params) (val_loader : list (list Age.sample))
    (first : bool) (vs vs' : Age.val_sums) :
  Age.val_loop p first vs val_loader = Ok vs' →
  Age.scored vs' = Age.scored vs ++ concat val_loader.
Proof.
  revert first vs. induction val_loader as [|b bs IH]; intros first vs Hloop.
  - injection Hloop as <-. by rewrite app_nil_r.
  - simpl in Hloop. apply TensorFacts.bind_Ok_inv in Hloop as (vs1 & Hstep & Hloop).
    rewrite (IH _ _ Hloop). unfold Age.val_step in Hstep.
    apply TensorFacts.bind_Ok_inv in Hstep as (u & _ & Hstep).
    injection Hstep as <-. simpl. by rewrite <- app_assoc.
Qed.

Lemma fold5_val_loop_scored (a : Fold5.args) (p : params)
    (val_loader : list (list Fold5.sample))
    (first : bool) (vs vs' : Fold5.val_sums) :
  Fold5.val_loop a p first vs val_loader = Ok vs' →
  Fold5.scored vs' = Fold5.scored vs ++ concat val_loader.
Proof.
  revert first vs. induction val_loader as [|b bs IH]; intros first vs Hloop.
  - injection Hloop as <-. by rewrite app_nil_r.
  - simpl in Hloop. apply TensorFacts.bind_Ok_inv in Hloop as (vs1 & Hstep & Hloop).
    rewrite (IH _ _ Hloop). unfold Fold5.val_step in Hstep.
    apply TensorFacts.bind_Ok_inv in Hstep as (u & _ & Hstep).
    injection Hstep as <-. simpl. by rewrite <- app_assoc.
Qed.

(** The samples that reach the model in a validation epoch. *)
Lemma validate_scored :
  (∀ (a : Age.args) (p : params) (inputs : option (list image))
     (val_set : list Age.sample) (v : Age.val_report),
     Age.validate a p inputs val_set = Ok v →
     Age.val_scored v =
       take (Age.valid_batch_size a
             * (length val_set / Age.valid_batch_size a)) val_set)
  ∧ (∀ (a : Fold5.args) (p : params) (inputs : option (list image))
       (val_set : list Fold5.sample) (v : Fold5.val_report),
       Fold5.validate a p inputs val_set = Ok v →
       Fold5.val_scored v =
         take (Fold5.valid_batch_size a
               * (length val_set / Fold5.valid_batch_size a)) val_set).
Proof.
  split.
  - intros a p inputs val_set v Hv. unfold Age.validate in Hv.
    apply TensorFacts.bind_Ok_inv in Hv as (vs & Hloop & Hv).
    apply age_val_loop_scored in Hloop. simpl in Hloop.
    repeat (apply TensorFacts.bind_Ok_inv in Hv as (? & _ & Hv)).
    injection Hv as <-. simpl. rewrite Hloop.
    apply DataLoader_drop_last_spec.
  - intros a p inputs val_set v Hv. unfold Fold5.validate in Hv.
    apply TensorFacts.bind_Ok_inv in Hv as (vs & Hloop & Hv).
    apply fold5_val_loop_scored in Hloop. simpl in Hloop.
    repeat (apply TensorFacts.bind_Ok_inv in Hv as (? & _ & Hv)).
    injection Hv as <-. simpl. rewrite Hloop.
    apply DataLoader_drop_last_spec.
Qed.

End WithFramework.

Import Toy.

(** C5: the validation loaders are built with [drop_last=True], so a
    validation split whose size is not a multiple of the batch size is not
    scored in full, while the accuracy is still divided by the size of the
    whole split.  With 17 correctly classified images and batches of 16
    [train_age.py] scores 16 images and reports the accuracy 16/17; with 11
    correctly classified images and batches of 10 [train_5fold.py] scores
    10 images and reports 10/11. *)
Theorem validation_drops_incomplete_batch :
  (length age_val_set = 17%nat
   ∧ Forall (λ s, Age.preds_of (forward (Framework := toy 11) 0%nat [Age.s_image s])
                  = [Age.s_label s]) age_val_set
   ∧ (λ v, (this (Age.val_acc v), length (Age.val_scored v)))
       <$> Age.validate (H := toy 11) age_args 0%nat None age_val_set
     = Ok ((16 # 17)%Q, 16%nat))
  ∧ (length (fold_val_set 0) = 11%nat
     ∧ Forall (λ s, Fold5.preds_of
                      (forward (Framework := toy 18) 0%nat [Fold5.s_image s])
                    = [Fold5.s_labels s]) (fold_val_set 0)
     ∧ (λ v, (this (Fold5.val_acc v), length (Fold5.val_scored v)))
         <$> Fold5.validate (H := toy 18) fold_args 0%nat None (fold_val_set 0)
       = Ok ((10 # 11)%Q, 10%nat)).
Proof.
  split.
  - split; [reflexivity|]. split; [|vm_compute; reflexivity].
    unfold age_val_set. apply Forall_replicate. vm_compute. reflexivity.
  - split; [reflexivity|]. split; [|vm_compute; reflexivity].
    unfold fold_val_set. apply Forall_replicate. vm_compute. reflexivity.
Qed.

End ValidationFacts.

(** ** Name resolution in [train_models.py] *)

Module NameFacts.
Import TrainModels.

(** Every name the blocks bind is one of the function's locals. *)
Lemma stores_are_locals (pretrained resnet improved : bool) :
  Forall (λ x, x ∈ function_locals)
    (binds (setup pretrained resnet ++ stores ["epoch"] ++ epoch_head
            ++ stores ["batch_iter"; "batch"] ++ train_body ++ train_tail
            ++ val_head ++ stores ["val_iter"; "val_batch"] ++ val_body
            ++ val_tail ++ epoch_tail improved)).
Proof.
  apply Forall_forall. intros x Hx. apply (bool_decide_unpack _).
  revert x Hx. apply Forall_forall.
  destruct pretrained, resnet, improved; apply (bool_decide_unpack _);
    vm_compute; exact I.
Qed.

Lemma run_app (b1 b2 : list op) (ns : gset string) :
  run (b1 ++ b2) ns = run b1 ns ≫= run b2.
Proof.
  revert ns. induction b1 as [|o b1 IH]; intros ns; [done|].
  simpl. destruct (run_op o ns) as [ns'|e]; [|done]. apply IH.
Qed.

Lemma covers_mono (l : list string) (ns ns' : gset string) :
  ns ⊆ ns' → covers l ns → covers l ns'.
Proof. intros Hsub Hc x Hx. apply Hsub. by apply Hc. Qed.

(** A block whose reads all resolve runs to the end and adds the names it
    binds. *)
Lemma run_covered (b : list op) (have : list string) (ns : gset string) :
  resolvable b = true → covers (requires b have) ns → covers have ns →
  run b ns = Ok (list_to_set (binds b) ∪ ns).
Proof.
  revert have ns. induction b as [|[x|x] b IH]; intros have ns Hres Hreq Hhave.
  - simpl. f_equal. set_solver.
  - cbn [resolvable] in Hres. apply andb_true_iff in Hres as [Hx Hres].
    cbn [requires] in Hreq. cbn [run run_op binds].
    destruct (bool_decide (x ∈ function_locals)) eqn:Hloc.
    + assert (x ∈ ns ∧ covers (requires b have) ns) as [Hin Hreq'].
      { destruct (bool_decide (x ∈ have)) eqn:Hh; cbn [andb negb] in Hreq.
        - split; [|done]. apply Hhave. by apply bool_decide_eq_true_1 in Hh.
        - split; [apply Hreq; by left|]. intros y Hy. apply Hreq. by right. }
      rewrite (bool_decide_eq_true_2 (x ∈ ns) Hin). cbn [mbind result_bind].
      by apply (IH have).
    + cbn [orb] in Hx. rewrite Hx. cbn [mbind result_bind].
      cbn [andb] in Hreq. by apply (IH have).
  - cbn [resolvable requires] in *. cbn [run run_op binds mbind result_bind].
    rewrite (IH (x :: have)); [f_equal; set_solver|done| |].
    + eapply covers_mono; [|exact Hreq]. set_solver.
    + intros y [->|Hy]%elem_of_cons; [set_solver|].
      apply elem_of_union. right. by apply Hhave.
Qed.

(** A block stops with [NameError] at its first read of a name that is
    neither a local nor known to the module or the builtins. *)
Lemma run_name_error (b1 b2 : list op) (x : string) (have : list string)
    (ns : gset string) :
  resolvable b1 = true → covers (requires b1 have) ns → covers have ns →
  bool_decide (x ∈ function_locals) = false →
  bool_decide (x ∈ module_globals ++ builtins) = false →
  run (b1 ++ Load x :: b2) ns = Raise (NameError x).
Proof.
  intros Hres Hreq Hhave Hloc Hglob.
  rewrite run_app, (run_covered b1 have) by done.
  cbn [mbind result_bind run run_op]. by rewrite Hloc, Hglob.
Qed.

(** A loop body whose reads resolve can be run any number of times. *)
Lemma for_loop_covered (targets : list string) (body : list op) (n : nat)
    (ns : gset string) :
  resolvable (stores targets ++ body) = true →
  covers (requires (stores targets ++ body) []) ns →
  for_loop targets body n ns =
    Ok (if n is O then ns else list_to_set (binds (stores targets ++ body)) ∪ ns).
Proof.
  intros Hres Hreq. revert ns Hreq. induction n as [|n IH]; intros ns Hreq; [done|].
  simpl. rewrite (run_covered _ [] ns) by (done || by intros x ?%elem_of_nil).
  cbn [mbind result_bind]. rewrite IH.
  - f_equal. destruct n; [done|]. set_solver.
  - eapply covers_mono; [|exact Hreq]. set_solver.
Qed.

Lemma covers_list (l have : list string) (ns : gset string) :
  forallb (λ x, bool_decide (x ∈ have)) l = true →
  covers have ns → covers l ns.
Proof.
  intros Hall Hc x Hx. apply Hc.
  rewrite forallb_forall in Hall.
  pose proof (Hall x (proj1 (list_elem_of_In _ _) Hx)) as Hb.
  by apply bool_decide_eq_true_1 in Hb.
Qed.

Lemma covers_bound (l : list string) (ns : gset string) :
  covers l (list_to_set l ∪ ns).
Proof. intros x Hx. apply elem_of_union. left. by apply elem_of_list_to_set. Qed.

Lemma covers_union_r (l : list string) (ns ns' : gset string) :
  covers l ns → covers l (ns' ∪ ns).
Proof. intros Hc x Hx. apply elem_of_union. right. by apply Hc. Qed.

Lemma covers_app (l1 l2 : list string) (ns : gset string) :
  covers l1 ns → covers l2 ns → covers (l1 ++ l2) ns.
Proof. intros H1 H2 x [?|?]%elem_of_app; auto. Qed.

(** Lines 131-152 on a non-empty dataloader: the first batch stops at the
    read of [y_pred]. *)
Lemma validation_name_error (n_val : nat) (ns : gset string) :
  covers validation_reads ns →
  validation (S n_val) ns = Raise (NameError "y_pred").
Proof.
  intros Hc. unfold validation.
  rewrite (run_covered val_head [] ns);
    [|reflexivity|by eapply covers_list; [|exact Hc]|by intros x ?%elem_of_nil].
  cbn [mbind result_bind].
  set (ns1 := list_to_set (binds val_head) ∪ ns).
  assert (covers validation_reads ns1) as Hc1 by by apply covers_union_r.
  rewrite (run_covered (loads ["enumerate"; "val_dataloader"]) [] ns1);
    [|reflexivity|by eapply covers_list; [|exact Hc1]|by intros x ?%elem_of_nil].
  cbn [mbind result_bind].
  set (ns2 := list_to_set (binds (loads ["enumerate"; "val_dataloader"])) ∪ ns1).
  assert (covers validation_reads ns2) as Hc2 by by apply covers_union_r.
  cbn [for_loop].
  change (stores ["val_iter"; "val_batch"] ++ val_body)
    with ((stores ["val_iter"; "val_batch"] ++ val_body_forward
             ++ loads ["torch"; "torch"])
          ++ Load "y_pred"
             :: loads ["val_batch_out"; "len"; "val_batch_out"]
             ++ stores ["acc_out"]
             ++ loads ["print"; "epoch"; "val_iter"; "acc_out"; "loss_out"]
             ++ augassign "total_val_loss" ["loss_out"]
             ++ augassign "total_val_acc" ["acc_out"]).
  rewrite (run_name_error _ _ "y_pred" [] ns2);
    [done|reflexivity|by eapply covers_list; [|exact Hc2]
    |by intros x ?%elem_of_nil|reflexivity|reflexivity].
Qed.

(** Lines 15-57 run through on either branch of the two tests. *)
Lemma setup_covered (pretrained resnet : bool) :
  ∃ ns, run (setup pretrained resnet) {["args"]} = Ok ns ∧ covers setup_bound ns
        ∧ "total_val_loss" ∉ ns.
Proof.
  eexists. split; [|split].
  - apply (run_covered _ ["args"]).
    + by destruct pretrained, resnet.
    + destruct pretrained, resnet; by intros x ?%elem_of_nil.
    + intros x ->%list_elem_of_singleton. set_solver.
  - intros x Hx.
    assert (x ∈ binds (setup pretrained resnet) ∨ x = "args") as [Hb| ->].
    { destruct pretrained, resnet;
        repeat (apply elem_of_cons in Hx as [->|Hx];
                [first [by right
                       | left; apply (bool_decide_unpack _); vm_compute; exact I]|]);
        by apply elem_of_nil in Hx. }
    + apply elem_of_union. left. by apply elem_of_list_to_set.
    + set_solver.
  - rewrite not_elem_of_union, elem_of_list_to_set. split; [|set_solver].
    destruct pretrained, resnet; apply (bool_decide_unpack _); vm_compute; exact I.
Qed.

(** Lines 59-128 with at least one training batch run through and keep
    every name bound before. *)
Lemma training_covered (n_train : nat) (ns : gset string) :
  covers ("epoch" :: setup_bound) ns →
  ∃ ns', training (S n_train) ns = Ok ns' ∧ ns ⊆ ns'
         ∧ ("total_val_loss" ∉ ns → "total_val_loss" ∉ ns').
Proof.
  intros Hc. unfold training.
  rewrite (run_covered epoch_head [] ns);
    [|reflexivity|by intros x ?%elem_of_nil|by intros x ?%elem_of_nil].
  cbn [mbind result_bind].
  set (ns1 := list_to_set (binds epoch_head) ∪ ns).
  assert (covers (binds epoch_head ++ "epoch" :: setup_bound) ns1) as Hc1.
  { apply covers_app; [apply covers_bound | by apply covers_union_r]. }
  rewrite (run_covered (loads ["enumerate"; "train_dataloader"]) [] ns1);
    [|reflexivity|by eapply covers_list; [|exact Hc1]|by intros x ?%elem_of_nil].
  cbn [mbind result_bind].
  set (ns2 := list_to_set (binds (loads ["enumerate"; "train_dataloader"])) ∪ ns1).
  assert (covers (binds epoch_head ++ "epoch" :: setup_bound) ns2) as Hc2
    by by apply covers_union_r.
  rewrite (for_loop_covered ["batch_iter"; "batch"] train_body (S n_train) ns2);
    [|reflexivity|by eapply covers_list; [|exact Hc2]].
  cbn [mbind result_bind].
  set (blk := stores ["batch_iter"; "batch"] ++ train_body).
  set (ns3 := list_to_set (binds blk) ∪ ns2).
  assert (covers (binds blk ++ binds epoch_head ++ "epoch" :: setup_bound) ns3)
    as Hc3.
  { apply covers_app; [apply covers_bound | by apply covers_union_r]. }
  rewrite decide_False by done.
  rewrite (run_covered train_tail [] ns3);
    [|reflexivity|by eapply covers_list; [|exact Hc3]|by intros x ?%elem_of_nil].
  eexists. split; [reflexivity|]. split.
  - subst ns1 ns2 ns3. set_solver.
  - intros Hn. subst ns1 ns2 ns3.
    rewrite !not_elem_of_union, !elem_of_list_to_set.
    repeat split; try done;
      apply (bool_decide_unpack _); vm_compute; exact I.
Qed.

(** Lines 131-156 on an empty dataloader: line 156 reads [total_val_loss],
    a local that only line 154 binds. *)
Lemma validation_empty_unbound (ns : gset string) :
  covers validation_reads ns → "total_val_loss" ∉ ns →
  validation 0 ns = Raise (UnboundLocalError "total_val_loss").
Proof.
  intros Hc Hn. unfold validation.
  rewrite (run_covered val_head [] ns);
    [|reflexivity|by eapply covers_list; [|exact Hc]|by intros x ?%elem_of_nil].
  cbn [mbind result_bind].
  set (ns1 := list_to_set (binds val_head) ∪ ns).
  assert (covers validation_reads ns1) as Hc1 by by apply covers_union_r.
  rewrite (run_covered (loads ["enumerate"; "val_dataloader"]) [] ns1);
    [|reflexivity|by eapply covers_list; [|exact Hc1]|by intros x ?%elem_of_nil].
  cbn [mbind result_bind for_loop].
  set (ns2 := list_to_set (binds (loads ["enumerate"; "val_dataloader"])) ∪ ns1).
  assert ("total_val_loss" ∉ ns2) as Hn2.
  { subst ns1 ns2. rewrite !not_elem_of_union, !elem_of_list_to_set.
    repeat split; try done; apply (bool_decide_unpack _); vm_compute; exact I. }
  change val_tail with (Load "total_val_loss" :: tail val_tail).
  cbn [run run_op].
  rewrite (bool_decide_eq_true_2 ("total_val_loss" ∈ function_locals))
    by (apply (bool_decide_unpack _); vm_compute; exact I).
  by rewrite (bool_decide_eq_false_2 ("total_val_loss" ∈ ns2)).
Qed.

(** The call up to the validation block of the first epoch. *)
Lemma before_first_validation (pretrained resnet : bool) (n_train : nat) :
  ∃ ns,
    until_validation pretrained resnet (S n_train) = Ok ns
    ∧ covers validation_reads ns ∧ "total_val_loss" ∉ ns.
Proof.
  unfold until_validation.
  destruct (setup_covered pretrained resnet) as (ns0 & -> & Hc0 & Hn0).
  cbn [mbind result_bind].
  rewrite (run_covered (loads ["range"; "args"]) [] ns0);
    [|reflexivity|by eapply covers_list; [|exact Hc0]|by intros x ?%elem_of_nil].
  cbn [mbind result_bind].
  set (ns1 := list_to_set (binds (loads ["range"; "args"])) ∪ ns0).
  rewrite (run_covered (stores ["epoch"]) [] ns1);
    [|reflexivity|by intros x ?%elem_of_nil|by intros x ?%elem_of_nil].
  cbn [mbind result_bind].
  set (ns2 := list_to_set (binds (stores ["epoch"])) ∪ ns1).
  assert (covers ("epoch" :: setup_bound) ns2) as Hc2.
  { apply (covers_app ["epoch"]); [apply covers_bound|].
    by do 2 apply covers_union_r. }
  assert ("total_val_loss" ∉ ns2) as Hn2.
  { subst ns1 ns2. rewrite !not_elem_of_union, !elem_of_list_to_set.
    repeat split; try done; apply (bool_decide_unpack _); vm_compute; exact I. }
  destruct (training_covered n_train ns2 Hc2) as (ns3 & -> & Hsub & Hn3).
  exists ns3. split; [done|]. split; [|by apply Hn3].
  eapply covers_mono; [exact Hsub|].
  eapply covers_list; [|exact Hc2]. reflexivity.
Qed.

Lemma train_models_unfold (pretrained resnet : bool) (epochs n_train n_val : nat)
    (improved : nat → bool) :
  train_models pretrained resnet (S epochs) n_train n_val improved =
    (ns ← until_validation pretrained resnet n_train;
     ns ← validation n_val ns;
     ns ← run (epoch_tail (improved 0%nat)) ns;
     epochs_loop n_train n_val improved 1 epochs ns).
Proof.
  unfold train_models, until_validation. cbn [epochs_loop].
  destruct (run (setup pretrained resnet) {["args"]}) as [ns0|]; [|done].
  cbn [mbind result_bind].
  destruct (run (loads ["range"; "args"]) ns0) as [ns1|]; [|done].
  cbn [mbind result_bind].
  destruct (run (stores ["epoch"]) ns1) as [ns2|]; [|done].
  cbn [mbind result_bind].
  by destruct (training n_train ns2).
Qed.

(** C7: the names [y_pred], [val_batch_out] and [loss_out] are bound
    neither in [train_models] nor in the module nor in the builtins, and
    [total_val_loss] is a local bound only by its own [+=]; so the
    validation loop of [train_models.py] stops with a [NameError] on
    [y_pred] in its first batch, from any state in which the earlier parts
    of the function have run, and so does every call of [train_models] that
    reaches a non-empty validation dataloader. *)
Theorem validation_loop_raises_name_error :
  (∀ ns, run [Load "y_pred"] ns = Raise (NameError "y_pred"))
  ∧ (∀ ns, run [Load "val_batch_out"] ns = Raise (NameError "val_batch_out"))
  ∧ (∀ ns, run [Load "loss_out"] ns = Raise (NameError "loss_out"))
  ∧ (∀ ns, "total_val_loss" ∉ ns →
           run (augassign "total_val_loss" ["loss_out"]) ns =
             Raise (UnboundLocalError "total_val_loss"))
  ∧ (∀ (n_val : nat) (ns : gset string),
       covers validation_reads ns →
       validation (S n_val) ns = Raise (NameError "y_pred"))
  ∧ (∀ (pretrained resnet : bool) (epochs n_train n_val : nat)
       (improved : nat → bool),
       train_models pretrained resnet (S epochs) (S n_train) (S n_val) improved =
         Raise (NameError "y_pred"))
  ∧ (∀ (pretrained resnet : bool) (epochs n_train : nat) (improved : nat → bool),
       train_models pretrained resnet (S epochs) (S n_train) 0 improved =
         Raise (UnboundLocalError "total_val_loss")).
Proof.
  split; [by intros ns|]. split; [by intros ns|]. split; [by intros ns|].
  split.
  { intros ns Hn. cbn [augassign run run_op].
    rewrite (bool_decide_eq_true_2 ("total_val_loss" ∈ function_locals))
      by (apply (bool_decide_unpack _); vm_compute; exact I).
    by rewrite (bool_decide_eq_false_2 ("total_val_loss" ∈ ns)). }
  split; [exact validation_name_error|]. split.
  - intros pretrained resnet epochs n_train n_val improved.
    rewrite train_models_unfold.
    destruct (before_first_validation pretrained resnet n_train)
      as (ns & -> & Hc & _).
    cbn [mbind result_bind]. by rewrite validation_name_error.
  - intros pretrained resnet epochs n_train improved.
    rewrite train_models_unfold.
    destruct (before_first_validation pretrained resnet n_train)
      as (ns & -> & Hc & Hn).
    cbn [mbind result_bind]. by rewrite validation_empty_unbound.
Qed.

End NameFacts.

(** ** The files of [final/test.py] *)

Module TestScriptFacts.
Import TestScript.

(** C6: [final/test.py] passes to [torch.load] the path
    [/opt/ml/submissions/submission_effb5age.csv]: a path with the
    extension [.csv], and the very path to which the script writes its own
    table of predictions at the end; it loads nothing else and writes
    nothing else. *)
Theorem torch_load_reads_the_csv_output (image_ids : list string) :
  ∃ before between path,
    main image_ids = before ++ [TorchLoad path] ++ between ++ [ToCsv path]
    ∧ path = "/opt/ml/submissions/submission_effb5age.csv"
    ∧ path = os_path_join "/opt/ml/submissions" "submission_effb5age.csv"
    ∧ extension path = Some ".csv"
    ∧ (∀ q, TorchLoad q ∈ main image_ids → q = path)
    ∧ (∀ q, ToCsv q ∈ main image_ids → q = path).
Proof.
  exists [ReadCsv (os_path_join test_dir "info.csv")],
         (ImageOpen <$> ((λ img_id, os_path_join
                                      (os_path_join test_dir "rmbg_images") img_id)
                           <$> image_ids)),
         "/opt/ml/submissions/submission_effb5age.csv".
  split; [reflexivity|]. split; [reflexivity|]. split; [reflexivity|].
  split; [reflexivity|].
  assert (∀ e, e ∈ main image_ids →
            e = ReadCsv (os_path_join test_dir "info.csv")
            ∨ e = TorchLoad "/opt/ml/submissions/submission_effb5age.csv"
            ∨ (∃ p, e = ImageOpen p)
            ∨ e = ToCsv "/opt/ml/submissions/submission_effb5age.csv") as Hcases.
  { intros e He. unfold main in He.
    apply elem_of_app in He as [He|He].
    - apply elem_of_cons in He as [->|He]; [by left|].
      apply list_elem_of_singleton in He as ->. right. by left.
    - apply elem_of_app in He as [He|He].
      + apply list_elem_of_fmap in He as (p & -> & _). right. right. left. by exists p.
      + apply list_elem_of_singleton in He as ->. by do 3 right. }
  split; intros q Hq; destruct (Hcases _ Hq) as [E|[E|[[p E]|E]]];
    by (discriminate E || injection E).
Qed.

End TestScriptFacts.

(** ** The properties on concrete runs *)

Module Examples.
Import Toy.

Lemma toy_eleven_classes : Age.eleven_classes (H := toy 11).
Proof.
  intros p imgs. simpl. split; [apply length_fmap|].
  apply Forall_fmap, Forall_forall. intros row _. simpl. unfold resize.
  rewrite length_take, length_app, length_replicate. lia.
Qed.

Lemma backward_is_joint_loss_witness :
  ∃ st' vs,
    Age.train_loop (H := toy 11) age_args
      age_state0 0 (age_train_loader 0) = Ok st'
    ∧ Age.ts_backward st' = vs
    ∧ length vs = 1%nat
    ∧ Age.joint_trace (H := toy 11) 0%nat (age_train_loader 0) vs.
Proof.
  destruct (TrainLoopFacts.backward_is_joint_loss (H := toy 11) age_args
              (age_train_loader 0) age_state0 0)
    as [_ (st' & vs & Hloop & Hback & Hlen & Htrace)].
  - exact toy_eleven_classes.
  - simpl. lia.
  - simpl. lia.
  - repeat constructor. discriminate.
  - exists st', vs. split; [exact Hloop|]. split; [exact Hback|].
    split; [exact Hlen | exact Htrace].
Defined.

Lemma train_loss_is_half_mean_witness :
  ∃ st' v,
    Age.train_loop (H := toy 11) age_args
      age_state0 0 (age_train_loader 0) = Ok st'
    ∧ Age.ts_backward st' = [v]
    ∧ Age.train_loss <$> Age.ts_logs st' = [Age.half_of_mean [v]].
Proof.
  destruct (LoggedLossFacts.train_loss_is_half_mean (H := toy 11) age_args
              0%nat None (age_train_loader 0))
    as (st' & Hloop & Htrace & Hlogs).
  - exact toy_eleven_classes.
  - simpl. lia.
  - simpl. lia.
  - repeat constructor. discriminate.
  - destruct (Age.ts_backward st') as [|v [|v' vs]] eqn:E.
    + destruct Htrace.
    + exists st', v. split; [exact Hloop|]. split; [exact E|].
      destruct (Hlogs [[v]] []) as [Hl _].
      * reflexivity.
      * repeat constructor.
      * simpl. lia.
      * exact Hl.
    + destruct Htrace as [_ []].
Defined.

Lemma age_run_completes :
  (λ rs, length (Age.rs_reports rs))
    <$> Age.epoch_loop (H := toy 11) age_args "model/age" age_train_loader
          age_val_set
          age_run0 0 2
  = Ok 2%nat.
Proof. vm_compute. reflexivity. Qed.

Lemma fold_run_completes :
  (λ rs, length (Fold5.rs_reports rs))
    <$> Fold5.epoch_loop (H := toy 18) fold_args "model/5fold_all"
          (fold_train_loader 0) (fold_val_set 0) 0
          fold_run0 0 1
  = Ok 1%nat.
Proof. vm_compute. reflexivity. Qed.

Lemma best_only_on_improvement_within_fold_witness :
  (∃ rs R,
     Age.epoch_loop (H := toy 11) age_args "model/age" age_train_loader
       age_val_set
       age_run0 0 2 = Ok rs
     ∧ Age.rs_reports rs = R ∧ length R = 2%nat
     ∧ Age.rs_files rs !! last_path "model/age" =
         Some (StateDict (Age.rs_params rs)))
  ∧ (∃ rs Rs,
       Fold5.train (H := toy 18) fold_args "model/5fold_all"
         fold_train_loader fold_val_set_first_best ∅ = Ok rs
       ∧ Fold5.rs_reports rs = concat Rs ∧ length Rs = 5%nat
       ∧ Fold5.rs_files rs !! last_path "model/5fold_all" =
           Some (StateDict (Fold5.rs_params rs))).
Proof.
  destruct (RunCheckpointClaims.best_only_on_improvement_within_fold (H := toy 11))
    as [Hage _].
  destruct (RunCheckpointClaims.best_only_on_improvement_within_fold (H := toy 18))
    as [_ Hfold].
  split.
  - pose proof age_run_completes as Hrun.
    destruct (Age.epoch_loop _ _ _ _ _ _ _) as [rs|] eqn:E; [|discriminate Hrun].
    destruct (Hage age_args "model/age" age_train_loader age_val_set
                age_run0 rs 2%nat eq_refl E) as (R & HR & Hlen & _ & Hlast).
    exists rs, R. split; [reflexivity|]. split; [exact HR|]. split; [exact Hlen|].
    apply Hlast. discriminate.
  - pose proof FoldClaims.first_fold_best_run as Hrun.
    destruct (Fold5.train (H := toy 18) fold_args "model/5fold_all"
                fold_train_loader fold_val_set_first_best ∅) as [rs|] eqn:E;
      [|discriminate Hrun].
    destruct (Hfold fold_args "model/5fold_all" fold_train_loader
                fold_val_set_first_best ∅ rs E) as (Rs & Hlen & HR & _ & Hlast).
    exists rs, Rs. split; [reflexivity|]. split; [exact HR|]. split; [exact Hlen|].
    apply Hlast. discriminate.
Defined.

End Examples.

(** * Further properties of the scripts *)

(** ** The combined class of [train_models.py] *)

Module CombinedClassFacts.
Import Labels LabelFacts.



End CombinedClassFacts.

(** ** More on the names of [train_models.py] *)

Module MoreNameFacts.
Import TrainModels NameFacts.

(** X2: the checkpoint of lines 162-165 cannot be written: when the epoch's
    accuracy improves, line 163 reads [model], a name bound neither in the
    function nor in the module nor in the builtins, and the epoch ends in a
    [NameError] before [max_val_acc] is updated; when the accuracy does not
    improve, the lines change nothing. *)
Theorem checkpoint_save_reads_unbound_model (ns : gset string) :
  covers ["avg_val_acc"; "max_val_acc"] ns →
  run (epoch_tail true) ns = Raise (NameError "model")
  ∧ run (epoch_tail false) ns = Ok ns.
Proof.
  intros Hc. split.
  - change (epoch_tail true)
      with ((loads ["avg_val_acc"; "max_val_acc"] ++ loads ["torch"])
            ++ Load "model"
               :: loads ["now"; "args"; "epoch"; "avg_val_acc"]
               ++ assign ["max_val_acc"] ["avg_val_acc"] ++ loads ["print"]).
    apply (run_name_error _ _ "model" []);
      [reflexivity|by eapply covers_list; [|exact Hc]
      |by intros x ?%elem_of_nil|reflexivity|reflexivity].
  - rewrite (run_covered (epoch_tail false) [] ns);
      [|reflexivity|by eapply covers_list; [|exact Hc]|by intros x ?%elem_of_nil].
    f_equal. simpl. set_solver.
Qed.

Lemma checkpoint_save_reads_unbound_model_witness :
  run (epoch_tail true) (list_to_set ["avg_val_acc"; "max_val_acc"])
    = Raise (NameError "model")
  ∧ run (epoch_tail false) (list_to_set ["avg_val_acc"; "max_val_acc"])
    = Ok (list_to_set ["avg_val_acc"; "max_val_acc"]).
Proof.
  apply (checkpoint_save_reads_unbound_model
           (list_to_set ["avg_val_acc"; "max_val_acc"])).
  intros x Hx. by apply elem_of_list_to_set.
Defined.

(** X3: every name read by lines 15-128 is bound when it is read: on either
    branch of the two tests of the set-up, and for any number of training
    batches from one on, the call runs through the set-up and the training
    block of the first epoch, and then has the models, the optimizers, the
    dataloaders and the running totals bound. *)
Theorem setup_and_training_resolve (pretrained resnet : bool) (n_train : nat) :
  ∃ ns,
    until_validation pretrained resnet (S n_train) = Ok ns
    ∧ covers (setup_bound ++
              ["epoch"; "total_acc"; "total_age_acc"; "total_mask_acc";
               "total_gender_acc"; "total_age_loss"; "total_mask_loss";
               "total_gender_loss"; "avg_acc"; "avg_age_loss"]) ns.
Proof.
  unfold until_validation.
  destruct (setup_covered pretrained resnet) as (ns0 & -> & Hc0 & _).
  cbn [mbind result_bind].
  rewrite (run_covered (loads ["range"; "args"]) [] ns0);
    [|reflexivity|by eapply covers_list; [|exact Hc0]|by intros x ?%elem_of_nil].
  cbn [mbind result_bind].
  set (ns1 := list_to_set (binds (loads ["range"; "args"])) ∪ ns0).
  rewrite (run_covered (stores ["epoch"]) [] ns1);
    [|reflexivity|by intros x ?%elem_of_nil|by intros x ?%elem_of_nil].
  cbn [mbind result_bind].
  set (ns2 := list_to_set (binds (stores ["epoch"])) ∪ ns1).
  assert (covers ("epoch" :: setup_bound) ns2) as Hc2.
  { apply (covers_app ["epoch"]); [apply covers_bound|].
    by do 2 apply covers_union_r. }
  unfold training.
  rewrite (run_covered epoch_head [] ns2);
    [|reflexivity|by intros x ?%elem_of_nil|by intros x ?%elem_of_nil].
  cbn [mbind result_bind].
  set (ns3 := list_to_set (binds epoch_head) ∪ ns2).
  assert (covers (binds epoch_head ++ "epoch" :: setup_bound) ns3) as Hc3.
  { apply covers_app; [apply covers_bound | by apply covers_union_r]. }
  rewrite (run_covered (loads ["enumerate"; "train_dataloader"]) [] ns3);
    [|reflexivity|by eapply covers_list; [|exact Hc3]|by intros x ?%elem_of_nil].
  cbn [mbind result_bind].
  set (ns4 := list_to_set (binds (loads ["enumerate"; "train_dataloader"])) ∪ ns3).
  assert (covers (binds epoch_head ++ "epoch" :: setup_bound) ns4) as Hc4
    by by apply covers_union_r.
  rewrite (for_loop_covered ["batch_iter"; "batch"] train_body (S n_train) ns4);
    [|reflexivity|by eapply covers_list; [|exact Hc4]].
  cbn [mbind result_bind].
  set (blk := stores ["batch_iter"; "batch"] ++ train_body).
  set (ns5 := list_to_set (binds blk) ∪ ns4).
  assert (covers (binds blk ++ binds epoch_head ++ "epoch" :: setup_bound) ns5)
    as Hc5.
  { apply covers_app; [apply covers_bound | by apply covers_union_r]. }
  rewrite decide_False by done.
  rewrite (run_covered train_tail [] ns5);
    [|reflexivity|by eapply covers_list; [|exact Hc5]|by intros x ?%elem_of_nil].
  eexists. split; [reflexivity|].
  eapply covers_list;
    [|apply (covers_app (binds train_tail)
                (binds blk ++ binds epoch_head ++ "epoch" :: setup_bound));
      [apply covers_bound | by apply covers_union_r]].
  reflexivity.
Qed.

End MoreNameFacts.

(** ** Runs that cannot complete an epoch *)

Module RunFailureFacts.
Import TensorFacts TrainLoopFacts EpochLoopFacts.

Lemma DataLoader_drop_last_short {A} (b : nat) (ds : list A) :
  (length ds < b)%nat → DataLoader_drop_last b ds = [].
Proof.
  intros Hlt. destruct b as [|b]; [done|]. unfold DataLoader_drop_last.
  destruct ds as [|d ds]; [done|]. simpl in *.
  rewrite decide_False; [done|]. lia.
Qed.

Lemma DataLoader_drop_last_first {A} (b : nat) (ds : list A) :
  b ≠ 0%nat → (b ≤ length ds)%nat →
  ∃ rest, DataLoader_drop_last b ds = take b ds :: rest.
Proof.
  intros Hb Hle. destruct b as [|b]; [done|]. unfold DataLoader_drop_last.
  destruct ds as [|d ds]; [simpl in Hle; lia|].
  cbn [length full_batches]. rewrite decide_True by done. eauto.
Qed.

Section WithFramework.
Context `{Framework}.

(** X4: a validation set with fewer images than one validation batch
    leaves the [drop_last] loader without a batch; the validation of either
    training script then divides the int [0] by [len(val_loader) = 0] and
    raises [ZeroDivisionError], so no epoch of the run completes. *)
Theorem validation_needs_a_full_batch :
  (∀ (a : Age.args) (p : params) (inputs : option (list image))
     (val_set : list Age.sample),
     (length val_set < Age.valid_batch_size a)%nat →
     Age.validate a p inputs val_set = Raise ZeroDivisionError
     ∧ ∀ save_dir train_loader rs epoch rs1,
         Age.epoch_step a save_dir train_loader val_set rs epoch ≠ Ok rs1)
  ∧ (∀ (a : Fold5.args) (p : params) (inputs : option (list image))
       (val_set : list Fold5.sample),
       (length val_set < Fold5.valid_batch_size a)%nat →
       Fold5.validate a p inputs val_set = Raise ZeroDivisionError
       ∧ ∀ save_dir train_loader fold rs epoch rs1,
           Fold5.epoch_step a save_dir train_loader val_set fold rs epoch
             ≠ Ok rs1).
Proof.
  split; intros a p inputs val_set Hlt.
  - assert (∀ p inputs, Age.validate a p inputs val_set = Raise ZeroDivisionError)
      as Hv.
    { intros p' inputs'. unfold Age.validate. cbv zeta.
      by rewrite DataLoader_drop_last_short. }
    split; [apply Hv|]. intros save_dir train_loader rs epoch rs1 Hstep.
    apply age_epoch_step_inv in Hstep as (ts & v & _ & _ & _ & _ & Hval & _).
    by rewrite Hv in Hval.
  - assert (∀ p inputs, Fold5.validate a p inputs val_set = Raise ZeroDivisionError)
      as Hv.
    { intros p' inputs'. unfold Fold5.validate. cbv zeta.
      by rewrite DataLoader_drop_last_short. }
    split; [apply Hv|]. intros save_dir train_loader fold rs epoch rs1 Hstep.
    apply fold5_epoch_step_inv in Hstep as (ts & v & _ & _ & _ & _ & Hval & _).
    by rewrite Hv in Hval.
Qed.

(** X5: the first validation batch is plotted by [grid_image] with [n=16]
    in [train_age.py] and [n=10] in [train_5fold.py], which asserts
    [n <= batch_size]: with a smaller [--valid_batch_size] and a
    validation set of at least one batch, the validation raises
    [AssertionError] in its first batch. *)
Theorem validation_grid_needs_large_batch :
  (∀ (a : Age.args) (p : params) (inputs : option (list image))
     (val_set : list Age.sample),
     Age.valid_batch_size a ≠ 0%nat →
     (Age.valid_batch_size a < 16)%nat →
     (Age.valid_batch_size a ≤ length val_set)%nat →
     Age.validate a p inputs val_set = Raise AssertionError)
  ∧ (∀ (a : Fold5.args) (p : params) (inputs : option (list image))
       (val_set : list Fold5.sample),
       Fold5.valid_batch_size a ≠ 0%nat →
       (Fold5.valid_batch_size a < 10)%nat →
       (Fold5.valid_batch_size a ≤ length val_set)%nat →
       Fold5.validate a p inputs val_set = Raise AssertionError).
Proof.
  split; intros a p inputs val_set Hb Hlt Hle.
  - destruct (DataLoader_drop_last_first _ val_set Hb Hle) as [rest E].
    unfold Age.validate. cbv zeta. rewrite E. cbn [Age.val_loop].
    unfold Age.val_step, Age.grid_image.
    rewrite decide_False; [reflexivity|]. rewrite length_take. lia.
  - destruct (DataLoader_drop_last_first _ val_set Hb Hle) as [rest E].
    unfold Fold5.validate. cbv zeta. rewrite E. cbn [Fold5.val_loop].
    unfold Fold5.val_step, Fold5.grid_image.
    rewrite decide_False; [reflexivity|]. rewrite length_take. lia.
Qed.

End WithFramework.

Import Toy.

Lemma validation_needs_a_full_batch_witness :
  Age.validate (H := toy 11) age_args 0%nat None (replicate 15 (age_sample 3 3))
    = Raise ZeroDivisionError
  ∧ Fold5.validate (H := toy 18) fold_args 0%nat None
      (replicate 9 (fold_sample 0 0)) = Raise ZeroDivisionError.
Proof.
  destruct (validation_needs_a_full_batch (H := toy 11)) as [Hage _].
  destruct (validation_needs_a_full_batch (H := toy 18)) as [_ Hfold].
  split.
  - apply (Hage age_args 0%nat None (replicate 15 (age_sample 3 3))).
    simpl. lia.
  - apply (Hfold fold_args 0%nat None (replicate 9 (fold_sample 0 0))).
    simpl. lia.
Defined.

Lemma validation_grid_needs_large_batch_witness :
  Age.validate (H := toy 11)
    {| Age.epochs := 1; Age.batch_size := 11; Age.valid_batch_size := 15;
       Age.log_interval := 1 |} 0%nat None (replicate 15 (age_sample 3 3))
    = Raise AssertionError
  ∧ Fold5.validate (H := toy 18)
      {| Fold5.epochs := 1; Fold5.batch_size := 11;
         Fold5.valid_batch_size := 9; Fold5.log_interval := 1;
         Fold5.arg_task := Fold5.TaskAll |} 0%nat None
      (replicate 9 (fold_sample 0 0)) = Raise AssertionError.
Proof.
  destruct (validation_grid_needs_large_batch (H := toy 11)) as [Hage _].
  destruct (validation_grid_needs_large_batch (H := toy 18)) as [_ Hfold].
  split.
  - apply Hage; simpl; lia.
  - apply Hfold; simpl; lia.
Defined.

End RunFailureFacts.

(** ** The figure drawn after the training batches *)

Module TrainGridFacts.
Import TensorFacts TrainLoopFacts.

Section WithFramework.
Context `{Framework}.

(** After the batch loop of [train_age.py] the name [inputs] holds the
    images of the last batch. *)
Lemma age_train_loop_inputs (a : Age.args) (batches : list (list Age.sample))
    (st : Age.train_state) (idx : nat) :
  Age.eleven_classes → Age.log_interval a ≠ 0 → Age.batch_size a ≠ 0%nat →
  Forall (λ b, b ≠ []) batches →
  ∃ st', Age.train_loop a st idx batches = Ok st'
         ∧ Age.ts_inputs st' =
             from_option (λ b, Some (Age.s_image <$> b)) (Age.ts_inputs st)
               (last batches).
Proof.
  intros Hcls HL Hbs Hall. revert st idx.
  induction Hall as [|b bs Hb _ IH]; intros st idx.
  - by exists st.
  - destruct (train_step_spec a st idx b Hcls HL Hbs Hb)
      as (st1 & v & Hstep & _ & _ & _ & Hin & _).
    destruct (IH st1 (S idx)) as (st' & Hloop & Hin').
    exists st'. simpl. rewrite Hstep. cbn [mbind result_bind].
    split; [done|]. rewrite Hin', Hin.
    destruct bs as [|b' bs]; [done|].
    change (last (b :: b' :: bs)) with (last (b' :: bs)).
    destruct (last (b' :: bs)) eqn:El; [done|]. by apply last_None in El.
Qed.

(** One iteration of the batch loop of [train_5fold.py]. *)
Lemma fold5_train_step_spec (a : Fold5.args) (st : Fold5.train_state)
    (idx : nat) (b : list Fold5.sample) :
  Fold5.log_interval a ≠ 0 → Fold5.batch_size a ≠ 0%nat →
  ∃ st',
    Fold5.train_step a st idx b = Ok st'
    ∧ Fold5.ts_inputs st' = Some (Fold5.s_image <$> b)
    ∧ Fold5.ts_backward st' =
        Fold5.ts_backward st ++
          [criterion (forward (Fold5.ts_params st) (Fold5.s_image <$> b))
             (Fold5.get_labels (Fold5.arg_task a) (Fold5.s_labels <$> b))].
Proof.
  intros HL Hbs. unfold Fold5.train_step.
  rewrite py_mod_Ok by done. cbn [mbind result_bind].
  destruct (decide ((Z.of_nat idx + 1) mod Fold5.log_interval a = 0)) as [E|E].
  - repeat (rewrite py_truediv_Ok by (done || lia); cbn [mbind result_bind]).
    by eexists.
  - by eexists.
Qed.

Lemma fold5_train_loop_inputs (a : Fold5.args)
    (batches : list (list Fold5.sample)) (st : Fold5.train_state) (idx : nat) :
  Fold5.log_interval a ≠ 0 → Fold5.batch_size a ≠ 0%nat →
  ∃ st', Fold5.train_loop a st idx batches = Ok st'
         ∧ Fold5.ts_inputs st' =
             from_option (λ b, Some (Fold5.s_image <$> b)) (Fold5.ts_inputs st)
               (last batches).
Proof.
  intros HL Hbs. revert st idx.
  induction batches as [|b bs IH]; intros st idx.
  - by exists st.
  - destruct (fold5_train_step_spec a st idx b HL Hbs)
      as (st1 & Hstep & Hin & _).
    destruct (IH st1 (S idx)) as (st' & Hloop & Hin').
    exists st'. simpl. rewrite Hstep. cbn [mbind result_bind].
    split; [done|]. rewrite Hin', Hin.
    destruct bs as [|b' bs]; [done|].
    change (last (b :: b' :: bs)) with (last (b' :: bs)).
    destruct (last (b' :: bs)) eqn:El; [done|]. by apply last_None in El.
Qed.

(** X6: after the batch loop both training scripts plot the last training
    batch with [grid_image(..., n=11)], which asserts [n <= batch_size]:
    with [--batch_size] below 11 (and the full batches of the [drop_last]
    train loader) the batch loop runs through and the epoch ends in
    [AssertionError] before any validation or checkpoint. *)
Theorem train_grid_needs_batch_of_11 :
  (∀ (a : Age.args) (p : params) (inputs : option (list image))
     (batches : list (list Age.sample)),
     Age.eleven_classes → Age.log_interval a ≠ 0 →
     Age.batch_size a ≠ 0%nat → (Age.batch_size a < 11)%nat →
     batches ≠ [] →
     Forall (λ b, length b = Age.batch_size a) batches →
     Age.train_epoch a p inputs batches = Raise AssertionError)
  ∧ (∀ (a : Fold5.args) (p : params) (inputs : option (list image))
       (batches : list (list Fold5.sample)),
       Fold5.log_interval a ≠ 0 →
       Fold5.batch_size a ≠ 0%nat → (Fold5.batch_size a < 11)%nat →
       batches ≠ [] →
       Forall (λ b, length b = Fold5.batch_size a) batches →
       Fold5.train_epoch a p inputs batches = Raise AssertionError).
Proof.
  split.
  - intros a p inputs batches Hcls HL Hbs Hlt Hne Hfull.
    assert (Forall (λ b : list Age.sample, b ≠ []) batches) as Hall.
    { eapply Forall_impl; [exact Hfull|]. intros b Hb ->. simpl in Hb. lia. }
    unfold Age.train_epoch.
    destruct (age_train_loop_inputs a batches
                {| Age.ts_params := p; Age.ts_inputs := inputs;
                   Age.ts_accum := Age.accum0;
                   Age.ts_backward := []; Age.ts_logs := [] |} 0
                Hcls HL Hbs Hall) as (st' & -> & Hin).
    cbn [mbind result_bind]. rewrite Hin.
    destruct (last batches) as [b|] eqn:El;
      [|by apply last_None in El].
    simpl. unfold Age.grid_image. rewrite length_fmap.
    apply last_Some_elem_of in El.
    rewrite Forall_forall in Hfull. rewrite (Hfull b El).
    rewrite decide_False; [reflexivity|]. lia.
  - intros a p inputs batches HL Hbs Hlt Hne Hfull.
    unfold Fold5.train_epoch.
    destruct (fold5_train_loop_inputs a batches
                {| Fold5.ts_params := p; Fold5.ts_inputs := inputs;
                   Fold5.ts_accum := Fold5.accum0;
                   Fold5.ts_backward := []; Fold5.ts_logs := [] |} 0
                HL Hbs) as (st' & -> & Hin).
    cbn [mbind result_bind]. rewrite Hin.
    destruct (last batches) as [b|] eqn:El;
      [|by apply last_None in El].
    simpl. unfold Fold5.grid_image. rewrite length_fmap.
    apply last_Some_elem_of in El.
    rewrite Forall_forall in Hfull. rewrite (Hfull b El).
    rewrite decide_False; [reflexivity|]. lia.
Qed.

End WithFramework.

Import Toy.

Lemma train_grid_needs_batch_of_11_witness :
  Age.train_epoch (H := toy 11)
    {| Age.epochs := 1; Age.batch_size := 10; Age.valid_batch_size := 16;
       Age.log_interval := 1 |} 0%nat None [replicate 10 (age_sample 2 3)]
    = Raise AssertionError
  ∧ Fold5.train_epoch (H := toy 18)
      {| Fold5.epochs := 1; Fold5.batch_size := 10;
         Fold5.valid_batch_size := 10; Fold5.log_interval := 1;
         Fold5.arg_task := Fold5.TaskAll |} 0%nat None
      [replicate 10 (fold_sample 0 0)] = Raise AssertionError.
Proof.
  destruct (train_grid_needs_batch_of_11 (H := toy 11)) as [Hage _].
  destruct (train_grid_needs_batch_of_11 (H := toy 18)) as [_ Hfold].
  split.
  - apply Hage; [exact Examples.toy_eleven_classes|simpl; lia|simpl; lia
                |simpl; lia|discriminate|repeat constructor].
  - apply Hfold; [simpl; lia|simpl; lia|simpl; lia|discriminate
                 |repeat constructor].
Defined.

End TrainGridFacts.

(** ** The files a run writes *)

Module WrittenFilesFacts.
Import TensorFacts CheckpointFacts EpochLoopFacts.

Section WithFramework.
Context `{Framework}.

Lemma age_epoch_loop_frame (a : Age.args) (save_dir : string)
    (train_loader : nat → list (list Age.sample)) (val_set : list Age.sample)
    (n : nat) (rs rs' : Age.run_state) (epoch : nat) (path : string) :
  Age.epoch_loop a save_dir train_loader val_set rs epoch n = Ok rs' →
  path ≠ best_path save_dir → path ≠ last_path save_dir →
  Age.rs_files rs' !! path = Age.rs_files rs !! path
  ∧ ∀ r, r ∈ Age.rs_reports rs' →
      r ∈ Age.rs_reports rs ∨ Age.er_files r !! path = Age.rs_files rs !! path.
Proof.
  intros Hloop Hb Hl. revert rs epoch Hloop.
  induction n as [|n IH]; intros rs epoch Hloop.
  - injection Hloop as <-. split; [done|]. intros r Hr. by left.
  - simpl in Hloop.
    apply bind_Ok_inv in Hloop as (rs1 & Hstep & Hloop).
    apply age_epoch_step_inv in Hstep as (ts & v & tr & fs & wrote & _ & _ & Hsave & ->).
    destruct (save_checkpoints_spec save_dir (Age.ts_params ts) (Age.score v)
                (Age.val_acc v) (Age.val_loss v) (Age.rs_trackers rs)
                (Age.rs_files rs))
      as (tr' & fs' & wrote' & Hsave' & _ & _ & _ & _ & Hframe).
    rewrite Hsave in Hsave'. injection Hsave' as <- <- <-.
    destruct (IH _ _ Hloop) as [Hfiles Hreports].
    cbn [Age.rs_files Age.rs_reports] in Hfiles, Hreports.
    split; [by rewrite Hfiles, Hframe|].
    intros r Hr. destruct (Hreports r Hr) as [Hin|Heq].
    + apply elem_of_app in Hin as [Hin|Hin]; [by left|].
      apply list_elem_of_singleton in Hin as ->. right. simpl. by apply Hframe.
    + right. by rewrite Heq, Hframe.
Qed.

(** X7: the checkpoints of [train_age.py] touch two files only: a path
    other than [best.pth] and [last.pth] of [save_dir] holds after every
    epoch of a run, and after the run, what it held before. *)
Theorem age_run_writes_best_and_last_only (a : Age.args) (save_dir : string)
    (train_loader : nat → list (list Age.sample)) (val_set : list Age.sample)
    (fs : gmap string pickled) (rs : Age.run_state) (path : string) :
  Age.train a save_dir train_loader val_set fs = Ok rs →
  path ≠ best_path save_dir → path ≠ last_path save_dir →
  Age.rs_files rs !! path = fs !! path
  ∧ ∀ r, r ∈ Age.rs_reports rs → Age.er_files r !! path = fs !! path.
Proof.
  unfold Age.train. intros Hrun Hb Hl.
  destruct (age_epoch_loop_frame _ _ _ _ _ _ _ _ path Hrun Hb Hl)
    as [Hfiles Hreports].
  split; [done|]. intros r Hr.
  destruct (Hreports r Hr) as [Hin|Heq]; [|done].
  by apply elem_of_nil in Hin.
Qed.

Lemma fold5_epoch_loop_frame (a : Fold5.args) (save_dir : string)
    (train_loader : nat → list (list Fold5.sample))
    (val_set : list Fold5.sample) (fold : nat)
    (n : nat) (rs rs' : Fold5.run_state) (epoch : nat) :
  Fold5.epoch_loop a save_dir train_loader val_set fold rs epoch n = Ok rs' →
  ∃ R,
    Fold5.rs_reports rs' = Fold5.rs_reports rs ++ R
    ∧ (∀ r, r ∈ R →
         Fold5.er_files r !! Fold5.report_path save_dir r =
           Some (WholeModel (Fold5.er_params r))
         ∧ Fold5.er_files r !! last_path save_dir =
             Some (StateDict (Fold5.er_params r)))
    ∧ ∀ path, path ≠ best_path save_dir → path ≠ last_path save_dir →
        (∀ r, r ∈ R → path ≠ Fold5.report_path save_dir r) →
        Fold5.rs_files rs' !! path = Fold5.rs_files rs !! path.
Proof.
  revert rs epoch. induction n as [|n IH]; intros rs epoch Hloop.
  - injection Hloop as <-. exists []. rewrite app_nil_r.
    split; [done|]. split; [|done]. intros r Hr. by apply elem_of_nil in Hr.
  - simpl in Hloop.
    apply bind_Ok_inv in Hloop as (rs1 & Hstep & Hloop).
    apply fold5_epoch_step_inv in Hstep
      as (ts & v & tr & fs & wrote & _ & _ & Hsave & ->).
    set (ep := Fold5.epoch_path save_dir fold epoch (Fold5.val_f1 v)
                 (Fold5.val_loss v)) in *.
    destruct (save_checkpoints_spec save_dir (Fold5.ts_params ts)
                (Fold5.val_f1 v) (Fold5.val_acc v) (Fold5.val_loss v)
                (Fold5.rs_trackers rs)
                (<[ep := WholeModel (Fold5.ts_params ts)]> (Fold5.rs_files rs)))
      as (tr' & fs' & wrote' & Hsave' & _ & _ & Hlast & _ & Hframe).
    rewrite Hsave in Hsave'. injection Hsave' as <- <- <-.
    destruct (IH _ _ Hloop) as (R & HR & Hown & Hother).
    cbn [Fold5.rs_files Fold5.rs_reports] in HR, Hother.
    eexists (_ :: R). split; [by rewrite HR, <- app_assoc|]. split.
    + intros r [->|Hr]%elem_of_cons; [|by apply Hown].
      unfold Fold5.report_path. simpl. fold ep. split; [|done].
      rewrite Hframe;
        [by rewrite lookup_insert_eq
        |apply epoch_path_not_best|apply epoch_path_not_last].
    + intros path Hb Hl Hne. rewrite Hother; [|done|done|].
      * rewrite Hframe by done. apply lookup_insert_ne.
        intros E. apply (Hne _ (list_elem_of_here _ _)).
        unfold Fold5.report_path. simpl. by fold ep.
      * intros r Hr. apply Hne. by apply list_elem_of_further.
Qed.

Lemma fold5_fold_loop_frame (a : Fold5.args) (save_dir : string)
    (train_loader : nat → nat → list (list Fold5.sample))
    (val_set : nat → list Fold5.sample)
    (n : nat) (rs rs' : Fold5.run_state) (fold : nat) :
  Fold5.fold_loop a save_dir train_loader val_set rs fold n = Ok rs' →
  ∃ R,
    Fold5.rs_reports rs' = Fold5.rs_reports rs ++ R
    ∧ (∀ r, r ∈ R →
         Fold5.er_files r !! Fold5.report_path save_dir r =
           Some (WholeModel (Fold5.er_params r))
         ∧ Fold5.er_files r !! last_path save_dir =
             Some (StateDict (Fold5.er_params r)))
    ∧ ∀ path, path ≠ best_path save_dir → path ≠ last_path save_dir →
        (∀ r, r ∈ R → path ≠ Fold5.report_path save_dir r) →
        Fold5.rs_files rs' !! path = Fold5.rs_files rs !! path.
Proof.
  revert rs fold. induction n as [|n IH]; intros rs fold Hloop.
  - injection Hloop as <-. exists []. rewrite app_nil_r.
    split; [done|]. split; [|done]. intros r Hr. by apply elem_of_nil in Hr.
  - simpl in Hloop.
    apply bind_Ok_inv in Hloop as (rs1 & Hstep & Hloop).
    unfold Fold5.fold_step in Hstep.
    destruct (fold5_epoch_loop_frame _ _ _ _ _ _ _ _ _ Hstep)
      as (R1 & HR1 & Hown1 & Hother1).
    cbn [Fold5.rs_files Fold5.rs_reports] in HR1, Hother1.
    destruct (IH _ _ Hloop) as (R & HR & Hown & Hother).
    exists (R1 ++ R). split; [by rewrite HR, HR1, <- app_assoc|]. split.
    + intros r [Hr|Hr]%elem_of_app; [by apply Hown1 | by apply Hown].
    + intros path Hb Hl Hne.
      rewrite Hother, Hother1; try done.
      * intros r Hr. apply Hne, elem_of_app. by left.
      * intros r Hr. apply Hne, elem_of_app. by right.
Qed.

(** X8: besides [best.pth] and [last.pth], [train_5fold.py] writes one
    file per epoch, named after fold, epoch, macro-F1 and loss; right after
    its epoch that file holds the whole model (not a state dict) with the
    weights of the epoch, and any other path holds after the run what it
    held before. *)
Theorem fold5_run_written_files (a : Fold5.args) (save_dir : string)
    (train_loader : nat → nat → list (list Fold5.sample))
    (val_set : nat → list Fold5.sample) (fs : gmap string pickled)
    (rs : Fold5.run_state) :
  Fold5.train a save_dir train_loader val_set fs = Ok rs →
  (∀ r, r ∈ Fold5.rs_reports rs →
     Fold5.er_files r
       !! Fold5.epoch_path save_dir (Fold5.er_fold r) (Fold5.er_epoch r)
            (Fold5.val_f1 (Fold5.er_val r)) (Fold5.val_loss (Fold5.er_val r))
       = Some (WholeModel (Fold5.er_params r))
     ∧ Fold5.er_files r !! last_path save_dir =
         Some (StateDict (Fold5.er_params r)))
  ∧ ∀ path, path ≠ best_path save_dir → path ≠ last_path save_dir →
      (∀ r, r ∈ Fold5.rs_reports rs →
         path ≠ Fold5.epoch_path save_dir (Fold5.er_fold r) (Fold5.er_epoch r)
                  (Fold5.val_f1 (Fold5.er_val r))
                  (Fold5.val_loss (Fold5.er_val r))) →
      Fold5.rs_files rs !! path = fs !! path.
Proof.
  unfold Fold5.train. intros Hrun.
  destruct (fold5_fold_loop_frame _ _ _ _ _ _ _ _ Hrun)
    as (R & HR & Hown & Hother).
  cbn [Fold5.rs_files Fold5.rs_reports] in HR, Hother.
  rewrite app_nil_l in HR. rewrite <- HR in Hown, Hother. by split.
Qed.

End WithFramework.

Import Toy.

Lemma age_run_writes_best_and_last_only_witness :
  ∃ rs,
    Age.train (H := toy 11) age_args "model/age" age_train_loader age_val_set ∅
      = Ok rs
    ∧ Age.rs_files rs !! "model/age/epoch0.pth" = None.
Proof.
  assert ((λ rs, length (Age.rs_reports rs))
            <$> Age.train (H := toy 11) age_args "model/age" age_train_loader
                  age_val_set ∅ = Ok 2%nat) as Hrun
    by exact Examples.age_run_completes.
  destruct (Age.train (H := toy 11) age_args "model/age" age_train_loader
              age_val_set ∅) as [rs|] eqn:E; [|discriminate Hrun].
  exists rs. split; [reflexivity|].
  destruct (age_run_writes_best_and_last_only (H := toy 11) age_args
              "model/age" age_train_loader age_val_set ∅ rs
              "model/age/epoch0.pth" E) as [Hfiles _].
  - intros E'. vm_compute in E'. discriminate E'.
  - intros E'. vm_compute in E'. discriminate E'.
  - rewrite Hfiles. apply lookup_empty.
Defined.

Lemma fold5_run_written_files_witness :
  ∃ rs,
    Fold5.train (H := toy 18) fold_args "model/5fold_all"
      fold_train_loader fold_val_set_first_best ∅ = Ok rs
    ∧ ∀ r, r ∈ Fold5.rs_reports rs →
        Fold5.er_files r !! last_path "model/5fold_all" =
          Some (StateDict (Fold5.er_params r)).
Proof.
  pose proof FoldClaims.first_fold_best_run as Hrun.
  destruct (Fold5.train (H := toy 18) fold_args "model/5fold_all"
              fold_train_loader fold_val_set_first_best ∅) as [rs|] eqn:E;
    [|discriminate Hrun].
  exists rs. split; [reflexivity|].
  destruct (fold5_run_written_files (H := toy 18) fold_args "model/5fold_all"
              fold_train_loader fold_val_set_first_best ∅ rs E) as [Hown _].
  intros r Hr. exact (proj2 (Hown r Hr)).
Defined.

End WrittenFilesFacts.

(** ** What [best.pth] holds after a run of [train_age.py] *)

Module BestEpochFacts.
Import TensorFacts CheckpointFacts EpochLoopFacts.

Section WithFramework.
Context `{Framework}.

(** X9: after a completed run of [train_age.py], [best.pth] holds the
    weights of the first epoch that reached the largest validation
    macro-F1 of the run, provided that value is above 0 (a later epoch
    with the same macro-F1 does not replace it); when no epoch scored above
    0, [best.pth] is as it was before the run. *)
Theorem age_best_is_first_maximal_epoch (a : Age.args) (save_dir : string)
    (train_loader : nat → list (list Age.sample)) (val_set : list Age.sample)
    (fs : gmap string pickled) (rs : Age.run_state) :
  Age.train a save_dir train_loader val_set fs = Ok rs →
  ((∃ r, r ∈ Age.rs_reports rs ∧ (0 < Age.score (Age.er_val r))%Qc) →
   ∃ k r,
     Age.rs_reports rs !! k = Some r
     ∧ Age.rs_files rs !! best_path save_dir =
         Some (StateDict (Age.er_params r))
     ∧ (∀ r', r' ∈ Age.rs_reports rs →
          (Age.score (Age.er_val r') ≤ Age.score (Age.er_val r))%Qc)
     ∧ (∀ j r', (j < k)%nat → Age.rs_reports rs !! j = Some r' →
          (Age.score (Age.er_val r') < Age.score (Age.er_val r))%Qc))
  ∧ ((∀ r, r ∈ Age.rs_reports rs → (Age.score (Age.er_val r) ≤ 0)%Qc) →
     Age.rs_files rs !! best_path save_dir = fs !! best_path save_dir).
Proof.
  unfold Age.train. intros Hrun.
  destruct (age_epoch_loop_chain _ _ _ _ _ _ _ _ Hrun)
    as (R & HR & _ & _ & Hchain & Hfiles & _).
  cbn [Age.rs_reports Age.rs_files Age.rs_trackers best_val_f1 init_trackers]
    in HR, Hchain, Hfiles.
  rewrite app_nil_l in HR. rewrite HR. clear HR Hrun.
  pose proof (chain_final_best _ _ _ _ Hchain) as Hfinal.
  pose proof (chain_last_writer_max _ _ _ _ Hchain) as Hmax.
  rewrite <- Hfiles in Hfinal.
  destruct (last_writer (Age.to_event <$> R)) as [e|].
  - destruct Hmax as (Hin & Hw & Hpos & Hmax).
    apply list_elem_of_lookup in Hin as [k Hk].
    pose proof (proj1 (chain_wrote_iff _ _ _ _ _ _ Hchain Hk) Hw) as [_ Hearlier].
    rewrite list_lookup_fmap in Hk.
    destruct (R !! k) as [r|] eqn:Hr; [|done]. injection Hk as <-.
    split.
    + intros _. exists k, r. split; [done|]. split; [done|]. split.
      * intros r' Hr'. apply (Hmax (Age.to_event r')).
        apply list_elem_of_fmap. by exists r'.
      * intros j r' Hj Hr'. apply (Hearlier j (Age.to_event r')); [done|].
        by rewrite list_lookup_fmap, Hr'.
    + intros Hzero. exfalso. apply (Qclt_not_le _ _ Hpos).
      apply (Hzero r). by eapply list_elem_of_lookup_2.
  - split; [|done].
    intros (r & Hr & Hpos). exfalso. apply (Qclt_not_le _ _ Hpos).
    apply (Hmax (Age.to_event r)). apply list_elem_of_fmap. by exists r.
Qed.

End WithFramework.

Import Toy.

(** The toy run of two epochs: both reach macro-F1 1. *)
Lemma age_run_scores :
  (λ rs, (λ r, this (Age.score (Age.er_val r))) <$> Age.rs_reports rs)
    <$> Age.train (H := toy 11) age_args "model/age" age_train_loader
          age_val_set ∅
  = Ok [1%Q; 1%Q].
Proof. vm_compute. reflexivity. Qed.

Lemma age_best_is_first_maximal_epoch_witness :
  ∃ rs k r,
    Age.train (H := toy 11) age_args "model/age" age_train_loader age_val_set ∅
      = Ok rs
    ∧ Age.rs_reports rs !! k = Some r
    ∧ Age.rs_files rs !! best_path "model/age" =
        Some (StateDict (Age.er_params r))
    ∧ ∀ r', r' ∈ Age.rs_reports rs →
        (Age.score (Age.er_val r') ≤ Age.score (Age.er_val r))%Qc.
Proof.
  pose proof age_run_scores as Hrun.
  destruct (Age.train (H := toy 11) age_args "model/age" age_train_loader
              age_val_set ∅) as [rs|] eqn:E; [|discriminate Hrun].
  destruct (age_best_is_first_maximal_epoch (H := toy 11) age_args
              "model/age" age_train_loader age_val_set ∅ rs E) as [Hpos _].
  clear E. injection Hrun as Hreports.
  destruct (RunCheckpointClaims.fmap_lookup_inv _ _ _ 0 _ Hreports eq_refl)
    as (r0 & Hr0 & Hs0).
  destruct Hpos as (k & r & Hk & Hbest & Hmax & _).
  { exists r0. split; [by eapply list_elem_of_lookup_2|].
    unfold Qclt. by rewrite Hs0. }
  exists rs, k, r. split; [reflexivity|]. split; [exact Hk|].
  split; [exact Hbest | exact Hmax].
Defined.

End BestEpochFacts.

(** ** The training loss logged by [train_5fold.py] *)

Module FoldLoggedLossFacts.
Import TensorFacts.

Lemma fold5_logged_losses_window (interval : Z) (w rest : list fval)
    (acc : fval) (idx : nat) :
  w ≠ [] →
  (Z.of_nat idx + Z.of_nat (length w)) mod interval = 0 →
  (∀ k, 0 < k < Z.of_nat (length w) → (Z.of_nat idx + k) mod interval ≠ 0) →
  Fold5.logged_losses interval acc idx (w ++ rest) =
    fdiv (foldl fadd acc w) (of_Z interval)
      :: Fold5.logged_losses interval (Fin 0) (idx + length w) rest.
Proof.
  revert acc idx. induction w as [|v w IH]; intros acc idx Hne Hend Hmid; [done|].
  destruct w as [|v' w'].
  - simpl in *. rewrite decide_True by (rewrite <- Hend; f_equal; lia).
    do 2 f_equal. lia.
  - change ((v :: v' :: w') ++ rest) with (v :: ((v' :: w') ++ rest)).
    cbn [Fold5.logged_losses].
    rewrite decide_False by (apply Hmid; simpl; lia).
    rewrite IH.
    + simpl. do 2 f_equal. lia.
    + done.
    + rewrite <- Hend. f_equal. simpl length. lia.
    + intros k Hk.
      replace (Z.of_nat (S idx) + k) with (Z.of_nat idx + (k + 1)) by lia.
      apply Hmid. simpl length in *. lia.
Qed.

Lemma fold5_logged_losses_short (interval : Z) (tl : list fval) (acc : fval)
    (idx : nat) :
  (∀ k, 0 < k ≤ Z.of_nat (length tl) → (Z.of_nat idx + k) mod interval ≠ 0) →
  Fold5.logged_losses interval acc idx tl = [].
Proof.
  revert acc idx. induction tl as [|v tl IH]; intros acc idx Hmid; [done|].
  simpl. rewrite decide_False by (apply Hmid; simpl; lia).
  apply IH. intros k Hk.
  replace (Z.of_nat (S idx) + k) with (Z.of_nat idx + (k + 1)) by lia.
  apply Hmid. simpl length. lia.
Qed.

(** The log of a sequence of losses, window by window: the mean of each
    full window. *)
Lemma fold5_logged_losses_windows (interval : Z) (ws : list (list fval))
    (tl : list fval) (k : nat) :
  0 < interval →
  Forall (λ w, length w = Z.to_nat interval) ws →
  (length tl < Z.to_nat interval)%nat →
  Fold5.logged_losses interval (Fin 0) (k * Z.to_nat interval) (concat ws ++ tl) =
    Age.mean <$> ws.
Proof.
  intros HL Hws Htl. revert k.
  induction Hws as [|w ws Hw _ IH]; intros k.
  - simpl. apply fold5_logged_losses_short. intros j Hj.
    rewrite Nat2Z.inj_mul, Z2Nat.id by lia.
    rewrite Z.add_comm, Z.mod_add by lia. rewrite Z.mod_small by lia. lia.
  - simpl. rewrite <- app_assoc. rewrite fold5_logged_losses_window.
    + f_equal.
      * unfold Age.mean, fsum. by rewrite Hw, Z2Nat.id by lia.
      * rewrite Hw. replace (k * Z.to_nat interval + Z.to_nat interval)%nat
          with (S k * Z.to_nat interval)%nat by lia.
        apply IH.
    + destruct w; [simpl in Hw; lia | done].
    + rewrite Hw, Nat2Z.inj_mul, Z2Nat.id by lia.
      replace (Z.of_nat k * interval + interval) with ((Z.of_nat k + 1) * interval)
        by lia.
      apply Z.mod_mul. lia.
    + intros j Hj. rewrite Hw, Z2Nat.id in Hj by lia.
      rewrite Nat2Z.inj_mul, Z2Nat.id by lia.
      rewrite Z.add_comm, Z.mod_add by lia. rewrite Z.mod_small by lia. lia.
Qed.

Section WithFramework.
Context `{Framework}.

Lemma fold5_train_step_log (a : Fold5.args) (st : Fold5.train_state)
    (idx : nat) (b : list Fold5.sample) :
  Fold5.log_interval a ≠ 0 → Fold5.batch_size a ≠ 0%nat →
  let labels := Fold5.get_labels (Fold5.arg_task a) (Fold5.s_labels <$> b) in
  let v := criterion (forward (Fold5.ts_params st) (Fold5.s_image <$> b)) labels in
  ∃ st',
    Fold5.train_step a st idx b = Ok st'
    ∧ Fold5.ts_backward st' = Fold5.ts_backward st ++ [v]
    ∧ Fold5.ts_params st' =
        optimizer_step (Fold5.ts_params st) (Fold5.s_image <$> b) [labels]
    ∧ (let acc' := fadd (Fold5.loss_value (Fold5.ts_accum st)) v in
       if decide ((Z.of_nat idx + 1) mod Fold5.log_interval a = 0)
       then Fold5.train_loss <$> Fold5.ts_logs st' =
              (Fold5.train_loss <$> Fold5.ts_logs st)
                ++ [fdiv acc' (of_Z (Fold5.log_interval a))]
            ∧ Fold5.loss_value (Fold5.ts_accum st') = Fin 0
       else Fold5.ts_logs st' = Fold5.ts_logs st
            ∧ Fold5.loss_value (Fold5.ts_accum st') = acc').
Proof.
  intros HL Hbs labels v. unfold Fold5.train_step.
  rewrite py_mod_Ok by done. cbn [mbind result_bind].
  destruct (decide ((Z.of_nat idx + 1) mod Fold5.log_interval a = 0)) as [E|E].
  - repeat (rewrite py_truediv_Ok by (done || lia); cbn [mbind result_bind]).
    eexists. split; [reflexivity|].
    cbn [Fold5.ts_backward Fold5.ts_params Fold5.ts_logs Fold5.ts_accum
         Fold5.loss_value Fold5.accum0].
    split; [done|]. split; [done|]. split; [|done]. by rewrite fmap_app.
  - eexists. split; [reflexivity|]. done.
Qed.

Lemma fold5_train_loop_spec (a : Fold5.args)
    (batches : list (list Fold5.sample)) (st : Fold5.train_state) (idx : nat) :
  Fold5.log_interval a ≠ 0 → Fold5.batch_size a ≠ 0%nat →
  ∃ st' vs,
    Fold5.train_loop a st idx batches = Ok st'
    ∧ Fold5.ts_backward st' = Fold5.ts_backward st ++ vs
    ∧ Fold5.loss_trace a (Fold5.ts_params st) batches vs
    ∧ Fold5.train_loss <$> Fold5.ts_logs st' =
        (Fold5.train_loss <$> Fold5.ts_logs st)
          ++ Fold5.logged_losses (Fold5.log_interval a)
               (Fold5.loss_value (Fold5.ts_accum st)) idx vs.
Proof.
  intros HL Hbs. revert st idx.
  induction batches as [|b bs IH]; intros st idx.
  - exists st, []. simpl. by rewrite !app_nil_r.
  - destruct (fold5_train_step_log a st idx b HL Hbs)
      as (st1 & Hstep & Hback & Hp & Hlog).
    destruct (IH st1 (S idx)) as (st' & vs & Hloop & Hback' & Htrace & Hlogs').
    eexists st', (_ :: vs). simpl. rewrite Hstep. cbn [mbind result_bind].
    split; [done|]. split.
    { by rewrite Hback', Hback, <- app_assoc. }
    split.
    { split; [done|]. by rewrite <- Hp. }
    rewrite Hlogs'. cbn zeta in Hlog.
    destruct (decide ((Z.of_nat idx + 1) mod Fold5.log_interval a = 0)).
    + destruct Hlog as [-> ->]. by rewrite <- app_assoc.
    + destruct Hlog as [-> ->]. done.
Qed.

(** X10: the running sum of [train_5fold.py] adds [loss.item()] itself, so
    the training loss logged at the end of each window of [log_interval]
    batches is the mean of the losses backpropagated in that window (not
    its half, as in [train_age.py]); batches after the last full window
    are not logged. *)
Theorem fold5_train_loss_is_mean (a : Fold5.args) (p : params)
    (inputs : option (list image)) (batches : list (list Fold5.sample)) :
  0 < Fold5.log_interval a → Fold5.batch_size a ≠ 0%nat →
  ∃ st',
    Fold5.train_loop a
      {| Fold5.ts_params := p; Fold5.ts_inputs := inputs;
         Fold5.ts_accum := Fold5.accum0;
         Fold5.ts_backward := []; Fold5.ts_logs := [] |} 0 batches = Ok st'
    ∧ Fold5.loss_trace a p batches (Fold5.ts_backward st')
    ∧ ∀ ws tl,
        Fold5.ts_backward st' = concat ws ++ tl →
        Forall (λ w, length w = Z.to_nat (Fold5.log_interval a)) ws →
        (length tl < Z.to_nat (Fold5.log_interval a))%nat →
        Fold5.train_loss <$> Fold5.ts_logs st' = Age.mean <$> ws.
Proof.
  intros HL Hbs.
  destruct (fold5_train_loop_spec a batches
              {| Fold5.ts_params := p; Fold5.ts_inputs := inputs;
                 Fold5.ts_accum := Fold5.accum0;
                 Fold5.ts_backward := []; Fold5.ts_logs := [] |} 0
              ltac:(lia) Hbs)
    as (st' & vs & Hloop & Hback & Htrace & Hlogs).
  simpl in Hback, Htrace, Hlogs. subst vs.
  exists st'. split; [done|]. split; [done|].
  intros ws tl Hsplit Hws Htl.
  rewrite Hlogs, Hsplit.
  apply (fold5_logged_losses_windows (Fold5.log_interval a) ws tl 0 HL Hws Htl).
Qed.

End WithFramework.

Import Toy.

Lemma fold5_train_loss_is_mean_witness :
  ∃ st' v,
    Fold5.train_loop (H := toy 18) fold_args
      (@Fold5.Build_train_state (toy 18) 0%nat None Fold5.accum0 [] []) 0
      (fold_train_loader 0 0) = Ok st'
    ∧ Fold5.ts_backward st' = [v]
    ∧ Fold5.train_loss <$> Fold5.ts_logs st' = [Age.mean [v]].
Proof.
  destruct (fold5_train_loss_is_mean (H := toy 18) fold_args 0%nat None
              (fold_train_loader 0 0)) as (st' & Hloop & Htrace & Hlogs).
  - simpl. lia.
  - simpl. lia.
  - destruct (Fold5.ts_backward st') as [|v [|v' vs]] eqn:E.
    + destruct Htrace.
    + exists st', v. split; [exact Hloop|]. split; [exact E|].
      apply (Hlogs [[v]] []).
      * reflexivity.
      * repeat constructor.
      * simpl. lia.
    + destruct Htrace as [_ []].
Defined.

End FoldLoggedLossFacts.

(** ** The validation accuracy *)

Module ValAccuracyFacts.
Import TensorFacts ValidationFacts.








Section WithFramework.
Context `{Framework}.




End WithFramework.

Import Toy.




End ValAccuracyFacts.

(** ** The three bucket scores of [train_age.py] *)

Module BucketBoundFacts.
Import TensorFacts AgeLossFacts.





End BucketBoundFacts.

(** ** The outcome of a call of [train_models] *)

Module TrainModelsOutcomeFacts.
Import TrainModels NameFacts.




End TrainModelsOutcomeFacts.

(** ** The labels handed to the criterion in [train_5fold.py] *)

Module TaskLabelFacts.

(** X14: for each of the four tasks, [get_labels] turns a batch of combined
    labels in [0, 18) into as many labels in [0, get_num_classes(task)), the
    number of outputs of the model created for the task; the sub-labels are
    those of [decode_multi_class] as the spec describes it. *)
Theorem labels_fit_the_model_head (t : Fold5.task) (labels : list Z) :
  Forall (λ l, 0 ≤ l < 18) labels →
  length (Fold5.get_labels t labels) = length labels
  ∧ Forall (λ l, 0 ≤ l < Fold5.get_num_classes t) (Fold5.get_labels t labels).
Proof.
  intros Hl. destruct t; simpl.
  - done.
  - split; [apply length_fmap|]. apply Forall_fmap, Forall_true.
    intros l. simpl. apply Z.mod_pos_bound. lia.
  - split; [apply length_fmap|]. apply Forall_fmap, Forall_true.
    intros l. simpl. apply Z.mod_pos_bound. lia.
  - split; [apply length_fmap|]. apply Forall_fmap, Forall_true.
    intros l. simpl. apply Z.mod_pos_bound. lia.
Qed.

Lemma labels_fit_the_model_head_witness :
  length (Fold5.get_labels Fold5.TaskGender [0; 4; 17]) = 3%nat
  ∧ Forall (λ l, 0 ≤ l < 2) (Fold5.get_labels Fold5.TaskGender [0; 4; 17]).
Proof.
  apply (labels_fit_the_model_head Fold5.TaskGender [0; 4; 17]).
  repeat (apply Forall_cons_2; [lia|]). apply Forall_nil_2.
Defined.

End TaskLabelFacts.
